(** * MDAC automation: session orchestration, manual gate, field setters

    A shallow embedding of [mdac_automation.py] (with the row records of
    [models.py]) and of the batch endpoints of [main.py], and the
    properties of the gate, the session factory, the artifact finalizer,
    the field-setting helpers, the two workflows and the endpoints.

    Conventions of the embedding.
    - A Python [str] is a [string] whose characters are read as code
      points below 256; [Optional[str]] is [option string].
    - The browser, the file system and the clock are an environment
      that answers every awaited call; its answer may depend on the
      whole history of the run.  Requests that other tasks of the event
      loop send to the gate while the workflow is suspended in an await
      are part of that answer.
    - Exceptions are those caught by [except Exception]. *)

From Stdlib Require Import ZArith NArith Ascii String List Lia.
From stdpp Require Import base option gmap strings list pretty.

Open Scope string_scope.

(** ** Python string primitives *)

Module PyStr.

Definition code (a : ascii) : N := Ascii.N_of_ascii a.

(** [str.isspace] on one character; also the class [\s]. *)
Definition is_space (a : ascii) : bool :=
  let n := code a in
  ((9 <=? n) && (n <=? 13) || (28 <=? n) && (n <=? 32)
   || (n =? 133) || (n =? 160))%N.

(** The class [\d]. *)
Definition is_digit (a : ascii) : bool :=
  let n := code a in ((48 <=? n) && (n <=? 57))%N.

Fixpoint lstrip (s : string) : string :=
  match s with
  | EmptyString => EmptyString
  | String a s' => if is_space a then lstrip s' else s
  end.

Fixpoint rstrip (s : string) : string :=
  match s with
  | EmptyString => EmptyString
  | String a s' =>
      match rstrip s' with
      | EmptyString => if is_space a then EmptyString else String a EmptyString
      | r => String a r
      end
  end.

Definition strip (s : string) : string := rstrip (lstrip s).

Definition lower_char (a : ascii) : ascii :=
  let n := code a in
  if ((65 <=? n) && (n <=? 90)
      || (192 <=? n) && (n <=? 222) && negb (n =? 215))%N
  then Ascii.ascii_of_N (n + 32) else a.

Fixpoint lower (s : string) : string :=
  match s with
  | EmptyString => EmptyString
  | String a s' => String (lower_char a) (lower s')
  end.

Fixpoint startswith (s p : string) : bool :=
  match p, s with
  | EmptyString, _ => true
  | String _ _, EmptyString => false
  | String b p', String a s' => Ascii.eqb a b && startswith s' p'
  end.

(** Truthiness of an optional string: [None] and [""] are falsy. *)
Definition truthy (o : option string) : bool :=
  match o with
  | None | Some EmptyString => false
  | Some _ => true
  end.

(** [o or d] for an optional string. *)
Definition or_else (o : option string) (d : string) : string :=
  match o with
  | Some (String a s) => String a s
  | _ => d
  end.

(** Rendering inside an f-string. *)
Definition fmt (o : option string) : string :=
  match o with
  | None => "None"
  | Some s => s
  end.

End PyStr.

(** ** Regular expressions used by the source

    Each pattern of the source is anchored and has no alternation, so it
    is written as a sequence of consumers on the remaining input. *)

Module Re.
Import PyStr.

(** [(\d{n})]: exactly [n] digits, returned with the rest. *)
Fixpoint digits (n : nat) (s : string) : option (string * string) :=
  match n with
  | O => Some (EmptyString, s)
  | S n' =>
      match s with
      | String a s' =>
          if is_digit a
          then '(d, r) ← digits n' s'; Some (String a d, r)
          else None
      | EmptyString => None
      end
  end.

(** A literal character. *)
Definition lit (c : ascii) (s : string) : option string :=
  match s with
  | String a s' => if Ascii.eqb a c then Some s' else None
  | EmptyString => None
  end.

(** [$] without MULTILINE: the end, or just before a final newline. *)
Definition at_end (s : string) : bool :=
  match s with
  | EmptyString => true
  | String a EmptyString => Ascii.eqb a "010"%char
  | _ => false
  end.

(** Three digit groups of the given widths around a separator,
    anchored at both ends. *)
Definition three_groups (n1 n2 n3 : nat) (sep : ascii) (s : string)
  : option (string * string * string) :=
  '(g1, r) ← digits n1 s;
  r ← lit sep r;
  '(g2, r) ← digits n2 r;
  r ← lit sep r;
  '(g3, r) ← digits n3 r;
  if at_end r then Some (g1, g2, g3) else None.

(** [(\d{1,k})], greedy: up to [k] digits, at least one. *)
Fixpoint upto_digits (k : nat) (s : string) : string * string :=
  match k, s with
  | S k', String a s' =>
      if is_digit a
      then let '(d, r) := upto_digits k' s' in (String a d, r)
      else (EmptyString, s)
  | _, _ => (EmptyString, s)
  end.

Definition some_digits (k : nat) (s : string) : option (string * string) :=
  match upto_digits k s with
  | (EmptyString, _) => None
  | p => Some p
  end.

(** [\s*] *)
Definition skip_space (s : string) : string := lstrip s.

(** An optional literal, greedy. *)
Definition opt_lit (c : ascii) (s : string) : string :=
  match lit c s with
  | Some r => r
  | None => s
  end.

End Re.

(** ** Code mappings (lines 322-336) *)

Definition _map_gender (g : option string) : string :=
  match g with
  | None | Some EmptyString => ""
  | Some g =>
      let g := PyStr.lower (PyStr.strip g) in
      if PyStr.startswith g "m" then "1"
      else if PyStr.startswith g "f" then "2"
      else ""
  end.

Definition _map_mode (m : option string) : string :=
  match m with
  | None | Some EmptyString => ""
  | Some m =>
      let m := PyStr.lower (PyStr.strip m) in
      if PyStr.startswith m "air" then "1"
      else if PyStr.startswith m "land" then "2"
      else if PyStr.startswith m "sea" then "3"
      else ""
  end.

(** ** Date normalisation (lines 362-376 of [set_date_by_id]) *)

(** The groups [(dd, mm, yyyy)], or [None] for an unsupported format. *)
Definition date_groups (date_str : option string)
  : option (string * string * string) :=
  let s := PyStr.strip (PyStr.or_else date_str "") in
  match Re.three_groups 4 2 2 "-" s with
  | Some (g1, g2, g3) => Some (g3, g2, g1)
  | None =>
      match Re.three_groups 2 2 4 "-" s with
      | Some (g1, g2, g3) => Some (g1, g2, g3)
      | None =>
          match Re.three_groups 2 2 4 "/" s with
          | Some (g1, g2, g3) => Some (g1, g2, g3)
          | None => None
          end
      end
  end.

Definition ddmmyyyy (g : string * string * string) : string :=
  let '(dd, mm, yyyy) := g in dd ++ "/" ++ mm ++ "/" ++ yyyy.

(** ** Values, exceptions, paths and patterns *)

Record exn := Exn { exc_class : string; exc_msg : string }.

Inductive result (A : Type) : Type :=
| Ok (a : A)
| Raise (e : exn).

Arguments Ok {A} a.
Arguments Raise {A} e.

(** What an awaited call may hand back. [VObj] is an opaque library
    object (browser, context, page, download, response). *)
#[warnings="-register-all"] Inductive value :=
| VNone
| VBool (b : bool)
| VInt (n : Z)
| VStr (s : string)
| VObj (id : nat)
| VDict (items : list (string * value)).

(** Truthiness, as [if v:] tests it. *)
Definition py_truthy (v : value) : bool :=
  match v with
  | VNone => false
  | VBool b => b
  | VInt n => negb (n =? 0)%Z
  | VStr s => negb (String.eqb s "")
  | VObj _ => true
  | VDict nil => false
  | VDict (_ :: _) => true
  end.

(** [str(v)] as an f-string renders it; the text of an opaque object or
    of a dictionary is left schematic. *)
Definition py_str (v : value) : string :=
  match v with
  | VNone => "None"
  | VBool true => "True"
  | VBool false => "False"
  | VInt n => pretty n
  | VStr s => s
  | VObj id => "<object " ++ pretty id ++ ">"
  | VDict _ => "{...}"
  end.

(** [d.get(k)]: [None] for a missing key, [AttributeError] on a value
    without that method. *)
Fixpoint assoc (k : string) (items : list (string * value)) : value :=
  match items with
  | nil => VNone
  | (k', v) :: rest => if String.eqb k k' then v else assoc k rest
  end.

Definition dict_get (d : value) (k : string) : result value :=
  match d with
  | VDict items => Ok (assoc k items)
  | _ => Raise (Exn "AttributeError" "get")
  end.

(** [pathlib.Path] on a POSIX host.  A path object is kept as the
    expression that built it, from a string or by [/]; what [pathlib]
    makes of it is [path_parts], and [str(path)] is [path_str]. *)
Inductive Path :=
| PathOf (s : string)
| PathDiv (p : Path) (name : string).

Module PurePosixPath.

(** [s.split("/")] *)
Fixpoint split (s : string) : list string :=
  match s with
  | EmptyString => [EmptyString]
  | String a s' =>
      if Ascii.eqb a "/" then EmptyString :: split s'
      else
        match split s' with
        | c :: cs => String a c :: cs
        | nil => [String a EmptyString]
        end
  end.

(** [splitroot]: one leading slash, or exactly two, is the root; three
    or more count as one. *)
Definition splitroot (part : string) : string * string :=
  match part with
  | String a r =>
      if Ascii.eqb a "/" then
        match r with
        | String b r2 =>
            if Ascii.eqb b "/" then
              match r2 with
              | String c _ => if Ascii.eqb c "/" then ("/", r) else ("//", r2)
              | EmptyString => ("//", r2)
              end
            else ("/", r)
        | EmptyString => ("/", r)
        end
      else ("", part)
  | EmptyString => ("", part)
  end.

(** A component is kept unless it is empty or a single dot. *)
Definition kept (x : string) : bool :=
  negb (String.eqb x "") && negb (String.eqb x ".").

(** [parse_parts] on one string: the root and the components. *)
Definition parse (part : string) : string * list string :=
  let '(root, rel) := splitroot part in
  (root, List.filter kept (split rel)).

(** ["/".join(parts)] *)
Fixpoint join (parts : list string) : string :=
  match parts with
  | nil => ""
  | [x] => x
  | x :: rest => x ++ "/" ++ join rest
  end.

End PurePosixPath.

(** The root and the components of a path: an absolute right operand
    of [/] replaces the left one. *)
Fixpoint path_parts (p : Path) : string * list string :=
  match p with
  | PathOf s => PurePosixPath.parse s
  | PathDiv p name =>
      let '(root2, parts2) := PurePosixPath.parse name in
      if String.eqb root2 "" then
        let '(root, parts) := path_parts p in (root, parts ++ parts2)%list
      else (root2, parts2)
  end.

(** [str(path)] *)
Definition path_str (p : Path) : string :=
  let '(root, parts) := path_parts p in
  match root, parts with
  | EmptyString, nil => "."
  | _, _ => root ++ PurePosixPath.join parts
  end.

(** [re.compile(pattern, re.I)] *)
Record Pattern := re_compile { pattern : string; re_I : bool }.

(** ** Config (lines 19-23) *)

Definition BASE : string := "https://imigresen-online.imi.gov.my/mdac/main".

Record Config := {
  HEADLESS_DEFAULT : bool;
  LOG_NETWORK : bool;
  GATE_WAIT_SECONDS : Z;
  RECORD_TRACE : bool
}.

(** ** Rows ([models.py]) *)

Module RegisterRow.
Record t := {
  passport : string;
  nationality : string;
  fullName : string;
  gender : string;
  dateOfBirth : string;
  passportExpiryDate : string;
  departureDate : string;
  arrivalDate : string;
  arrivalMode : string;
  flightNo : option string;
  departureCountry : option string;
  arrivalPoint : option string;
  phone : option string;
  email : option string;
  addressInMalaysia : option string;
  purposeOfVisit : option string
}.
End RegisterRow.

Module PinRow.
Record t := {
  passport : string;
  nationality : string;
  pin : string
}.
End PinRow.

(** ** The library calls of the source *)

Inductive Locator :=
| get_by_role (role : string) (name : Pattern)
| locator (sel : string)
| first (l : Locator).

(** Scripts handed to the page. [JsSetDate] is the widget cascade of
    lines 388-487 together with its [cfg] argument. *)
Inductive script :=
| JsSetDate (sel val dd mm yyyy : string)
| JsConsoleLog (text : string)
| JsCityPopulated
| JsFirstCity
| JsElValue.

Inductive page_method :=
| Goto (url : string) (wait_until : string) (timeout : Z)
| Url
| On (event : string)
| Video
| Count (l : Locator)
| First (l : Locator)
| LocClick (l : Locator) (timeout : option Z)
| IsVisible (l : Locator)
| WaitForSelector (sel : string) (state : option string) (timeout : Z)
| Fill (css val : string)
| SelectOption (css val : string)
| Evaluate (js : script)
| WaitForFunction (js : script) (timeout : Z)
| EvalOnSelector (sel : string) (js : script)
| WaitForTimeout (ms : Z)
| Click (sel : string) (timeout : Z)
| KeyboardPress (key : string)
| InnerText (sel : string)
| Screenshot (path : string) (full_page : bool)
| WaitForEvent (event : string) (predicate : option string) (timeout : Z)
| ExpectPopup (timeout : Z)
| PopupValue
| Close.

Record context_kwargs := {
  viewport : Z * Z;
  accept_downloads : bool;
  record_video_dir : option string;
  record_video_size : option (Z * Z)
}.

Inductive call :=
| PlaywrightStart
| ChromiumLaunch (pw : value) (headless : bool) (args : list string)
| NewContext (browser : value) (kw : context_kwargs)
| TracingStart (context : value)
| TracingStop (context : value) (path : string)
| ContextClose (context : value)
| NewPage (context : value)
| VideoPath (video : value)
| PageCall (page : value) (m : page_method)
| SuggestedFilename (download : value)
| SaveAs (download : value) (path : string)
| ResponseBody (response : value)
| Mkdir (p : Path)
| WriteBytes (p : Path) (content : value)
| LoopTimeMillis
| GateWait (ev : nat) (timeout : Z).

(** ** The gate (lines 56-71)

    An [asyncio.Event] is an object of the heap; the heap is the list of
    the [is_set] flags and a reference is an index into it. *)

Module ManualGate.

Record t := Build { _events : gmap string nat }.

Definition __init__ : t := {| _events := ∅ |}.

Definition create (self : t) (token : string) (heap : list bool)
  : nat * t * list bool :=
  let ev := length heap in
  (ev, {| _events := <[token := ev]> (_events self) |},
   (heap ++ [false])%list).

(** An [asyncio.Event] is always truthy: [not ev] tests that [get]
    found no event. *)
Definition resume (self : t) (token : string) (heap : list bool)
  : bool * t * list bool :=
  match _events self !! token with
  | None => (false, self, heap)
  | Some ev =>
      (true, {| _events := delete token (_events self) |}, <[ev := true]> heap)
  end.

End ManualGate.

(** [ev.is_set()] *)
Definition is_set (heap : list bool) (ev : nat) : bool :=
  match heap !! ev with
  | Some b => b
  | None => false
  end.

(** ** Artifacts (lines 75-79) *)

Record ContextArtifacts := {
  video_path : option Path;
  trace_path : option Path;
  screenshots_dir : option Path
}.

Inductive field := f_video_path | f_trace_path.

Definition setattr (a : ContextArtifacts) (f : field) (p : Path)
  : ContextArtifacts :=
  match f with
  | f_video_path =>
      {| video_path := Some p; trace_path := trace_path a;
         screenshots_dir := screenshots_dir a |}
  | f_trace_path =>
      {| video_path := video_path a; trace_path := Some p;
         screenshots_dir := screenshots_dir a |}
  end.

(** ** The world and the monad of the workflows *)

(** A request that another task of the event loop sends to the gate:
    the [/resume/{token}] endpoint, or the [create] of another
    workflow. *)
Inductive gate_request :=
| ReqResume (token : string)
| ReqCreate (token : string).

Inductive level := Info | Okay | Warn | Err | Exc | Date.

Inductive event :=
| Log (lvl : level) (msg : string) (e : option exn)
| Called (c : call) (r : result value)
| Served (rq : gate_request) (ok : bool)
| Assigned (artifacts : nat) (f : field) (p : Path).

Definition environment : Type :=
  list event -> call -> list gate_request * result value.

Record world := World {
  w_trace : list event;
  w_env : environment;
  w_gate : ManualGate.t;
  w_events : list bool;
  w_artifacts : list ContextArtifacts
}.

Definition push (ev : event) (w : world) : world :=
  World (ev :: w_trace w) (w_env w) (w_gate w) (w_events w) (w_artifacts w).

Definition with_gate (g : ManualGate.t) (heap : list bool) (w : world)
  : world :=
  World (w_trace w) (w_env w) g heap (w_artifacts w).

Definition with_artifacts (arts : list ContextArtifacts) (w : world)
  : world :=
  World (w_trace w) (w_env w) (w_gate w) (w_events w) arts.

Definition M (A : Type) : Type := world -> result A * world.

#[export] Instance M_ret : MRet M := fun A a w => (Ok a, w).

#[export] Instance M_bind : MBind M := fun A B k m w =>
  match m w with
  | (Ok a, w') => k a w'
  | (Raise e, w') => (Raise e, w')
  end.

Definition raise {A} (e : exn) : M A := fun w => (Raise e, w).

(** [try: body / except Exception as e: handler e] *)
Definition try_except {A} (body : M A) (handler : exn -> M A) : M A :=
  fun w =>
    match body w with
    | (Ok a, w') => (Ok a, w')
    | (Raise e, w') => handler e w'
    end.

Definition lift {A} (r : result A) : M A := fun w => (r, w).

Definition emit (ev : event) : M unit := fun w => (Ok tt, push ev w).

(** The loop runs one request of another task. *)
Definition serve (w : world) (rq : gate_request) : world :=
  match rq with
  | ReqResume token =>
      let '(ok, g, heap) := ManualGate.resume (w_gate w) token (w_events w) in
      push (Served rq ok) (with_gate g heap w)
  | ReqCreate token =>
      let '(_, g, heap) := ManualGate.create (w_gate w) token (w_events w) in
      push (Served rq true) (with_gate g heap w)
  end.

Fixpoint deliver (rqs : list gate_request) (w : world) : world :=
  match rqs with
  | nil => w
  | rq :: rest => deliver rest (serve w rq)
  end.

(** [await c]: the task is suspended, the loop runs the requests that
    arrive meanwhile, then the call completes. *)
Definition await (c : call) : M value := fun w =>
  let '(rqs, r) := w_env w (w_trace w) c in
  (r, push (Called c r) (deliver rqs w)).

(** A call that does not suspend the task. *)
Definition invoke (c : call) : M value := fun w =>
  let r := snd (w_env w (w_trace w) c) in
  (r, push (Called c r) w).

(** ** Logging (lines 25-43) *)

Definition log (msg : string) : M unit := emit (Log Info msg None).
Definition log_ok (step : string) : M unit := emit (Log Okay step None).
Definition log_warn (step : string) : M unit := emit (Log Warn step None).
Definition log_err (step : string) (e : option exn) : M unit :=
  emit (Log Err step e).
Definition log_exc (step : string) (e : exn) : M unit :=
  emit (Log Exc step (Some e)).
(** The bare [print] of a date line. *)
Definition log_date (msg : string) : M unit := emit (Log Date msg None).

(** ** Small Python idioms *)

(** [getattr(obj, name, None)]: only [AttributeError] yields the
    default. *)
Definition getattr_or_none (c : call) : M value :=
  try_except (invoke c)
    (fun e => if String.eqb (exc_class e) "AttributeError"
              then mret VNone else raise e).

(** [Path(v)] *)
Definition path_of_value (v : value) : result Path :=
  match v with
  | VStr s => Ok (PathOf s)
  | _ => Raise (Exn "TypeError" "expected str, bytes or os.PathLike object")
  end.

(** [s[:n]] *)
Definition take_str (n : nat) (s : string) : string := String.substring 0 n s.

(** [s.replace(os.linesep, " ")] with the line separator of Linux. *)
Fixpoint replace_linesep (s : string) : string :=
  match s with
  | EmptyString => EmptyString
  | String a s' =>
      String (if Ascii.eqb a "010"%char then " "%char else a)
        (replace_linesep s')
  end.

(** [re.sub(r"[^\d+]", "", s)] *)
Fixpoint keep_digits_plus (s : string) : string :=
  match s with
  | EmptyString => EmptyString
  | String a s' =>
      if PyStr.is_digit a || Ascii.eqb a "+"%char
      then String a (keep_digits_plus s') else keep_digits_plus s'
  end.

(** [0{k}] *)
Fixpoint zeros (k : nat) (s : string) : option string :=
  match k with
  | O => Some s
  | S k' => r ← Re.lit "0"%char s; zeros k' r
  end.

(** [re.match(r"^\+?0{0,2}(\d{1,3})", s)], group 1.  The quantifiers are
    greedy and give back on failure. *)
Definition region_match (s : string) : option string :=
  let after_zeros (k : nat) (s : string) : option string :=
    r ← zeros k s; fst <$> Re.some_digits 3 r in
  let after_plus (s : string) : option string :=
    match after_zeros 2 s with
    | Some c => Some c
    | None =>
        match after_zeros 1 s with
        | Some c => Some c
        | None => after_zeros 0 s
        end
    end in
  match Re.lit "+"%char s with
  | Some r =>
      match after_plus r with
      | Some c => Some c
      | None => after_plus s
      end
  | None => after_plus s
  end.

(** [re.sub(r"^\+?\d{1,3}\s*[-]?\s*", "", phone)] *)
Definition sub_dial_prefix (phone : string) : string :=
  let after_plus (s : string) : option string :=
    '(_, r) ← Re.some_digits 3 s;
    Some (Re.skip_space (Re.opt_lit "-"%char (Re.skip_space r))) in
  let m :=
    match Re.lit "+"%char phone with
    | Some r =>
        match after_plus r with
        | Some x => Some x
        | None => after_plus phone
        end
    | None => after_plus phone
    end in
  match m with
  | Some rest => rest
  | None => phone
  end.

(** The page object together with the attribute [_mdac_screens] that
    [open_context] attaches to it before handing it out. *)
Record Page := { page_obj : value; _mdac_screens : option Path }.

Definition pg (page : Page) (m : page_method) : call :=
  PageCall (page_obj page) m.

(** [obj.field = p] on a [ContextArtifacts] object of the heap. *)
Definition assign (artifacts : nat) (f : field) (p : Path) : M unit :=
  fun w =>
    (Ok tt,
     push (Assigned artifacts f p)
       (with_artifacts
          (alter (fun a => setattr a f p) artifacts (w_artifacts w)) w)).

Definition new_artifacts (a : ContextArtifacts) : M nat := fun w =>
  (Ok (length (w_artifacts w)),
   with_artifacts (w_artifacts w ++ [a])%list w).

(** [GATE.create(token)] on the gate of the process. *)
Definition GATE_create (token : string) : M nat := fun w =>
  let '(ev, g, heap) := ManualGate.create (w_gate w) token (w_events w) in
  (Ok ev, with_gate g heap w).

Definition asyncio_TimeoutError : exn := Exn "TimeoutError" "".

(** [await asyncio.wait_for(ev.wait(), timeout)]: the task is suspended
    and the loop runs the requests that arrive meanwhile; the wait
    returns when the event has been set, and ends with [TimeoutError]
    at the ceiling otherwise. *)
Definition wait_for_event (ev : nat) (timeout : Z) : M unit := fun w =>
  let c := GateWait ev timeout in
  let w' := deliver (fst (w_env w (w_trace w) c)) w in
  if is_set (w_events w') ev
  then (Ok tt, push (Called c (Ok (VBool true))) w')
  else (Raise asyncio_TimeoutError,
        push (Called c (Raise asyncio_TimeoutError)) w').

(** [try: body / except cls: handler] *)
Definition try_except_class {A} (cls : string) (body : M A) (handler : M A)
  : M A :=
  fun w =>
    match body w with
    | (Ok a, w') => (Ok a, w')
    | (Raise e, w') =>
        if String.eqb (exc_class e) cls then handler w' else (Raise e, w')
    end.

(** ** The source functions *)

Section Source.

Variable cfg : Config.

(** Lines 83-156.  Only the registrations are part of the workflow; the
    handlers run when the browser fires an event. *)
Definition _attach_listeners (page : value) : M unit :=
  invoke (PageCall page (On "console"));;
  invoke (PageCall page (On "pageerror"));;
  invoke (PageCall page (On "dialog"));;
  (if LOG_NETWORK cfg
   then invoke (PageCall page (On "request"));;
        invoke (PageCall page (On "response"));;
        invoke (PageCall page (On "requestfailed"));;
        mret tt
   else mret tt);;
  invoke (PageCall page (On "framenavigated"));;
  mret tt.

Definition _get_screens_dir (page : Page) : option Path :=
  _mdac_screens page.

(** Lines 163-173. *)
Definition _screenshot (page : Page) (name : string) : M unit :=
  match _get_screens_dir page with
  | None => mret tt
  | Some target_dir =>
      try_except
        (invoke (Mkdir target_dir);;
         let path := PathDiv target_dir (name ++ ".png") in
         await (pg page (Screenshot (path_str path) true));;
         log_ok ("Screenshot: " ++ path_str path))
        (fun e => log_err ("screenshot failed (" ++ name ++ ")") (Some e))
  end.

Definition launch_args : list string :=
  ["--no-sandbox"; "--disable-dev-shm-usage"; "--start-maximized"].

Definition base_kwargs : context_kwargs :=
  {| viewport := (1280, 900)%Z; accept_downloads := true;
     record_video_dir := None; record_video_size := None |}.

Definition video_kwargs (dir : Path) : context_kwargs :=
  {| viewport := (1280, 900)%Z; accept_downloads := true;
     record_video_dir := Some (path_str dir);
     record_video_size := Some (1280, 800)%Z |}.

(** Lines 177-242. *)
Definition open_context (download_dir : option Path) (headless : option bool)
    (record_video_dir : option Path) : M (value * Page * nat) :=
  let headless := default (HEADLESS_DEFAULT cfg) headless in
  pw ← await PlaywrightStart;
  log ("Launching Chromium headless=" ++ py_str (VBool headless));;
  browser ← await (ChromiumLaunch pw headless launch_args);
  '(ctx_kwargs, screenshots_dir) ←
    match record_video_dir with
    | Some dir =>
        try_except
          (invoke (Mkdir dir);;
           log_ok ("Video+Screens dir ready: " ++ path_str dir);;
           mret (video_kwargs dir, Some (PathDiv dir "screens")))
          (fun e =>
             log_err "Failed to prepare record_video_dir" (Some e);;
             mret (base_kwargs, None))
    | None => mret (base_kwargs, None)
    end;
  context ← await (NewContext browser ctx_kwargs);
  log_ok "New browser context created";;
  (if RECORD_TRACE cfg && bool_decide (is_Some record_video_dir)
   then try_except
          (await (TracingStart context);; log_ok "Tracing started")
          (fun e => log_err "Tracing start failed" (Some e))
   else mret tt);;
  page ← await (NewPage context);
  log_ok "New page created";;
  _attach_listeners page;;
  match screenshots_dir with
  | Some dir => log_ok ("Attached screenshots dir to page: " ++ path_str dir)
  | None => mret tt
  end;;
  match download_dir with
  | Some dir =>
      try_except
        (invoke (Mkdir dir);; log_ok ("Download dir ready: " ++ path_str dir))
        (fun e => log_err "Failed to prepare download_dir" (Some e))
  | None => mret tt
  end;;
  artifacts ← new_artifacts
    {| video_path := None; trace_path := None;
       screenshots_dir := screenshots_dir |};
  mret (context, {| page_obj := page; _mdac_screens := screenshots_dir |},
        artifacts).

(** Lines 251-259 of [_finalize_artifacts]: stop the trace. *)
Definition finalize_trace (context : value) (artifacts : nat)
    (record_dir : option Path) : M unit :=
  match record_dir with
  | Some dir =>
      if RECORD_TRACE cfg then
        let trace_zip := PathDiv dir "trace.zip" in
        try_except
          (await (TracingStop context (path_str trace_zip));;
           assign artifacts f_trace_path trace_zip;;
           log_ok ("Trace saved: " ++ path_str trace_zip))
          (fun e => log_err "Trace stop failed" (Some e))
      else mret tt
  | None => mret tt
  end.

(** Lines 261-266 of [_finalize_artifacts]: close the context. *)
Definition finalize_close (context : value) : M unit :=
  try_except
    (await (ContextClose context);; log_ok "Context closed")
    (fun e => log_err "Context close failed" (Some e)).

(** Lines 268-275 of [_finalize_artifacts]: fetch the video path. *)
Definition finalize_video (page : Page) (artifacts : nat) : M unit :=
  try_except
    (video ← getattr_or_none (pg page Video);
     if py_truthy video then
       video ← invoke (pg page Video);
       vp ← await (VideoPath video);
       p ← lift (path_of_value vp);
       assign artifacts f_video_path p;;
       log_ok ("Video saved: " ++ py_str vp)
     else mret tt)
    (fun e => log_err "Video path fetch failed" (Some e)).

(** Lines 245-277.  The artifacts object is updated in place and
    returned. *)
Definition _finalize_artifacts (context : value) (page : Page)
    (artifacts : nat) (record_dir : option Path) : M nat :=
  finalize_trace context artifacts record_dir;;
  finalize_close context;;
  finalize_video page artifacts;;
  mret artifacts.

(** Lines 281-292. *)
Definition navigate_safe (page : Page) (url : string) : M unit :=
  try_except
    (log ("Navigate -> " ++ url);;
     await (pg page (Goto url "domcontentloaded" 60000));;
     u ← invoke (pg page Url);
     log_ok ("Navigated: " ++ py_str u))
    (fun e =>
       log_err ("Navigate failed (" ++ url ++ "), retrying BASE") (Some e);;
       try_except
         (await (pg page (Goto BASE "domcontentloaded" 60000));;
          log_ok ("Fallback navigate -> " ++ BASE))
         (fun e2 => log_exc "Fallback navigate failed" e2)).

(** Lines 295-318.  The flag returned by each [try] stands for its
    [return True]. *)
Definition click_if_exists (page : Page) (text_regex : Pattern) : M bool :=
  log ("Try click-if-exists: /" ++ pattern text_regex ++ "/");;
  let btn := get_by_role "button" text_regex in
  returned ←
    try_except
      (n ← await (pg page (Count btn));
       if py_truthy n then
         log_ok ("Button match found: /" ++ pattern text_regex ++ "/");;
         invoke (pg page (First btn));;
         await (pg page (LocClick (first btn) None));;
         log_ok "Button clicked";;
         mret true
       else mret false)
      (fun e => log_err "Button click failed" (Some e);; mret false);
  if (returned : bool) then mret true else
  let link := get_by_role "link" text_regex in
  returned ←
    try_except
      (n ← await (pg page (Count link));
       if py_truthy n then
         log_ok ("Link match found: /" ++ pattern text_regex ++ "/");;
         invoke (pg page (First link));;
         await (pg page (LocClick (first link) None));;
         log_ok "Link clicked";;
         mret true
       else mret false)
      (fun e => log_err "Link click failed" (Some e);; mret false);
  if (returned : bool) then mret true else
  log_warn ("No button/link matched: /" ++ pattern text_regex ++ "/");;
  mret false.

(** Lines 339-350. *)
Definition _extract_region_code (phone : option string) : M string :=
  match phone with
  | None | Some EmptyString => mret ""
  | Some phone =>
      let s := keep_digits_plus phone in
      let code := default "" (region_match s) in
      log ("Extracted region code from '" ++ phone ++ "': '" ++ code ++ "'");;
      mret code
  end.

(** Lines 353-501.  The widget cascade runs inside the page and is the
    script [JsSetDate]. *)
Definition set_date_by_id (page : Page) (input_id : string)
    (date_str : option string) : M unit :=
  let sel := "#" ++ input_id in
  match date_groups date_str with
  | None =>
      log_err ("set_date_by_id('" ++ input_id ++ "'): unsupported format '"
               ++ PyStr.fmt date_str ++ "'") None
  | Some (dd, mm, yyyy) =>
      let val := ddmmyyyy (dd, mm, yyyy) in
      log_date ("set_date_by_id('" ++ input_id ++ "'): input='"
                ++ PyStr.fmt date_str ++ "' -> normalized='" ++ val ++ "'");;
      present ←
        try_except
          (await (pg page (WaitForSelector sel None 15000));; mret true)
          (fun e =>
             log_err ("date field not found: " ++ sel
                      ++ " (" ++ exc_msg e ++ ")") None;;
             mret false);
      if (present : bool) then
        try_except
          (res ← await (pg page (Evaluate (JsSetDate sel val dd mm yyyy)));
           mode ← lift (dict_get res "mode");
           ok ← lift (dict_get res "ok");
           reason ← lift (dict_get res "reason");
           log_date ("set_date_by_id('" ++ input_id ++ "'): mode="
                     ++ py_str mode ++ " ok=" ++ py_str ok
                     ++ " reason=" ++ py_str reason))
          (fun e =>
             log_err ("set_date_by_id('" ++ input_id ++ "') JS failed: "
                      ++ exc_msg e) None);;
        try_except
          (await (pg page (WaitForTimeout 50));;
           got ← await (pg page (EvalOnSelector sel JsElValue));
           log_date ("verify " ++ input_id ++ " -> '" ++ py_str got ++ "'"))
          (fun e =>
             log_warn ("verify failed for " ++ input_id ++ ": " ++ exc_msg e))
      else mret tt
  end.

(** Lines 504-513. *)
Definition _select_if_value (page : Page) (css : string)
    (value : option string) : M unit :=
  match value with
  | None | Some EmptyString =>
      log_warn ("_select_if_value: No value for " ++ css)
  | Some value =>
      try_except
        (await (pg page (WaitForSelector css None 4000));;
         await (pg page (SelectOption css value));;
         log_ok ("Select " ++ css ++ " = " ++ value))
        (fun e => log_err ("Select failed " ++ css ++ " = " ++ value) (Some e))
  end.

(** Lines 516-525. *)
Definition _fill_if_value (page : Page) (css : string)
    (value : option string) : M unit :=
  match value with
  | None => log_warn ("_fill_if_value: No value for " ++ css)
  | Some value =>
      try_except
        (await (pg page (WaitForSelector css None 4000));;
         await (pg page (Fill css value));;
         log_ok ("Fill " ++ css ++ " = '" ++ value ++ "'"))
        (fun e =>
           log_err ("Fill failed " ++ css ++ " = '" ++ value ++ "'") (Some e))
  end.

(** Lines 530-640 of [register_one]: navigation and the form.  A
    [getattr(row, name, default)] on a name that [RegisterRow] does not
    declare is its default. *)
Definition register_fill (page : Page) (row : RegisterRow.t) : M unit :=
  log "=== register_one: START ===";;
  navigate_safe page (BASE ++ "?registerMain");;
  _screenshot page "01_register_main";;
  try_except
    (visible ← await (pg page (IsVisible (locator "#name")));
     (if negb (py_truthy visible) then
        log_warn
          "#name not visible; try opening 'Personal Information' accordion";;
        await (pg page (LocClick
          (get_by_role "link" (re_compile "personal information" true))
          (Some 4000%Z)));;
        mret tt
      else mret tt);;
     await (pg page (LocClick (locator "#passNo") None));;
     log_ok "Personal Information section visible")
    (fun e =>
       log_err "Opening Personal Information section failed (will proceed)"
         (Some e));;
  _screenshot page "02_form_visible";;
  _fill_if_value page "#name" (Some (RegisterRow.fullName row));;
  _fill_if_value page "#passNo" (Some (RegisterRow.passport row));;
  _fill_if_value page "#email" (RegisterRow.email row);;
  _fill_if_value page "#confirmEmail" (RegisterRow.email row);;
  set_date_by_id page "dob" (Some (RegisterRow.dateOfBirth row));;
  _select_if_value page "#nationality" (Some (RegisterRow.nationality row));;
  let mapped_sex := _map_gender (Some (RegisterRow.gender row)) in
  log ("Map gender '" ++ RegisterRow.gender row ++ "' -> '"
       ++ mapped_sex ++ "'");;
  _select_if_value page "#sex" (Some mapped_sex);;
  set_date_by_id page "passExpDte" (Some (RegisterRow.passportExpiryDate row));;
  region_code ← _extract_region_code (RegisterRow.phone row);
  _select_if_value page "#region" (Some region_code);;
  mobile ←
    match RegisterRow.phone row with
    | None | Some EmptyString => mret None
    | Some phone =>
        let mobile := sub_dial_prefix phone in
        log ("Derived mobile from phone: '" ++ phone ++ "' -> '"
             ++ mobile ++ "'");;
        mret (Some mobile)
    end;
  _fill_if_value page "#mobile" mobile;;
  try_except
    (visible ← await (pg page (IsVisible (locator "#arrDt")));
     if negb (py_truthy visible) then
       log_warn "#arrDt not visible; open 'Travel' accordion";;
       await (pg page (LocClick
         (get_by_role "link" (re_compile "travel" true)) (Some 4000%Z)));;
       mret tt
     else mret tt)
    (fun e => log_err "Opening Travel accordion failed (will proceed)" (Some e));;
  set_date_by_id page "arrDt" (Some (RegisterRow.arrivalDate row));;
  set_date_by_id page "depDt" (Some (RegisterRow.departureDate row));;
  _fill_if_value page "#vesselNm" (RegisterRow.flightNo row);;
  let mapped_mode := _map_mode (Some (RegisterRow.arrivalMode row)) in
  log ("Map mode '" ++ RegisterRow.arrivalMode row ++ "' -> '"
       ++ mapped_mode ++ "'");;
  _select_if_value page "#trvlMode" (Some mapped_mode);;
  _select_if_value page "#embark" (Some "BGD - BANGLADESH");;
  _select_if_value page "#accommodationStay" (Some "01");;
  let addr1 :=
    if PyStr.truthy (RegisterRow.addressInMalaysia row)
    then RegisterRow.addressInMalaysia row else None in
  _fill_if_value page "#accommodationAddress1" addr1;;
  _fill_if_value page "#accommodationAddress2" (Some "");;
  _select_if_value page "#accommodationState" (Some "14");;
  try_except
    (log "Wait for city list to populate (#accommodationCity)";;
     await (pg page (WaitForFunction JsCityPopulated 10000));;
     log_ok "City list populated";;
     first_val ← await (pg page (Evaluate JsFirstCity));
     if py_truthy first_val then
       await (pg page (SelectOption "#accommodationCity" (py_str first_val)));;
       log_ok ("City selected (first non-empty): " ++ py_str first_val)
     else log_warn "No non-empty city option found")
    (fun e => log_err "City list populate/select failed" (Some e));;
  _fill_if_value page "#accommodationPostcode" (Some "50050").

(** Lines 642-654 of [register_one]: the pause for the manual step. *)
Definition register_gate (page : Page) (gate_token : option string)
    (pause : bool) : M unit :=
  if pause && PyStr.truthy gate_token then
    let token := PyStr.fmt gate_token in
    log ("PAUSE gate_token=" ++ token ++ " (waiting up to "
         ++ pretty (GATE_WAIT_SECONDS cfg) ++ "s)");;
    try_except
      (await (pg page (Evaluate (JsConsoleLog
         ("Solve CAPTCHA/OTP, then POST /resume/" ++ token))));;
       mret tt)
      (fun _ => mret tt);;
    ev ← GATE_create token;
    try_except_class "TimeoutError"
      (wait_for_event ev (GATE_WAIT_SECONDS cfg);; log_ok "Gate resumed")
      (log_warn "Gate timed out; continuing")
  else mret tt.

(** Lines 656-680 of [register_one]: submission and the summary. *)
Definition register_submit (page : Page) : M string :=
  log "Try submit form (#submit or Enter)";;
  try_except
    (await (pg page (Click "#submit" 5000));; log_ok "Submit button clicked")
    (fun e =>
       log_warn ("#submit click failed (" ++ exc_msg e ++ "); try Enter");;
       try_except
         (await (pg page (KeyboardPress "Enter"));;
          log_ok "Enter pressed for submit")
         (fun e2 => log_err "Submit via Enter failed" (Some e2)));;
  await (pg page (WaitForTimeout 1500));;
  _screenshot page "03_after_submit";;
  body_txt ←
    try_except
      (txt ← await (pg page (InnerText "body")); mret (py_str txt))
      (fun _ => mret "submitted");
  let summary := take_str 500 body_txt in
  let safe_excerpt := replace_linesep (take_str 160 summary) in
  log ("Register result (excerpt): " ++ safe_excerpt);;
  log "=== register_one: END ===";;
  mret summary.

(** Lines 529-680. *)
Definition register_one (page : Page) (row : RegisterRow.t)
    (gate_token : option string) (pause : bool) : M string :=
  register_fill page row;;
  register_gate page gate_token pause;;
  register_submit page.

(** Lines 684-715 of [download_one]: navigation and the lookup form. *)
Definition download_lookup (page : Page) (row : PinRow.t) : M unit :=
  log "=== download_one: START ===";;
  navigate_safe page (BASE ++ "?checkMain");;
  _screenshot page "10_check_main";;
  click_if_exists page (re_compile "(check registration|check|retrieve)" true);;
  try_except
    (await (pg page (Fill "input[name*='pass']" (PinRow.passport row)));;
     log_ok "Filled passport on check page")
    (fun e => log_err "Fill passport on check page failed" (Some e));;
  try_except
    (await (pg page (SelectOption
       "select[name*='nation'], select[name*='nationality']"
       (PinRow.nationality row)));;
     log_ok "Selected nationality on check page")
    (fun e => log_err "Select nationality on check page failed" (Some e));;
  try_except
    (await (pg page (Fill "input[name*='pin']" (PinRow.pin row)));;
     log_ok "Filled pin on check page")
    (fun e => log_err "Fill pin on check page failed" (Some e));;
  clicked ← click_if_exists page (re_compile "(submit|check|search)" true);
  (if negb clicked then
     try_except
       (await (pg page (KeyboardPress "Enter"));;
        log_ok "Pressed Enter on check page")
       (fun e => log_err "Enter press on check page failed" (Some e))
   else mret tt);;
  await (pg page (WaitForTimeout 1200));;
  mret tt.

(** Lines 718-733: the body of the first [try]. *)
Definition download_direct (page : Page) (row : PinRow.t)
    (download_dir : Path) : M Path :=
  let btn := get_by_role "button" (re_compile "(download|print)" true) in
  let lnk := get_by_role "link" (re_compile "(download|print)" true) in
  n ← await (pg page (Count btn));
  (if py_truthy n then
     invoke (pg page (First btn));;
     await (pg page (LocClick (first btn) None));;
     log_ok "Clicked download/print button"
   else
     n ← await (pg page (Count lnk));
     if py_truthy n then
       invoke (pg page (First lnk));;
       await (pg page (LocClick (first lnk) None));;
       log_ok "Clicked download/print link"
     else mret tt);;
  download ← await (pg page (WaitForEvent "download" None 25000));
  suggested ← invoke (SuggestedFilename download);
  let out :=
    PathDiv download_dir (PinRow.passport row ++ "_" ++ py_str suggested) in
  await (SaveAs download (path_str out));;
  log_ok ("PDF saved: " ++ path_str out);;
  log "=== download_one: END (direct) ===";;
  mret out.

(** Lines 739-754: the body of the second [try].  Leaving the
    [async with] block awaits the popup, and [pop_wait.value] is that
    same popup: the two are the one call [PopupValue]. *)
Definition download_popup (page : Page) (row : PinRow.t)
    (download_dir : Path) : M Path :=
  invoke (pg page (ExpectPopup 25000));;
  click_if_exists page (re_compile "(download|print|pdf)" true);;
  popup ← await (pg page PopupValue);
  u ← invoke (PageCall popup Url);
  log_ok ("Popup opened: " ++ py_str u);;
  resp ← await (PageCall popup
    (WaitForEvent "response" (Some "application/pdf in content-type") 25000));
  content ← await (ResponseBody resp);
  now ← invoke LoopTimeMillis;
  let out :=
    PathDiv download_dir (PinRow.passport row ++ "_" ++ py_str now ++ ".pdf") in
  invoke (WriteBytes out content);;
  await (PageCall popup Close);;
  log_ok ("PDF saved (popup): " ++ path_str out);;
  log "=== download_one: END (popup) ===";;
  mret out.

(** Lines 683-758.  The option returned by the first [try] stands for
    its [return out]. *)
Definition download_one (page : Page) (row : PinRow.t) (download_dir : Path)
  : M (option Path) :=
  download_lookup page row;;
  returned ←
    try_except
      (out ← download_direct page row download_dir; mret (Some out))
      (fun e => log_err "Direct download failed" (Some e);; mret None);
  match returned with
  | Some out => mret (Some out)
  | None =>
      try_except
        (out ← download_popup page row download_dir; mret (Some out))
        (fun e =>
           log_err "Popup download failed" (Some e);;
           log "=== download_one: END (failed) ===";;
           mret None)
  end.

End Source.

(** The process at start: [GATE = ManualGate()], nothing logged, no
    event and no artifacts object on the heap. *)
Definition boot (env : environment) : world :=
  World [] env ManualGate.__init__ [] [].

(** An environment where every call returns [None] and no request
    reaches the gate. *)
Definition quiet : environment := fun _ _ => ([], Ok VNone).

(** The configuration when no variable of the environment is set. *)
Definition default_config : Config :=
  {| HEADLESS_DEFAULT := true; LOG_NETWORK := true;
     GATE_WAIT_SECONDS := 120; RECORD_TRACE := true |}.

(** A session whose context fails to close while the page still has a
    recording handle with a path. *)
Definition close_fails : environment := fun _ c =>
  match c with
  | ContextClose _ => ([], Raise (Exn "Error" "Target closed"))
  | PageCall _ Video => ([], Ok (VObj 3))
  | VideoPath _ => ([], Ok (VStr "videos/P123/page.webm"))
  | _ => ([], Ok VNone)
  end.


(** The resume endpoint is called for [token] while the workflow waits
    at the gate. *)
Definition resumes (token : string) : environment := fun _ c =>
  match c with
  | GateWait _ _ => ([ReqResume token], Ok VNone)
  | _ => ([], Ok VNone)
  end.

(** Another workflow registers [token] anew and the resume endpoint is
    called for it, both while the workflow waits at the gate. *)
Definition recreates_then_resumes (token : string) : environment :=
  fun _ c =>
    match c with
    | GateWait _ _ => ([ReqCreate token; ReqResume token], Ok VNone)
    | _ => ([], Ok VNone)
    end.

(** A site where no download event fires and no popup opens. *)
Definition nothing_downloads : environment := fun _ c =>
  match c with
  | PageCall _ (WaitForEvent _ _ _) =>
      ([], Raise (Exn "TimeoutError" "Timeout 25000ms exceeded"))
  | PageCall _ PopupValue =>
      ([], Raise (Exn "TimeoutError" "Timeout 25000ms exceeded"))
  | _ => ([], Ok VNone)
  end.

Definition sample_pin : PinRow.t :=
  {| PinRow.passport := "P123"; PinRow.nationality := "BGD";
     PinRow.pin := "4711" |}.

Definition sample_page : Page :=
  {| page_obj := VObj 2; _mdac_screens := None |}.

Definition sample_row : RegisterRow.t :=
  {| RegisterRow.passport := "P123"; RegisterRow.nationality := "BGD";
     RegisterRow.fullName := "A B"; RegisterRow.gender := "Male";
     RegisterRow.dateOfBirth := "1990-01-31";
     RegisterRow.passportExpiryDate := "2030-01-31";
     RegisterRow.departureDate := "2024-05-09";
     RegisterRow.arrivalDate := "2024-05-07";
     RegisterRow.arrivalMode := "Air"; RegisterRow.flightNo := Some "MH103";
     RegisterRow.departureCountry := None; RegisterRow.arrivalPoint := None;
     RegisterRow.phone := Some "+8801712345678"; RegisterRow.email := None;
     RegisterRow.addressInMalaysia := None;
     RegisterRow.purposeOfVisit := Some "Tourism" |}.

Definition no_artifacts : ContextArtifacts :=
  {| video_path := None; trace_path := None; screenshots_dir := None |}.

(** ** Judgements on workflows *)

(** The events that a run adds, newest first. *)
Definition adds (w w' : world) (new : list event) : Prop :=
  w_trace w' = (new ++ w_trace w)%list.

(** [e1] happened before [e2] among the new events. *)
Definition before (e1 e2 : event) (new : list event) : Prop :=
  exists l1 l2 l3, new = (l3 ++ e2 :: l2 ++ e1 :: l1)%list.

(** Every step of [m] is within [R]. *)
Definition steps (R : relation world) {A} (m : M A) : Prop :=
  forall w, R w (snd (m w)).

(** [m] returns: no exception escapes it. *)
Definition returns {A} (m : M A) : Prop :=
  forall w, exists a, fst (m w) = Ok a.

(** A relation that the elementary steps of a workflow stay within:
    recording an event that [Q] admits, the loop serving a request of
    another task, and the registration of a token. *)
Class Atomic (R : relation world) (Q : event -> Prop) := {
  atomic_preorder :: PreOrder R;
  atomic_push : forall ev w, Q ev -> R w (push ev w);
  atomic_serve : forall rq w, R w (serve w rq);
  atomic_create : forall token w, R w (snd (GATE_create token w))
}.

(** Every reference held by the gate is an event of the heap. *)
Definition wf (w : world) : Prop :=
  forall token ev,
    ManualGate._events (w_gate w) !! token = Some ev ->
    ev < length (w_events w).

Definition has_token (w : world) (token : string) : Prop :=
  is_Some (ManualGate._events (w_gate w) !! token).

(** The artifacts objects are untouched. *)
Definition same_artifacts : relation world :=
  fun w w' => w_artifacts w' = w_artifacts w.

(** The run adds only events that [Q] admits. *)
Definition adds_only (Q : event -> Prop) : relation world :=
  fun w w' => exists new, adds w w' new /\ Forall Q new.

(** A token leaves the gate only through a resume that succeeded. *)
Definition gate_kept : relation world :=
  fun w w' =>
    (wf w -> wf w') /\
    exists new, adds w w' new /\
      forall token, has_token w token -> ~ has_token w' token ->
        In (Served (ReqResume token) true) new.

(** The event [ev] is unset, and only tokens in [P] refer to it. *)
Definition held (ev : nat) (P : string -> Prop) (w : world) : Prop :=
  is_set (w_events w) ev = false /\
  ev < length (w_events w) /\
  forall token, ManualGate._events (w_gate w) !! token = Some ev -> P token.

(** No token of the gate refers to [ev] any more. *)
Definition orphan (ev : nat) : world -> Prop := held ev (fun _ => False).

(** An optional assignment to a field of the artifacts object [a]. *)
Definition assign_opt (a : nat) (f : field) (o : option Path)
    (arts : list ContextArtifacts) : list ContextArtifacts :=
  match o with
  | Some p => alter (fun x => setattr x f p) a arts
  | None => arts
  end.

Definition is_served (ev : event) : Prop :=
  match ev with
  | Served _ _ => True
  | _ => False
  end.

Definition not_video_assignment (ev : event) : Prop :=
  match ev with
  | Assigned _ f_video_path _ => False
  | _ => True
  end.

(** The event is no step of the popup strategy. *)
Definition not_popup_call (ev : event) : Prop :=
  match ev with
  | Called (PageCall _ (ExpectPopup _)) _ => False
  | Called (PageCall _ PopupValue) _ => False
  | _ => True
  end.


(** The three accepted shapes of a date, on the trimmed input. *)
Definition all_digits (s : string) : Prop :=
  Forall (fun a => PyStr.is_digit a = true) (list_ascii_of_string s).

Definition shaped (n1 n2 n3 : nat) (sep : ascii) (s : string) : Prop :=
  exists g1 g2 g3,
    s = g1 ++ String sep (g2 ++ String sep g3)
    /\ String.length g1 = n1 /\ String.length g2 = n2
    /\ String.length g3 = n3
    /\ all_digits g1 /\ all_digits g2 /\ all_digits g3.

Definition accepted_shape (date_str : option string) : Prop :=
  let s := PyStr.strip (PyStr.or_else date_str "") in
  shaped 4 2 2 "-" s \/ shaped 2 2 4 "-" s \/ shaped 2 2 4 "/" s.

(** Every date that the event hands to the widget script is [val]. *)
Definition writes_date (val : string) (ev : event) : Prop :=
  match ev with
  | Called (PageCall _ (Evaluate (JsSetDate _ v _ _ _))) _ => v = val
  | _ => True
  end.

(** ** The endpoints ([main.py])

    The rows reach the endpoints validated; the identifiers of the
    pauses are drawn at random, and [uuid4_hex idx] is the hex text of
    the one drawn for row [idx]. *)

Module Main.

Definition DOWNLOAD_DIR : Path := PathOf "./downloads".
Definition VIDEOS_DIR : Path := PathOf "./videos".

(** Lines 26-27: the lines of this module go out under the tag [API],
    which is kept in front of the text. *)
Definition log (msg : string) : M unit :=
  emit (Log Info ("[API] " ++ msg) None).

(** An optional flag inside an f-string. *)
Definition fmt_flag (o : option bool) : string :=
  match o with
  | None => "None"
  | Some b => py_str (VBool b)
  end.

(** One entry of the list that [/register] answers with. *)
Inductive RegisterResult :=
| Registered (passport : string) (gate_token : option string)
    (paused : bool) (info : string) (video trace : option string)
| RegisterError (passport error : string).

(** One entry of the list that [/download] answers with. *)
Inductive DownloadResult :=
| Downloaded (passport : string) (saved : bool)
    (file video trace : option string)
| DownloadError (passport error : string).

Record Response (R : Type) := {
  ok : bool;
  count : nat;
  rows : list R
}.

Arguments ok {R} _.
Arguments count {R} _.
Arguments rows {R} _.

Definition register_passport (r : RegisterResult) : string :=
  match r with
  | Registered passport _ _ _ _ _ => passport
  | RegisterError passport _ => passport
  end.

Definition download_passport (r : DownloadResult) : string :=
  match r with
  | Downloaded passport _ _ _ _ => passport
  | DownloadError passport _ => passport
  end.

(** The fields of an artifacts object; a reference always points to a
    live object. *)
Definition read_artifacts (artifacts : nat) : M ContextArtifacts :=
  fun w => (Ok (default no_artifacts (w_artifacts w !! artifacts)), w).

Section Endpoints.

Variable cfg : Config.
Variable uuid4_hex : nat -> string.

(** Lines 29-33.  The variable [HEADLESS] is read again here; it has the
    value that the configuration read when the process started. *)
Definition default_pause (headless : option bool) : bool :=
  negb (default (HEADLESS_DEFAULT cfg) headless).

(** Lines 74-104: the body of the loop of [register_rows]. *)
Definition register_row (record : bool) (headless : option bool)
    (pause : bool) (idx total : nat) (row : RegisterRow.t)
  : M RegisterResult :=
  log ("Register [" ++ pretty idx ++ "/" ++ pretty total ++ "] "
       ++ RegisterRow.passport row ++ " headless=" ++ fmt_flag headless
       ++ " record=" ++ py_str (VBool record)
       ++ " pause=" ++ py_str (VBool pause));;
  let video_dir :=
    if record then Some (PathDiv VIDEOS_DIR (RegisterRow.passport row))
    else None in
  '(context, page, artifacts) ← open_context cfg None headless video_dir;
  try_except
    (let token :=
       if pause then Some (take_str 8 (uuid4_hex idx)) else None in
     info ← register_one cfg page row token pause;
     artifacts ← _finalize_artifacts cfg context page artifacts video_dir;
     a ← read_artifacts artifacts;
     mret (Registered (RegisterRow.passport row) token pause info
             (path_str <$> video_path a) (path_str <$> trace_path a)))
    (fun e =>
       try_except
         (_finalize_artifacts cfg context page artifacts video_dir;; mret tt)
         (fun _ => mret tt);;
       mret (RegisterError (RegisterRow.passport row) (exc_msg e))).

(** Lines 72-104: the loop of [register_rows], from row [idx] on. *)
Fixpoint register_loop (record : bool) (headless : option bool)
    (pause : bool) (idx total : nat) (todo : list RegisterRow.t)
    (results : list RegisterResult) : M (list RegisterResult) :=
  match todo with
  | nil => mret results
  | row :: todo =>
      r ← register_row record headless pause idx total row;
      register_loop record headless pause (S idx) total todo
        (results ++ [r])%list
  end.

(** Lines 58-106. *)
Definition register_rows (rows : list RegisterRow.t) (record : bool)
    (headless pause : option bool) : M (Response RegisterResult) :=
  let pause := default (default_pause headless) pause in
  results ← register_loop record headless pause 1 (length rows) rows [];
  mret {| ok := true; count := length results; rows := results |}.

(** Lines 136-160: the body of the loop of [download_rows]. *)
Definition download_row (record : bool) (headless : option bool)
    (idx total : nat) (row : PinRow.t) : M DownloadResult :=
  log ("Download [" ++ pretty idx ++ "/" ++ pretty total ++ "] "
       ++ PinRow.passport row ++ " headless=" ++ fmt_flag headless
       ++ " record=" ++ py_str (VBool record));;
  let video_dir :=
    if record
    then Some (PathDiv VIDEOS_DIR (PinRow.passport row ++ "_download"))
    else None in
  '(context, page, artifacts) ←
    open_context cfg (Some DOWNLOAD_DIR) headless video_dir;
  try_except
    (pdf_path ← download_one page row DOWNLOAD_DIR;
     artifacts ← _finalize_artifacts cfg context page artifacts video_dir;
     a ← read_artifacts artifacts;
     mret (Downloaded (PinRow.passport row)
             (bool_decide (is_Some pdf_path)) (path_str <$> pdf_path)
             (path_str <$> video_path a) (path_str <$> trace_path a)))
    (fun e =>
       try_except
         (_finalize_artifacts cfg context page artifacts video_dir;; mret tt)
         (fun _ => mret tt);;
       mret (DownloadError (PinRow.passport row) (exc_msg e))).

Fixpoint download_loop (record : bool) (headless : option bool)
    (idx total : nat) (todo : list PinRow.t) (out : list DownloadResult)
  : M (list DownloadResult) :=
  match todo with
  | nil => mret out
  | row :: todo =>
      r ← download_row record headless idx total row;
      download_loop record headless (S idx) total todo (out ++ [r])%list
  end.

(** Lines 127-162. *)
Definition download_rows (rows : list PinRow.t) (record : bool)
    (headless : option bool) : M (Response DownloadResult) :=
  out ← download_loop record headless 1 (length rows) rows [];
  mret {| ok := true; count := length out; rows := out |}.

End Endpoints.

End Main.

(** ** Further judgements *)

(** An exception escapes [m] only out of a call that [Q] admits: the
    call that raised it is the last event of the run. *)
Definition raises_at (Q : call -> Prop) {A} (m : M A) : Prop :=
  forall w e w',
    m w = (Raise e, w') ->
    exists c rest, w_trace w' = Called c (Raise e) :: rest /\ Q c.

(** The calls that bring up a session. *)
Definition is_launch_call (c : call) : Prop :=
  match c with
  | PlaywrightStart | ChromiumLaunch _ _ _ | NewContext _ _ | NewPage _
  | PageCall _ (On _) => True
  | _ => False
  end.

(** [P] once true stays true. *)
Definition keeps (P : world -> Prop) : relation world :=
  fun w w' => P w -> P w'.

(** Every reference of the gate is a live event, and two tokens never
    refer to the same event. *)
Definition gate_inj (w : world) : Prop :=
  wf w /\
  forall t1 t2 ev,
    ManualGate._events (w_gate w) !! t1 = Some ev ->
    ManualGate._events (w_gate w) !! t2 = Some ev ->
    t1 = t2.

(** The request names the token. *)
Definition mentions (token : string) (rq : gate_request) : Prop :=
  match rq with
  | ReqResume t | ReqCreate t => t = token
  end.

Definition not_close_call (ev : event) : Prop :=
  match ev with
  | Called (ContextClose _) _ => False
  | _ => True
  end.

(** How many times a context was closed. *)
Fixpoint closes (events : list event) : nat :=
  match events with
  | nil => 0
  | Called (ContextClose _) _ :: rest => S (closes rest)
  | _ :: rest => closes rest
  end.

(** [s] ends with [t]. *)
Definition is_suffix (t s : string) : Prop := exists p, s = p ++ t.

(** A page that has gone away: every plain wait on it fails. *)
Definition page_gone : environment := fun _ c =>
  match c with
  | PageCall _ (WaitForTimeout _) => ([], Raise (Exn "Error" "Target closed"))
  | _ => ([], Ok VNone)
  end.

(** A host without a browser to launch. *)
Definition launch_fails : environment := fun _ c =>
  match c with
  | ChromiumLaunch _ _ _ =>
      ([], Raise (Exn "Error" "Executable doesn't exist"))
  | _ => ([], Ok VNone)
  end.

(** The calls among [new] are the wait for a control and the write
    into it, the write comes only after the wait has found the control,
    and every failure is logged. *)
Definition writes_after_wait (wait write : call) (new : list event) : Prop :=
  (forall c r, In (Called c r) new -> c = wait \/ c = write)
  /\ (forall r, In (Called write r) new ->
        exists v, before (Called wait (Ok v)) (Called write r) new)
  /\ (forall c e, In (Called c (Raise e)) new ->
        exists msg, In (Log Err msg (Some e)) new).

(** A screenshot goes into the directory attached to the page, which is
    also the only directory made; without one there is neither. *)
Definition shots_in (screens : option Path) (ev : event) : Prop :=
  match ev with
  | Called (PageCall _ (Screenshot p _)) _ =>
      exists dir name,
        screens = Some dir /\ p = path_str (PathDiv dir (name ++ ".png"))
  | Called (Mkdir d) _ => screens = Some d
  | _ => True
  end.

Definition not_key_press (ev : event) : Prop :=
  match ev with
  | Called (PageCall _ (KeyboardPress _)) _ => False
  | _ => True
  end.

(** A record of [/register] tells whether the row was paused, and it
    carries a token, of at most eight characters, exactly when it
    was. *)
Definition paused_as (pause : bool) (r : Main.RegisterResult) : Prop :=
  match r with
  | Main.Registered _ gate_token paused _ _ _ =>
      paused = pause
      /\ (is_Some gate_token <-> pause = true)
      /\ forall token, gate_token = Some token -> String.length token <= 8
  | Main.RegisterError _ _ => True
  end.

(** A record of [/download] is flagged as saved exactly when it names a
    file, and the file it names is the text of [dir] joined with the
    passport, an underscore and a name. *)
Definition stored_in (dir : Path) (r : Main.DownloadResult) : Prop :=
  match r with
  | Main.Downloaded passport saved file _ _ =>
      (saved = true <-> is_Some file)
      /\ forall f, file = Some f ->
           exists name, f = path_str (PathDiv dir (passport ++ "_" ++ name))
  | Main.DownloadError _ _ => True
  end.

(** The trace named by a record is the one that the finalizer stored
    for the row: [trace.zip] in the recording directory of the row,
    and none when nothing is recorded. *)
Definition trace_under (dir : option Path) (trace : option string) : Prop :=
  trace = None
  \/ exists d, dir = Some d /\ trace = Some (path_str (PathDiv d "trace.zip")).

Definition register_trace (record : bool) (r : Main.RegisterResult) : Prop :=
  match r with
  | Main.Registered passport _ _ _ _ trace =>
      trace_under
        (if record then Some (PathDiv Main.VIDEOS_DIR passport) else None)
        trace
  | Main.RegisterError _ _ => True
  end.

Definition download_trace (record : bool) (r : Main.DownloadResult) : Prop :=
  match r with
  | Main.Downloaded passport _ _ _ trace =>
      trace_under
        (if record
         then Some (PathDiv Main.VIDEOS_DIR (passport ++ "_download"))
         else None)
        trace
  | Main.DownloadError _ _ => True
  end.

Definition not_gate_wait (ev : event) : Prop :=
  match ev with
  | Called (GateWait _ _) _ => False
  | _ => True
  end.

Definition not_tracing_start (ev : event) : Prop :=
  match ev with
  | Called (TracingStart _) _ => False
  | _ => True
  end.

(** A form whose submit control cannot be clicked. *)
Definition submit_click_fails : environment := fun _ c =>
  match c with
  | PageCall _ (Click _ _) =>
      ([], Raise (Exn "TimeoutError" "Timeout 5000ms exceeded"))
  | _ => ([], Ok VNone)
  end.

(** A page whose body reads as a line of text. *)
Definition body_reads : environment := fun _ c =>
  match c with
  | PageCall _ (InnerText _) => ([], Ok (VStr "Registration submitted"))
  | _ => ([], Ok VNone)
  end.

(** The video and the trace that a record of [/register] names are
    those of the artifacts object [x], whose trace path is unset or
    [trace.zip] in the recording directory of the row. *)
Definition register_reads (record : bool) (x : ContextArtifacts)
    (r : Main.RegisterResult) : Prop :=
  match r with
  | Main.Registered passport _ _ _ video trace =>
      video = path_str <$> video_path x
      /\ trace = path_str <$> trace_path x
      /\ (trace_path x = None
          \/ (record = true
              /\ trace_path x
                 = Some (PathDiv (PathDiv Main.VIDEOS_DIR passport)
                           "trace.zip")))
  | Main.RegisterError _ _ => True
  end.

Definition download_reads (record : bool) (x : ContextArtifacts)
    (r : Main.DownloadResult) : Prop :=
  match r with
  | Main.Downloaded passport _ _ video trace =>
      video = path_str <$> video_path x
      /\ trace = path_str <$> trace_path x
      /\ (trace_path x = None
          \/ (record = true
              /\ trace_path x
                 = Some (PathDiv
                           (PathDiv Main.VIDEOS_DIR (passport ++ "_download"))
                           "trace.zip")))
  | Main.DownloadError _ _ => True
  end.

(** A name that holds no separator. *)
Fixpoint no_slash (s : string) : bool :=
  match s with
  | EmptyString => true
  | String a s' => negb (Ascii.eqb a "/") && no_slash s'
  end.

(** A download arrives and suggests a file name. *)
Definition pdf_downloads : environment := fun _ c =>
  match c with
  | PageCall _ (WaitForEvent _ _ _) => ([], Ok (VObj 7))
  | SuggestedFilename _ => ([], Ok (VStr "mdac.pdf"))
  | _ => ([], Ok VNone)
  end.

(** * Properties *)

(** ** The monad *)

Lemma bind_run {A B} (m : M A) (k : A -> M B) (w : world) :
  (m ≫= k) w =
  match m w with
  | (Ok a, w') => k a w'
  | (Raise e, w') => (Raise e, w')
  end.
Proof. reflexivity. Qed.

Lemma ret_run {A} (a : A) (w : world) : (mret a : M A) w = (Ok a, w).
Proof. reflexivity. Qed.

(** ** Requests served by the loop *)

Lemma serve_env w rq : w_env (serve w rq) = w_env w.
Proof.
  destruct rq as [token|token]; unfold serve; simpl.
  - unfold ManualGate.resume.
    destruct (ManualGate._events (w_gate w) !! token); reflexivity.
  - reflexivity.
Qed.

Lemma serve_artifacts w rq : w_artifacts (serve w rq) = w_artifacts w.
Proof.
  destruct rq as [token|token]; unfold serve; simpl.
  - unfold ManualGate.resume.
    destruct (ManualGate._events (w_gate w) !! token); reflexivity.
  - reflexivity.
Qed.

Lemma serve_trace w rq :
  exists ok, w_trace (serve w rq) = Served rq ok :: w_trace w.
Proof.
  destruct rq as [token|token]; unfold serve; simpl.
  - unfold ManualGate.resume.
    destruct (ManualGate._events (w_gate w) !! token); eexists; reflexivity.
  - eexists; reflexivity.
Qed.

Lemma deliver_env rqs : forall w, w_env (deliver rqs w) = w_env w.
Proof.
  induction rqs as [|rq rqs IH]; intros w; simpl; [reflexivity|].
  rewrite IH. apply serve_env.
Qed.

Lemma deliver_artifacts rqs :
  forall w, w_artifacts (deliver rqs w) = w_artifacts w.
Proof.
  induction rqs as [|rq rqs IH]; intros w; simpl; [reflexivity|].
  rewrite IH. apply serve_artifacts.
Qed.

Lemma deliver_steps (R : relation world) `{!PreOrder R} :
  (forall rq w, R w (serve w rq)) ->
  forall rqs w, R w (deliver rqs w).
Proof.
  intros Hserve rqs. induction rqs as [|rq rqs IH]; intros w; simpl.
  - reflexivity.
  - transitivity (serve w rq); [apply Hserve | apply IH].
Qed.

(** ** Relations kept by the elementary steps *)

#[export] Instance same_artifacts_preorder : PreOrder same_artifacts.
Proof.
  split.
  - intros w. reflexivity.
  - intros w1 w2 w3 H12 H23. unfold same_artifacts in *. congruence.
Qed.

#[export] Instance same_artifacts_atomic :
  Atomic same_artifacts (fun _ => True).
Proof.
  split.
  - apply _.
  - intros ev w _. reflexivity.
  - intros rq w. apply serve_artifacts.
  - intros token w. reflexivity.
Qed.

Lemma adds_refl w : adds w w [].
Proof. reflexivity. Qed.

Lemma adds_trans w1 w2 w3 l1 l2 :
  adds w1 w2 l1 -> adds w2 w3 l2 -> adds w1 w3 (l2 ++ l1).
Proof.
  unfold adds. intros H1 H2. rewrite H2, H1. apply app_assoc.
Qed.

Lemma adds_inj w w' l1 l2 : adds w w' l1 -> adds w w' l2 -> l1 = l2.
Proof.
  unfold adds. intros H1 H2. rewrite H1 in H2.
  apply (app_inv_tail _ _ _ H2).
Qed.

#[export] Instance adds_only_preorder Q : PreOrder (adds_only Q).
Proof.
  split.
  - intros w. exists []. split; [apply adds_refl | constructor].
  - intros w1 w2 w3 (l1 & H1 & F1) (l2 & H2 & F2).
    exists (l2 ++ l1)%list. split; [eapply adds_trans; eassumption|].
    apply Forall_app; split; assumption.
Qed.

Lemma adds_only_atomic (Q : event -> Prop) :
  (forall rq ok, Q (Served rq ok)) -> Atomic (adds_only Q) Q.
Proof.
  intros HQ. split.
  - apply _.
  - intros ev w Hev. exists [ev]. split; [reflexivity|].
    constructor; [assumption | constructor].
  - intros rq w. destruct (serve_trace w rq) as [ok Hok].
    exists [Served rq ok]. split; [exact Hok|].
    constructor; [apply HQ | constructor].
  - intros token w. exists []. split; [reflexivity | constructor].
Qed.

Lemma wf_push ev w : wf w -> wf (push ev w).
Proof. exact id. Qed.

Lemma wf_serve rq w : wf w -> wf (serve w rq).
Proof.
  intros Hwf. destruct rq as [token|token]; unfold serve, wf; simpl.
  - unfold ManualGate.resume.
    destruct (ManualGate._events (w_gate w) !! token) as [ev|] eqn:E; simpl.
    + intros t e He. rewrite length_insert.
      apply lookup_delete_Some in He as [_ He]. eapply Hwf, He.
    + exact Hwf.
  - intros t e He. rewrite length_app. simpl.
    destruct (decide (token = t)) as [->|Hne].
    + rewrite lookup_insert_eq in He. injection He as <-. lia.
    + rewrite lookup_insert_ne in He by assumption.
      pose proof (Hwf _ _ He). lia.
Qed.

#[export] Instance gate_kept_preorder : PreOrder gate_kept.
Proof.
  split.
  - intros w. split; [exact id|]. exists []. split; [apply adds_refl|].
    intros token Hin Hout. contradiction.
  - intros w1 w2 w3 (Hwf1 & l1 & H1 & K1) (Hwf2 & l2 & H2 & K2).
    split; [auto|]. exists (l2 ++ l1)%list.
    split; [eapply adds_trans; eassumption|].
    intros token Hin Hout. apply in_or_app.
    destruct (ManualGate._events (w_gate w2) !! token) as [ev|] eqn:E.
    + left. apply K2; [|assumption]. unfold has_token. rewrite E. eauto.
    + right. apply K1; [assumption|]. unfold has_token. rewrite E.
      intros [x Hx]. discriminate.
Qed.

#[export] Instance gate_kept_atomic : Atomic gate_kept (fun _ => True).
Proof.
  split.
  - apply _.
  - intros ev w _. split; [apply wf_push|]. exists [ev].
    split; [reflexivity|]. intros token Hin Hout. contradiction.
  - intros rq w. split; [apply wf_serve|].
    destruct rq as [token|token]; unfold serve; simpl.
    + unfold ManualGate.resume.
      destruct (ManualGate._events (w_gate w) !! token) as [ev|] eqn:E.
      * exists [Served (ReqResume token) true]. split; [reflexivity|].
        intros t Hin Hout. unfold has_token in *. simpl in *.
        destruct (decide (token = t)) as [->|Hne]; [left; reflexivity|].
        rewrite lookup_delete_ne in Hout by assumption. contradiction.
      * exists [Served (ReqResume token) false]. split; [reflexivity|].
        intros t Hin Hout. contradiction.
    + exists [Served (ReqCreate token) true]. split; [reflexivity|].
      intros t Hin Hout. exfalso. apply Hout. unfold has_token in *. simpl.
      destruct (decide (token = t)) as [->|Hne].
      * rewrite lookup_insert_eq. eauto.
      * rewrite lookup_insert_ne by assumption. exact Hin.
  - intros token w. unfold GATE_create. simpl.
    split; [apply (wf_serve (ReqCreate token))|].
    exists []. split; [reflexivity|].
    intros t Hin Hout. exfalso. apply Hout. unfold has_token in *. simpl.
    destruct (decide (token = t)) as [->|Hne].
    + rewrite lookup_insert_eq. eauto.
    + rewrite lookup_insert_ne by assumption. exact Hin.
Qed.

(** ** Rules of the judgements *)

Section Rules.

Context {R : relation world} {Q : event -> Prop} `{!Atomic R Q}.

Lemma steps_ret {A} (a : A) : steps R (mret a).
Proof. intros w. simpl. reflexivity. Qed.

Lemma steps_raise {A} (e : exn) : steps R (@raise A e).
Proof. intros w. simpl. reflexivity. Qed.

Lemma steps_lift {A} (r : result A) : steps R (lift r).
Proof. intros w. simpl. reflexivity. Qed.

Lemma steps_bind {A B} (m : M A) (k : A -> M B) :
  steps R m -> (forall a, steps R (k a)) -> steps R (m ≫= k).
Proof.
  intros Hm Hk w. rewrite bind_run. specialize (Hm w).
  destruct (m w) as [[a|e] w']; simpl in *; [|assumption].
  transitivity w'; [assumption | apply Hk].
Qed.

Lemma steps_try_except {A} (body : M A) (handler : exn -> M A) :
  steps R body -> (forall e, steps R (handler e)) ->
  steps R (try_except body handler).
Proof.
  intros Hb Hh w. unfold try_except. specialize (Hb w).
  destruct (body w) as [[a|e] w']; simpl in *; [assumption|].
  transitivity w'; [assumption | apply Hh].
Qed.

Lemma steps_try_except_class {A} cls (body handler : M A) :
  steps R body -> steps R handler ->
  steps R (try_except_class cls body handler).
Proof.
  intros Hb Hh w. unfold try_except_class. specialize (Hb w).
  destruct (body w) as [[a|e] w']; simpl in *; [assumption|].
  destruct (String.eqb (exc_class e) cls); simpl; [|assumption].
  transitivity w'; [assumption | apply Hh].
Qed.

Lemma steps_emit ev : Q ev -> steps R (emit ev).
Proof. intros Hev w. simpl. apply atomic_push, Hev. Qed.

Lemma steps_await c : (forall r, Q (Called c r)) -> steps R (await c).
Proof.
  intros Hc w. unfold await.
  destruct (w_env w (w_trace w) c) as [rqs r]. simpl.
  transitivity (deliver rqs w).
  - apply deliver_steps; [apply _ | apply atomic_serve].
  - apply atomic_push, Hc.
Qed.

Lemma steps_invoke c : (forall r, Q (Called c r)) -> steps R (invoke c).
Proof. intros Hc w. simpl. apply atomic_push, Hc. Qed.

Lemma steps_GATE_create token : steps R (GATE_create token).
Proof. intros w. apply atomic_create. Qed.

Lemma steps_wait_for_event ev timeout :
  (forall r, Q (Called (GateWait ev timeout) r)) ->
  steps R (wait_for_event ev timeout).
Proof.
  intros Hc w. unfold wait_for_event.
  set (rqs := fst (w_env w (w_trace w) (GateWait ev timeout))).
  assert (R w (deliver rqs w)) as Hd
    by (apply deliver_steps; [apply _ | apply atomic_serve]).
  destruct (is_set (w_events (deliver rqs w)) ev); simpl;
    (etransitivity; [exact Hd | apply atomic_push, Hc]).
Qed.

End Rules.

Lemma returns_ret {A} (a : A) : returns (mret a).
Proof. intros w. exists a. reflexivity. Qed.

Lemma returns_bind {A B} (m : M A) (k : A -> M B) :
  returns m -> (forall a, returns (k a)) -> returns (m ≫= k).
Proof.
  intros Hm Hk w. rewrite bind_run. destruct (Hm w) as [a Ha].
  destruct (m w) as [r w']; simpl in *; subst r. apply Hk.
Qed.

Lemma returns_try_except {A} (body : M A) (handler : exn -> M A) :
  (forall e, returns (handler e)) -> returns (try_except body handler).
Proof.
  intros Hh w. unfold try_except.
  destruct (body w) as [[a|e] w']; [exists a; reflexivity | apply Hh].
Qed.

Lemma returns_emit ev : returns (emit ev).
Proof. intros w. exists tt. reflexivity. Qed.

(** ** Frames of the source functions *)

Create HintDb frames.

Ltac frame_step :=
  first
    [ solve [eauto with frames typeclass_instances]
    | match goal with
      | |- steps _ (mret _) => apply steps_ret
      | |- steps _ (raise _) => apply steps_raise
      | |- steps _ (lift _) => apply steps_lift
      | |- steps _ (GATE_create _) => apply steps_GATE_create
      | |- steps _ (emit _) => apply steps_emit
      | |- steps _ (await _) => apply steps_await
      | |- steps _ (invoke _) => apply steps_invoke
      | |- steps _ (wait_for_event _ _) => apply steps_wait_for_event
      | |- steps _ (_ ≫= _) => apply steps_bind
      | |- steps _ (try_except _ _) => apply steps_try_except
      | |- steps _ (try_except_class _ _ _) => apply steps_try_except_class
      | |- steps _ (match ?x with _ => _ end) => destruct x
      | |- steps _ (log _) => unfold log
      | |- steps _ (log_ok _) => unfold log_ok
      | |- steps _ (log_warn _) => unfold log_warn
      | |- steps _ (log_err _ _) => unfold log_err
      | |- steps _ (log_exc _ _) => unfold log_exc
      | |- steps _ (log_date _) => unfold log_date
      | |- steps _ (getattr_or_none _) => unfold getattr_or_none
      | |- forall _, _ => intro
      | |- True => exact I
      end
    | solve [exact I | reflexivity] ].

Ltac frame := repeat frame_step.

Ltac returns_step :=
  first
    [ solve [eauto with frames]
    | match goal with
      | |- returns (mret _) => apply returns_ret
      | |- returns (emit _) => apply returns_emit
      | |- returns (_ ≫= _) => apply returns_bind
      | |- returns (try_except _ _) => apply returns_try_except
      | |- returns (match ?x with _ => _ end) => destruct x
      | |- returns (log _) => unfold log
      | |- returns (log_ok _) => unfold log_ok
      | |- returns (log_warn _) => unfold log_warn
      | |- returns (log_err _ _) => unfold log_err
      | |- returns (log_exc _ _) => unfold log_exc
      | |- returns (log_date _) => unfold log_date
      | |- forall _, _ => intro
      end ].

Ltac returning := repeat returns_step.

Section Frames.

Context {R : relation world} `{!Atomic R (fun _ => True)}.
Variable cfg : Config.

Lemma navigate_safe_steps page url : steps R (navigate_safe page url).
Proof. unfold navigate_safe. frame. Qed.

Lemma _screenshot_steps page name : steps R (_screenshot page name).
Proof. unfold _screenshot, _get_screens_dir. frame. Qed.

Lemma click_if_exists_steps page pat : steps R (click_if_exists page pat).
Proof. unfold click_if_exists. frame. Qed.

Lemma _extract_region_code_steps phone :
  steps R (_extract_region_code phone).
Proof. unfold _extract_region_code. frame. Qed.

Lemma set_date_by_id_steps page input_id date_str :
  steps R (set_date_by_id page input_id date_str).
Proof. unfold set_date_by_id. frame. Qed.

Lemma _select_if_value_steps page css v :
  steps R (_select_if_value page css v).
Proof. unfold _select_if_value. frame. Qed.

Lemma _fill_if_value_steps page css v : steps R (_fill_if_value page css v).
Proof. unfold _fill_if_value. frame. Qed.

Hint Resolve navigate_safe_steps _screenshot_steps click_if_exists_steps
  _extract_region_code_steps set_date_by_id_steps _select_if_value_steps
  _fill_if_value_steps : frames.

Lemma register_fill_steps page row : steps R (register_fill page row).
Proof. unfold register_fill. frame. Qed.

Lemma register_gate_steps page token pause :
  steps R (register_gate cfg page token pause).
Proof. unfold register_gate. frame. Qed.

Lemma register_submit_steps page : steps R (register_submit page).
Proof. unfold register_submit. frame. Qed.

Hint Resolve register_fill_steps register_gate_steps register_submit_steps
  : frames.

Lemma register_one_steps page row token pause :
  steps R (register_one cfg page row token pause).
Proof. unfold register_one. frame. Qed.

Lemma download_lookup_steps page row : steps R (download_lookup page row).
Proof. unfold download_lookup. frame. Qed.

Lemma download_direct_steps page row dir :
  steps R (download_direct page row dir).
Proof. unfold download_direct. frame. Qed.

Lemma download_popup_steps page row dir :
  steps R (download_popup page row dir).
Proof. unfold download_popup. frame. Qed.

Hint Resolve download_lookup_steps download_direct_steps
  download_popup_steps : frames.

Lemma download_one_steps page row dir : steps R (download_one page row dir).
Proof. unfold download_one. frame. Qed.

Lemma _attach_listeners_steps page : steps R (_attach_listeners cfg page).
Proof. unfold _attach_listeners. frame. Qed.

End Frames.

#[export] Hint Resolve navigate_safe_steps _screenshot_steps
  click_if_exists_steps _extract_region_code_steps set_date_by_id_steps
  _select_if_value_steps _fill_if_value_steps register_fill_steps
  register_gate_steps register_submit_steps register_one_steps
  download_lookup_steps download_direct_steps download_popup_steps
  download_one_steps _attach_listeners_steps : frames.

Lemma navigate_safe_returns page url : returns (navigate_safe page url).
Proof. unfold navigate_safe. returning. Qed.

Lemma _screenshot_returns page name : returns (_screenshot page name).
Proof. unfold _screenshot, _get_screens_dir. returning. Qed.

Lemma set_date_by_id_returns page input_id date_str :
  returns (set_date_by_id page input_id date_str).
Proof. unfold set_date_by_id. returning. Qed.

Lemma _select_if_value_returns page css v :
  returns (_select_if_value page css v).
Proof. unfold _select_if_value. returning. Qed.

Lemma _fill_if_value_returns page css v : returns (_fill_if_value page css v).
Proof. unfold _fill_if_value. returning. Qed.

Lemma _extract_region_code_returns phone :
  returns (_extract_region_code phone).
Proof. unfold _extract_region_code. returning. Qed.

Lemma click_if_exists_returns page pat : returns (click_if_exists page pat).
Proof. unfold click_if_exists. returning. Qed.

#[export] Hint Resolve navigate_safe_returns _screenshot_returns
  set_date_by_id_returns _select_if_value_returns _fill_if_value_returns
  _extract_region_code_returns click_if_exists_returns : frames.

Lemma register_fill_returns page row : returns (register_fill page row).
Proof. unfold register_fill. returning. Qed.

(** ** The gate *)

Lemma is_set_insert_ne heap ev ev' :
  ev <> ev' -> is_set (<[ev' := true]> heap) ev = is_set heap ev.
Proof.
  intros Hne. unfold is_set. rewrite list_lookup_insert_ne by congruence.
  reflexivity.
Qed.

Lemma is_set_app heap ev :
  ev < length heap -> is_set (heap ++ [false]) ev = is_set heap ev.
Proof. intros Hlt. unfold is_set. rewrite lookup_app_l by assumption. reflexivity. Qed.

Lemma is_set_fresh heap : is_set (heap ++ [false]) (length heap) = false.
Proof.
  unfold is_set. rewrite lookup_app_r by lia.
  replace (length heap - length heap) with 0 by lia. reflexivity.
Qed.

Lemma deliver_adds rqs w :
  exists new, adds w (deliver rqs w) new /\ Forall is_served new.
Proof.
  revert w. induction rqs as [|rq rqs IH]; intros w; simpl.
  - exists []. split; [reflexivity | constructor].
  - destruct (IH (serve w rq)) as (l & Hl & Fl).
    destruct (serve_trace w rq) as [ok Hok].
    exists (l ++ [Served rq ok])%list. split.
    + unfold adds in *. rewrite Hl, Hok, <- app_assoc. reflexivity.
    + apply Forall_app. split; [assumption|]. repeat constructor.
Qed.

(** A request leaves an event alone unless it is a successful resume
    of a token that refers to it. *)
Lemma serve_held ev P w rq :
  held ev P w ->
  (forall token, P token ->
     w_trace (serve w rq) <> Served (ReqResume token) true :: w_trace w) ->
  held ev P (serve w rq).
Proof.
  intros (Hunset & Hlt & Hown) Hno.
  destruct rq as [token|token]; unfold serve, held in *; simpl in *.
  - unfold ManualGate.resume in *.
    destruct (ManualGate._events (w_gate w) !! token) as [ev'|] eqn:E;
      simpl in *; [|auto].
    assert (ev <> ev') as Hne.
    { intros <-. apply (Hno token); [apply Hown, E | reflexivity]. }
    rewrite is_set_insert_ne by assumption. rewrite length_insert.
    repeat split; [assumption..|].
    intros t Ht. apply lookup_delete_Some in Ht as [_ Ht]. auto.
  - rewrite is_set_app by assumption. rewrite length_app. simpl.
    repeat split; [assumption | lia |].
    intros t Ht. destruct (decide (token = t)) as [->|Hne].
    + rewrite lookup_insert_eq in Ht. injection Ht as Ht. lia.
    + rewrite lookup_insert_ne in Ht by assumption. auto.
Qed.

Lemma deliver_held ev P rqs :
  forall w new,
    held ev P w ->
    adds w (deliver rqs w) new ->
    (forall token, P token -> ~ In (Served (ReqResume token) true) new) ->
    held ev P (deliver rqs w).
Proof.
  induction rqs as [|rq rqs IH]; intros w new Hheld Hadds Hno; simpl in *;
    [assumption|].
  destruct (serve_trace w rq) as [ok Hok].
  destruct (deliver_adds rqs (serve w rq)) as (l & Hl & _).
  assert (new = (l ++ [Served rq ok])%list) as ->.
  { eapply adds_inj; [exact Hadds|]. unfold adds in *.
    rewrite Hl, Hok, <- app_assoc. reflexivity. }
  eapply (IH _ l); [|exact Hl|].
  - apply serve_held; [assumption|].
    intros token HP Heq. apply (Hno token HP).
    apply in_or_app. right. left. rewrite Hok in Heq. congruence.
  - intros token HP Hin. apply (Hno token HP). apply in_or_app. left.
    exact Hin.
Qed.

Lemma deliver_orphan ev rqs w : orphan ev w -> orphan ev (deliver rqs w).
Proof.
  intros Horphan. destruct (deliver_adds rqs w) as (l & Hl & _).
  eapply deliver_held; [exact Horphan | exact Hl | intros token []].
Qed.

(** C2. A resume of a token that the gate holds succeeds and removes
    exactly that token; the next resume of it fails and changes
    nothing; a resume of a token that the gate does not hold fails and
    changes nothing. *)
Theorem resume_exactly_once (self : ManualGate.t) (token : string)
    (heap : list bool) :
  (forall ev, ManualGate._events self !! token = Some ev ->
     exists self' heap',
       ManualGate.resume self token heap = (true, self', heap')
       /\ ManualGate._events self' = delete token (ManualGate._events self)
       /\ heap' = <[ev := true]> heap
       /\ ManualGate.resume self' token heap' = (false, self', heap'))
  /\ (ManualGate._events self !! token = None ->
      ManualGate.resume self token heap = (false, self, heap)).
Proof.
  split.
  - intros ev Hev. unfold ManualGate.resume at 1. rewrite Hev.
    eexists _, _. repeat split.
    unfold ManualGate.resume. simpl. rewrite lookup_delete_eq. reflexivity.
  - intros Hnone. unfold ManualGate.resume. rewrite Hnone. reflexivity.
Qed.

Lemma resume_exactly_once_witness :
  let self := snd (fst (ManualGate.create ManualGate.__init__ "a1b2c3d4" [])) in
  exists self' heap',
    ManualGate.resume self "a1b2c3d4" [false] = (true, self', heap')
    /\ ManualGate._events self' = delete "a1b2c3d4" (ManualGate._events self)
    /\ heap' = <[0 := true]> [false]
    /\ ManualGate.resume self' "a1b2c3d4" heap' = (false, self', heap').
Proof.
  intros self.
  apply (proj1 (resume_exactly_once self "a1b2c3d4" [false]) 0).
  reflexivity.
Defined.

(** C10. When a token already refers to a pending event, a second
    [create] of the token replaces the reference by a fresh event; the
    earlier event is then referred to by no token, no later request to
    the gate can set it, and a wait on it ends with the timeout. *)
Theorem second_create_orphans (w : world) (token : string) (ev1 : nat) :
  ManualGate._events (w_gate w) !! token = Some ev1 ->
  held ev1 (fun t => t = token) w ->
  exists ev2 self2 heap2,
    ManualGate.create (w_gate w) token (w_events w) = (ev2, self2, heap2)
    /\ ev2 <> ev1
    /\ ManualGate._events self2 !! token = Some ev2
    /\ is_set heap2 ev2 = false
    /\ forall w', w_gate w' = self2 -> w_events w' = heap2 ->
         orphan ev1 w'
         /\ (forall rqs, is_set (w_events (deliver rqs w')) ev1 = false)
         /\ (forall timeout,
               fst (wait_for_event ev1 timeout w')
               = Raise asyncio_TimeoutError).
Proof.
  intros Htok (Hunset & Hlt & Hown).
  eexists _, _, _. split; [reflexivity|]. simpl.
  split; [lia|]. split; [apply lookup_insert_eq|].
  split; [apply is_set_fresh|].
  intros w' Hgate Hheap.
  assert (orphan ev1 w') as Horphan.
  { unfold orphan, held. rewrite Hgate, Hheap. simpl.
    rewrite is_set_app by assumption. rewrite length_app. simpl.
    repeat split; [assumption | lia |].
    intros t Ht. destruct (decide (token = t)) as [->|Hne].
    - rewrite lookup_insert_eq in Ht. injection Ht as Ht. lia.
    - rewrite lookup_insert_ne in Ht by assumption.
      apply Hne. symmetry. apply Hown, Ht. }
  split; [exact Horphan|]. split.
  - intros rqs. apply (deliver_orphan ev1 rqs w' Horphan).
  - intros timeout. unfold wait_for_event.
    destruct (deliver_orphan ev1
      (fst (w_env w' (w_trace w') (GateWait ev1 timeout))) w' Horphan)
      as (-> & _). reflexivity.
Qed.

Lemma second_create_orphans_witness :
  let w := snd (GATE_create "a1b2c3d4" (boot quiet)) in
  exists ev2 self2 heap2,
    ManualGate.create (w_gate w) "a1b2c3d4" (w_events w) = (ev2, self2, heap2)
    /\ ev2 <> 0
    /\ ManualGate._events self2 !! "a1b2c3d4" = Some ev2
    /\ is_set heap2 ev2 = false
    /\ forall w', w_gate w' = self2 -> w_events w' = heap2 ->
         orphan 0 w'
         /\ (forall rqs, is_set (w_events (deliver rqs w')) 0 = false)
         /\ (forall timeout,
               fst (wait_for_event 0 timeout w') = Raise asyncio_TimeoutError).
Proof.
  intros w. apply (second_create_orphans w "a1b2c3d4" 0).
  - reflexivity.
  - repeat split; [simpl; lia|].
    intros t Ht. simpl in Ht.
    destruct (decide ("a1b2c3d4" = t)) as [<-|Hne]; [reflexivity|].
    rewrite lookup_insert_ne in Ht by assumption.
    rewrite lookup_empty in Ht. discriminate.
Defined.

(** ** The code mappings *)

Lemma prefix_m_not_f s :
  PyStr.startswith s "m" = true -> PyStr.startswith s "f" = false.
Proof.
  destruct s as [|a s]; simpl; [discriminate|].
  destruct (Ascii.eqb a "m") eqn:E; [|discriminate].
  apply Ascii.eqb_eq in E. subst a. reflexivity.
Qed.

Lemma prefix_air_land_sea s :
  (PyStr.startswith s "air" = true -> PyStr.startswith s "land" = false
     /\ PyStr.startswith s "sea" = false)
  /\ (PyStr.startswith s "land" = true -> PyStr.startswith s "sea" = false).
Proof.
  destruct s as [|a s]; [split; discriminate|].
  split.
  - cbn [PyStr.startswith]. destruct (Ascii.eqb a "a") eqn:E; [|discriminate].
    apply Ascii.eqb_eq in E. subst a. intros _. split; reflexivity.
  - cbn [PyStr.startswith]. destruct (Ascii.eqb a "l") eqn:E; [|discriminate].
    apply Ascii.eqb_eq in E. subst a. intros _. reflexivity.
Qed.

Ltac code_case :=
  try match goal with t := _ |- _ => subst t end;
  repeat match goal with
    | |- _ /\ _ => split
    | |- _ <-> _ => split
    | |- _ -> _ => intro
    | |- ~ _ => intro
    | H : exists _, _ |- _ => destruct H as (? & ? & ?)
    | H : Some _ = Some _ |- _ => injection H as H; subst
    | H : _ /\ _ |- _ => destruct H
    | H : None = Some _ |- _ => discriminate H
    end;
  try discriminate; try congruence;
  try (eexists; split; [reflexivity | assumption]);
  try (exfalso;
       match goal with
       | H : PyStr.startswith (PyStr.lower (PyStr.strip "")) _ = true |- _ =>
           discriminate H
       | H : ~ _ |- _ =>
           apply H; eexists; split; [reflexivity | assumption]
       end).

(** C5, as the code has it. The sex code is "1" exactly for an input
    whose trimmed, lower-cased text starts with "m" (so for male), "2"
    exactly for one that starts with "f" (so for female), and the empty
    string for every other input, a missing one included; the mode code
    is "1", "2", "3" exactly for the prefixes "air", "land", "sea", and
    the empty string otherwise. *)
Theorem map_codes_by_prefix :
  _map_gender (Some "male") = "1" /\ _map_gender (Some "female") = "2"
  /\ _map_gender None = "" /\ _map_gender (Some "") = ""
  /\ _map_mode (Some "air") = "1" /\ _map_mode (Some "land") = "2"
  /\ _map_mode (Some "sea") = "3" /\ _map_mode None = ""
  /\ _map_mode (Some "") = ""
  /\ (forall g,
        let starts p :=
          exists s, g = Some s
            /\ PyStr.startswith (PyStr.lower (PyStr.strip s)) p = true in
        (_map_gender g = "1" <-> starts "m")
        /\ (_map_gender g = "2" <-> starts "f")
        /\ (_map_gender g = "" <-> ~ starts "m" /\ ~ starts "f"))
  /\ (forall m,
        let starts p :=
          exists s, m = Some s
            /\ PyStr.startswith (PyStr.lower (PyStr.strip s)) p = true in
        (_map_mode m = "1" <-> starts "air")
        /\ (_map_mode m = "2" <-> starts "land")
        /\ (_map_mode m = "3" <-> starts "sea")
        /\ (_map_mode m = "" <->
            ~ starts "air" /\ ~ starts "land" /\ ~ starts "sea")).
Proof.
  do 9 (split; [reflexivity|]). split.
  - intros g starts. subst starts. unfold _map_gender.
    destruct g as [[|a s]|]; [code_case | | code_case].
    set (t := PyStr.lower (PyStr.strip (String a s))).
    destruct (PyStr.startswith t "m") eqn:Em.
    + pose proof (prefix_m_not_f t Em). code_case.
    + destruct (PyStr.startswith t "f") eqn:Ef; code_case.
  - intros m starts. subst starts. unfold _map_mode.
    destruct m as [[|a s]|]; [code_case | | code_case].
    set (t := PyStr.lower (PyStr.strip (String a s))).
    destruct (prefix_air_land_sea t) as [Hair Hland].
    destruct (PyStr.startswith t "air") eqn:Ea.
    + destruct (Hair eq_refl). code_case.
    + clear Hair. destruct (PyStr.startswith t "land") eqn:El.
      * pose proof (Hland eq_refl). code_case.
      * clear Hland. destruct (PyStr.startswith t "sea") eqn:Es; code_case.
Qed.

(** C5 as stated fails: an input other than male and female is mapped
    to a code. *)
Lemma map_codes_other_inputs :
  ~ (forall g, g <> Some "male" -> g <> Some "female" -> _map_gender g = "")
  /\ ~ (forall m, m <> Some "air" -> m <> Some "land" -> m <> Some "sea" ->
          _map_mode m = "").
Proof.
  split.
  - intros H. specialize (H (Some "Mrs")). discriminate H; discriminate.
  - intros H. specialize (H (Some "seaplane")).
    discriminate H; discriminate.
Qed.

(** ** Date normalisation *)

Lemma append_cons a (s r : string) : String a s ++ r = String a (s ++ r).
Proof. reflexivity. Qed.

Lemma append_nil_r (s : string) : s ++ "" = s.
Proof.
  induction s as [|a s IH]; [reflexivity|]. rewrite append_cons, IH.
  reflexivity.
Qed.

Lemma append_assoc (s1 s2 s3 : string) : (s1 ++ s2) ++ s3 = s1 ++ s2 ++ s3.
Proof.
  induction s1 as [|a s1 IH]; [reflexivity|]. rewrite !append_cons, IH.
  reflexivity.
Qed.

Lemma digits_sound n : forall s g r,
  Re.digits n s = Some (g, r) ->
  s = g ++ r /\ String.length g = n /\ all_digits g.
Proof.
  induction n as [|n IH]; intros s g r H; simpl in H.
  - injection H as <- <-. repeat split. constructor.
  - destruct s as [|a s]; [discriminate|].
    destruct (PyStr.is_digit a) eqn:Ea; [|discriminate].
    destruct (Re.digits n s) as [[d r']|] eqn:E; simpl in H; [|discriminate].
    injection H as <- <-. destruct (IH _ _ _ E) as (-> & <- & Hd).
    repeat split. constructor; assumption.
Qed.

Lemma digits_complete n : forall g r,
  String.length g = n -> all_digits g -> Re.digits n (g ++ r) = Some (g, r).
Proof.
  induction n as [|n IH]; intros g r Hlen Hd.
  - destruct g; [reflexivity | discriminate].
  - destruct g as [|a g]; [discriminate|]. rewrite append_cons.
    simpl in *. inversion Hd as [|? ? Ha Hg]; subst. rewrite Ha.
    rewrite IH by (try lia; assumption). reflexivity.
Qed.

Lemma lit_sound c s r : Re.lit c s = Some r -> s = String c r.
Proof.
  destruct s as [|a s]; simpl; [discriminate|].
  destruct (Ascii.eqb a c) eqn:E; [|discriminate].
  apply Ascii.eqb_eq in E. subst a. intros [= <-]. reflexivity.
Qed.

Lemma three_groups_sound n1 n2 n3 sep s g1 g2 g3 :
  Re.three_groups n1 n2 n3 sep s = Some (g1, g2, g3) ->
  exists r, Re.at_end r = true
    /\ shaped n1 n2 n3 sep (g1 ++ String sep (g2 ++ String sep g3))
    /\ s = g1 ++ String sep (g2 ++ String sep (g3 ++ r)).
Proof.
  unfold Re.three_groups. intros H.
  destruct (Re.digits n1 s) as [[d1 r1]|] eqn:E1; simpl in H; [|discriminate].
  destruct (Re.lit sep r1) as [r2|] eqn:E2; simpl in H; [|discriminate].
  destruct (Re.digits n2 r2) as [[d2 r3]|] eqn:E3; simpl in H; [|discriminate].
  destruct (Re.lit sep r3) as [r4|] eqn:E4; simpl in H; [|discriminate].
  destruct (Re.digits n3 r4) as [[d3 r5]|] eqn:E5; simpl in H; [|discriminate].
  destruct (Re.at_end r5) eqn:E6; [|discriminate].
  injection H as <- <- <-.
  apply digits_sound in E1 as (-> & L1 & D1).
  apply digits_sound in E3 as (-> & L2 & D2).
  apply digits_sound in E5 as (-> & L3 & D3).
  apply lit_sound in E2 as ->. apply lit_sound in E4 as ->.
  exists r5. split; [assumption|]. split; [|reflexivity].
  exists d1, d2, d3. repeat split; assumption.
Qed.

Lemma three_groups_complete n1 n2 n3 sep s :
  shaped n1 n2 n3 sep s ->
  exists g, Re.three_groups n1 n2 n3 sep s = Some g.
Proof.
  intros (g1 & g2 & g3 & -> & L1 & L2 & L3 & D1 & D2 & D3).
  exists (g1, g2, g3). unfold Re.three_groups.
  rewrite (digits_complete _ _ _ L1 D1). simpl. rewrite Ascii.eqb_refl. simpl.
  rewrite (digits_complete _ _ _ L2 D2). simpl. rewrite Ascii.eqb_refl. simpl.
  rewrite <- (append_nil_r g3) at 1.
  rewrite (digits_complete _ _ _ L3 D3). reflexivity.
Qed.

Lemma rstrip_last s : forall p a,
  PyStr.rstrip s = p ++ String a "" -> PyStr.is_space a = false.
Proof.
  induction s as [|b s IH]; intros p a H; simpl in H.
  - destruct p; discriminate.
  - destruct (PyStr.rstrip s) as [|c r] eqn:E.
    + destruct (PyStr.is_space b) eqn:Eb.
      * destruct p; discriminate.
      * destruct p as [|b' [|? ?]]; simpl in H; try discriminate.
        injection H as <-. assumption.
    + destruct p as [|b' p]; simpl in H.
      * discriminate.
      * injection H as <- H. apply (IH p a). exact H.
Qed.

Lemma strip_exact x g r :
  PyStr.strip x = g ++ r -> Re.at_end r = true -> r = "".
Proof.
  intros Hx Hr. destruct r as [|a [|? ?]]; [reflexivity | | discriminate].
  simpl in Hr. apply Ascii.eqb_eq in Hr. subst a.
  apply rstrip_last in Hx. discriminate Hx.
Qed.

Lemma three_groups_strip n1 n2 n3 sep x g :
  Re.three_groups n1 n2 n3 sep (PyStr.strip x) = Some g ->
  shaped n1 n2 n3 sep (PyStr.strip x).
Proof.
  destruct g as [[g1 g2] g3]. intros H.
  apply three_groups_sound in H as (r & Hr & Hs & Hx).
  assert (r = "") as ->.
  { eapply (strip_exact x (g1 ++ String sep (g2 ++ String sep g3))); [|exact Hr].
    rewrite Hx. rewrite append_assoc, append_cons, append_assoc.
    rewrite append_cons. reflexivity. }
  rewrite Hx. rewrite append_nil_r. exact Hs.
Qed.

(** The matcher recognises exactly the three shapes. *)
Lemma date_groups_accepts date_str :
  accepted_shape date_str <-> exists g, date_groups date_str = Some g.
Proof.
  unfold accepted_shape, date_groups.
  set (s := PyStr.strip (PyStr.or_else date_str "")).
  split.
  - intros H.
    destruct (Re.three_groups 4 2 2 "-" s) as [[[? ?] ?]|] eqn:E1; [eauto|].
    destruct (Re.three_groups 2 2 4 "-" s) as [[[? ?] ?]|] eqn:E2; [eauto|].
    destruct (Re.three_groups 2 2 4 "/" s) as [[[? ?] ?]|] eqn:E3; [eauto|].
    destruct H as [H|[H|H]]; apply three_groups_complete in H as [g Hg];
      congruence.
  - intros [g Hg].
    destruct (Re.three_groups 4 2 2 "-" s) as [g1|] eqn:E1.
    { left. eapply three_groups_strip, E1. }
    destruct (Re.three_groups 2 2 4 "-" s) as [g2|] eqn:E2.
    { right. left. eapply three_groups_strip, E2. }
    destruct (Re.three_groups 2 2 4 "/" s) as [g3|] eqn:E3.
    { right. right. eapply three_groups_strip, E3. }
    discriminate.
Qed.

#[export] Instance writes_date_atomic val :
  Atomic (adds_only (writes_date val)) (writes_date val) :=
  adds_only_atomic (writes_date val) (fun _ _ => I).

(** ** Runs of the elementary steps *)

Lemma await_run c w :
  exists r l w',
    await c w = (r, w')
    /\ adds w w' (Called c r :: l) /\ Forall is_served l
    /\ w_artifacts w' = w_artifacts w.
Proof.
  unfold await. destruct (w_env w (w_trace w) c) as [rqs r].
  destruct (deliver_adds rqs w) as (l & Hl & Fl).
  exists r, l, (push (Called c r) (deliver rqs w)).
  repeat split; [|assumption|apply deliver_artifacts].
  unfold adds in *. simpl. rewrite Hl. reflexivity.
Qed.

Lemma adds_push w w' l ev : adds w w' l -> adds w (push ev w') (ev :: l).
Proof. unfold adds. simpl. intros ->. reflexivity. Qed.

Lemma adds_assign w w' l a f p :
  adds w w' l -> adds w (snd (assign a f p w')) (Assigned a f p :: l).
Proof. unfold adds. simpl. intros ->. reflexivity. Qed.

(** ** Tactics for traces *)

Ltac served_absurd H F :=
  rewrite List.Forall_forall in F; apply F in H; simpl in H; contradiction.

Ltac in_inv :=
  repeat match goal with
    | H : In _ [] |- _ => destruct H
    | H : In _ (_ :: _) |- _ => destruct H as [H|H]
    | H : In _ (_ ++ _) |- _ => apply in_app_or in H; destruct H as [H|H]
    | H : Called _ _ = Called _ _ |- _ => inversion H; clear H; subst
    | H : Log _ _ _ = Called _ _ |- _ => discriminate H
    | H : Assigned _ _ _ = Called _ _ |- _ => discriminate H
    | H : Called _ _ = Log _ _ _ |- _ => discriminate H
    | H : Called _ _ = Assigned _ _ _ |- _ => discriminate H
    | H : Log _ _ _ = Assigned _ _ _ |- _ => discriminate H
    | H : In (Called _ _) ?l, F : Forall is_served ?l |- _ => served_absurd H F
    | H : In (Log _ _ _) ?l, F : Forall is_served ?l |- _ => served_absurd H F
    | H : In (Assigned _ _ _) ?l, F : Forall is_served ?l |- _ =>
        served_absurd H F
    end.

Ltac list_norm :=
  repeat first [rewrite <- app_assoc | rewrite <- app_comm_cons].

Ltac in_search :=
  match goal with
  | |- In _ (_ :: _) => first [left; reflexivity | right; in_search]
  | |- In _ (_ ++ _) =>
      apply in_or_app; first [left; in_search | right; in_search]
  end.

(** ** The finalizer *)

Section Finalizer.

Variable cfg : Config.

(** The close step: one call, then the line that reports it. *)
Lemma finalize_close_run context w :
  exists rc l w',
    finalize_close context w = (Ok tt, w')
    /\ adds w w'
         (match rc with
          | Ok _ => Log Okay "Context closed" None
          | Raise e => Log Err "Context close failed" (Some e)
          end :: Called (ContextClose context) rc :: l)
    /\ Forall is_served l
    /\ w_artifacts w' = w_artifacts w.
Proof.
  unfold finalize_close, try_except. rewrite bind_run.
  destruct (await_run (ContextClose context) w)
    as (rc & l & w1 & -> & Hadds & Fl & Harts).
  exists rc, l. destruct rc as [v|e]; simpl;
    (eexists; repeat split; [apply adds_push, Hadds | assumption..]).
Qed.

(** The trace step: skipped without a recording directory or with
    tracing off; otherwise one call, then the path is recorded or the
    failure is logged. *)
Lemma finalize_trace_run context a record_dir w :
  exists w' new tp,
    finalize_trace cfg context a record_dir w = (Ok tt, w')
    /\ adds w w' new
    /\ Forall not_video_assignment new
    /\ w_artifacts w' = assign_opt a f_trace_path tp (w_artifacts w)
    /\ match record_dir with
       | Some dir =>
           let zip := PathDiv dir "trace.zip" in
           if RECORD_TRACE cfg then
             exists rs l,
               new = (match rs with
                      | Ok _ =>
                          [Log Okay ("Trace saved: " ++ path_str zip) None;
                           Assigned a f_trace_path zip]
                      | Raise e => [Log Err "Trace stop failed" (Some e)]
                      end
                      ++ Called (TracingStop context (path_str zip)) rs :: l)%list
               /\ Forall is_served l
               /\ tp = match rs with Ok _ => Some zip | Raise _ => None end
           else new = [] /\ tp = None
       | None => new = [] /\ tp = None
       end.
Proof.
  unfold finalize_trace.
  destruct record_dir as [dir|];
    [destruct (RECORD_TRACE cfg)|];
    try (exists w, [], None; repeat split; constructor).
  unfold try_except. rewrite bind_run.
  destruct (await_run
    (TracingStop context (path_str (PathDiv dir "trace.zip"))) w)
    as (rs & l & w1 & -> & Hadds & Fl & Harts).
  assert (Forall not_video_assignment l) as Fl'.
  { eapply Forall_impl; [exact Fl|]. intros [] H; simpl in *; tauto. }
  destruct rs as [v|e]; simpl.
  - eexists _, _, (Some _). split; [reflexivity|].
    split; [apply adds_push, adds_assign, Hadds|].
    split; [repeat constructor; assumption|].
    split; [simpl; rewrite Harts; reflexivity|].
    exists (Ok v), l. repeat split; assumption.
  - eexists _, _, None. split; [reflexivity|].
    split; [apply adds_push, Hadds|].
    split; [repeat constructor; assumption|].
    split; [simpl; assumption|].
    exists (Raise e), l. repeat split; assumption.
Qed.

(** The video step: the recording handle is read first; with a handle
    its path is awaited and recorded, and whatever fails is logged. *)
Lemma finalize_video_run page a w :
  exists w' l3 rv vp,
    finalize_video page a w = (Ok tt, w')
    /\ adds w w' (l3 ++ [Called (pg page Video) rv])
    /\ w_artifacts w' = assign_opt a f_video_path vp (w_artifacts w)
    /\ (forall p, vp = Some p ->
          exists video s,
            p = PathOf s
            /\ In (Called (VideoPath video) (Ok (VStr s))) l3
            /\ In (Assigned a f_video_path p) l3)
    /\ (forall c e, In (Called c (Raise e)) l3 ->
          In (Log Err "Video path fetch failed" (Some e)) l3)
    /\ (forall e, rv = Raise e -> exc_class e <> "AttributeError" ->
          In (Log Err "Video path fetch failed" (Some e)) l3)
    /\ (forall v, rv = Ok v -> py_truthy v = true ->
          exists r2, In (Called (pg page Video) r2) l3
            /\ forall video, r2 = Ok video ->
                 exists rp, In (Called (VideoPath video) rp) l3).
Proof.
  unfold finalize_video, try_except, getattr_or_none, try_except.
  rewrite bind_run. unfold invoke at 1.
  set (rv := snd (w_env w (w_trace w) (pg page Video))).
  set (w1 := push (Called (pg page Video) rv) w).
  assert (forall w' l3, adds w1 w' l3 ->
            adds w w' (l3 ++ [Called (pg page Video) rv])) as Hext.
  { intros w' l3 H.
    apply (adds_trans w w1 w' [Called (pg page Video) rv] l3);
      [reflexivity | exact H]. }
  assert (w_artifacts w1 = w_artifacts w) as A1 by reflexivity.
  clearbody w1. clearbody rv. destruct rv as [v|e].
  - cbn [fst snd]. destruct (py_truthy v) eqn:Ev.
    + cbn beta iota. rewrite bind_run. unfold invoke at 1.
      set (r2 := snd (w_env w1 (w_trace w1) (pg page Video))).
      set (w2 := push (Called (pg page Video) r2) w1).
      assert (adds w1 w2 [Called (pg page Video) r2]) as H2 by reflexivity.
      assert (w_artifacts w2 = w_artifacts w1) as A2 by reflexivity.
      clearbody w2. clearbody r2. destruct r2 as [video|e2].
      * cbn [fst snd]. rewrite bind_run.
        destruct (await_run (VideoPath video) w2)
          as (rp & l & w3 & -> & Hadds & Fl & Harts).
        pose proof (adds_trans _ _ _ _ _ H2 Hadds) as H3.
        destruct rp as [vp|e3].
        -- cbn beta iota. rewrite bind_run. unfold lift.
           destruct vp as [|b|n|s|id|items];
             try (eexists _, _, (Ok v), None;
                  split; [reflexivity|];
                  split; [apply Hext, adds_push, H3|];
                  split; [simpl; congruence|];
                  split; [intros p [=]|];
                  split; [intros c e Hin; in_inv|];
                  split; [intros e [=]|];
                  intros v' _ _; eexists; split; [in_search|];
                  intros video' [= <-]; eexists; in_search).
           eexists _, _, (Ok v), (Some (PathOf s)).
           split; [reflexivity|].
           split; [apply Hext, adds_push, adds_assign, H3|].
           split; [simpl; congruence|].
           split.
           { intros p [= <-]. exists video, s. split; [reflexivity|].
             split; in_search. }
           split; [intros c e Hin; in_inv|].
           split; [intros e [=]|].
           intros v' _ _. eexists. split; [in_search|].
           intros video' [= <-]. eexists. in_search.
        -- eexists _, _, (Ok v), None. split; [reflexivity|].
           split; [apply Hext, adds_push, H3|].
           split; [simpl; congruence|].
           split; [intros p [=]|].
           split; [intros c e Hin; in_inv; in_search|].
           split; [intros e [=]|].
           intros v' _ _. eexists. split; [in_search|].
           intros video' [= <-]. eexists. in_search.
      * eexists _, _, (Ok v), None. split; [reflexivity|].
        split; [apply Hext, adds_push, H2|].
        split; [simpl; congruence|].
        split; [intros p [=]|].
        split; [intros c e Hin; in_inv; in_search|].
        split; [intros e [=]|].
        intros v' _ _. eexists. split; [in_search|].
        intros video' [=].
    + eexists _, [], (Ok v), None. split; [reflexivity|].
      split; [apply Hext; reflexivity|].
      split; [simpl; congruence|].
      split; [intros p [=]|].
      split; [intros c e []|].
      split; [intros e [=]|].
      intros v' [= <-] Hv. congruence.
  - cbn [fst snd].
    destruct (String.eqb (exc_class e) "AttributeError") eqn:Ecls.
    + eexists _, [], (Raise e), None. split; [reflexivity|].
      split; [apply Hext; reflexivity|].
      split; [simpl; congruence|].
      split; [intros p [=]|].
      split; [intros c e' []|].
      split.
      { intros e' [= <-] Hne. apply String.eqb_eq in Ecls. contradiction. }
      intros v' [=].
    + eexists _, _, (Raise e), None. split; [reflexivity|].
      split; [apply Hext, adds_push, adds_refl|].
      split; [simpl; congruence|].
      split; [intros p [=]|].
      split; [intros c e' Hin; in_inv|].
      split; [intros e' [= <-] _; in_search|].
      intros v' [=].
Qed.

(** The whole finalizer: the three steps in order, none skipped. *)
Lemma finalize_run context page a record_dir w :
  exists w' l1 rc l2 rv l3 tp vp,
    _finalize_artifacts cfg context page a record_dir w = (Ok a, w')
    /\ adds w w'
         (l3 ++ Called (pg page Video) rv
             :: match rc with
                | Ok _ => Log Okay "Context closed" None
                | Raise e => Log Err "Context close failed" (Some e)
                end
             :: Called (ContextClose context) rc :: l2 ++ l1)
    /\ Forall is_served l2
    /\ Forall not_video_assignment l1
    /\ w_artifacts w' =
       assign_opt a f_video_path vp
         (assign_opt a f_trace_path tp (w_artifacts w))
    /\ match record_dir with
       | Some dir =>
           let zip := PathDiv dir "trace.zip" in
           if RECORD_TRACE cfg then
             exists rs l,
               l1 = (match rs with
                     | Ok _ =>
                         [Log Okay ("Trace saved: " ++ path_str zip) None;
                          Assigned a f_trace_path zip]
                     | Raise e => [Log Err "Trace stop failed" (Some e)]
                     end
                     ++ Called (TracingStop context (path_str zip)) rs :: l)%list
               /\ Forall is_served l
               /\ tp = match rs with Ok _ => Some zip | Raise _ => None end
           else l1 = [] /\ tp = None
       | None => l1 = [] /\ tp = None
       end
    /\ (forall p, vp = Some p ->
          exists video s,
            p = PathOf s
            /\ In (Called (VideoPath video) (Ok (VStr s))) l3
            /\ In (Assigned a f_video_path p) l3)
    /\ (forall c e, In (Called c (Raise e)) l3 ->
          In (Log Err "Video path fetch failed" (Some e)) l3)
    /\ (forall e, rv = Raise e -> exc_class e <> "AttributeError" ->
          In (Log Err "Video path fetch failed" (Some e)) l3)
    /\ (forall v, rv = Ok v -> py_truthy v = true ->
          exists r2, In (Called (pg page Video) r2) l3
            /\ forall video, r2 = Ok video ->
                 exists rp, In (Called (VideoPath video) rp) l3).
Proof.
  unfold _finalize_artifacts.
  destruct (finalize_trace_run context a record_dir w)
    as (w1 & l1 & tp & R1 & H1 & F1 & A1 & T1).
  destruct (finalize_close_run context w1)
    as (rc & l2 & w2 & R2 & H2 & F2 & A2).
  destruct (finalize_video_run page a w2)
    as (w3 & l3 & rv & vp & R3 & H3 & A3 & V1 & V2 & V3 & V4).
  exists w3, l1, rc, l2, rv, l3, tp, vp.
  rewrite bind_run, R1. cbn beta iota.
  rewrite bind_run, R2. cbn beta iota.
  rewrite bind_run, R3. cbn beta iota.
  split; [reflexivity|]. split.
  { unfold adds in *. rewrite H3, H2, H1. list_norm. reflexivity. }
  split; [assumption|]. split; [assumption|].
  split; [congruence|]. tauto.
Qed.

End Finalizer.

Lemma before_intro (e1 e2 : event) l1 l2 l3 :
  before e1 e2 (l3 ++ e2 :: l2 ++ e1 :: l1).
Proof. exists l1, l2, l3. reflexivity. Qed.

(** C6. Every run of the finalizer returns the artifacts object, closes
    the context and then reads the recording handle, whatever the
    earlier steps did; with tracing on and a recording directory, the
    trace is stopped before the close; and the failure of a step is
    logged. *)
Theorem finalize_attempts_every_step (cfg : Config) (context : value)
    (page : Page) (a : nat) (record_dir : option Path) (w : world) :
  exists w' new rc rv,
    _finalize_artifacts cfg context page a record_dir w = (Ok a, w')
    /\ adds w w' new
    /\ before (Called (ContextClose context) rc)
              (Called (pg page Video) rv) new
    /\ (forall e, rc = Raise e ->
          In (Log Err "Context close failed" (Some e)) new)
    /\ (forall e, rv = Raise e -> exc_class e <> "AttributeError" ->
          In (Log Err "Video path fetch failed" (Some e)) new)
    /\ (forall v, rv = Ok v -> py_truthy v = true ->
          (exists video rp, In (Called (VideoPath video) rp) new)
          \/ (exists e, In (Log Err "Video path fetch failed" (Some e)) new))
    /\ (forall video e, In (Called (VideoPath video) (Raise e)) new ->
          In (Log Err "Video path fetch failed" (Some e)) new)
    /\ (forall dir, record_dir = Some dir -> RECORD_TRACE cfg = true ->
          exists rs,
            before
              (Called (TracingStop context
                         (path_str (PathDiv dir "trace.zip"))) rs)
              (Called (ContextClose context) rc) new
            /\ forall e, rs = Raise e ->
                 In (Log Err "Trace stop failed" (Some e)) new).
Proof.
  destruct (finalize_run cfg context page a record_dir w)
    as (w' & l1 & rc & l2 & rv & l3 & tp & vp
        & Hrun & Hadds & F2 & F1 & Harts & Htrace & V1 & V2 & V3 & V4).
  eexists w', _, rc, rv. split; [exact Hrun|]. split; [exact Hadds|].
  split.
  { apply (before_intro _ _ (l2 ++ l1) [_] l3). }
  split.
  { intros e ->. in_search. }
  split.
  { intros e Hrv Hcls. apply in_or_app. left. eauto. }
  split.
  { intros v Hrv Hv. destruct (V4 v Hrv Hv) as (r2 & Hin & Hpath).
    destruct r2 as [video|e].
    - left. destruct (Hpath video eq_refl) as [rp Hrp].
      exists video, rp. apply in_or_app. left. exact Hrp.
    - right. exists e. apply in_or_app. left. eauto. }
  split.
  { intros video e Hin. apply in_app_or in Hin as [Hin|Hin].
    - apply in_or_app. left. eauto.
    - exfalso.
      assert (~ In (Called (VideoPath video) (Raise e)) l1) as Hl1.
      { destruct record_dir as [dir|]; [destruct (RECORD_TRACE cfg)|].
        - destruct Htrace as (rs & l & -> & Fl & _). intros H.
          destruct rs; in_inv.
        - destruct Htrace as [-> _]. intros [].
        - destruct Htrace as [-> _]. intros []. }
      unfold pg in Hin.
      destruct Hin as [Hin|[Hin|[Hin|Hin]]];
        [discriminate | destruct rc; discriminate | discriminate |].
      apply in_app_or in Hin as [Hin|Hin];
        [served_absurd Hin F2 | contradiction]. }
  intros dir -> Htr. rewrite Htr in Htrace.
  destruct Htrace as (rs & l & -> & _ & _). exists rs. split.
  - destruct rs as [v|e]; simpl.
    + exists l,
        (l2 ++ [Log Okay ("Trace saved: "
                          ++ path_str (PathDiv dir "trace.zip")) None;
                Assigned a f_trace_path (PathDiv dir "trace.zip")])%list,
        (l3 ++ [Called (pg page Video) rv;
                match rc with
                | Ok _ => Log Okay "Context closed" None
                | Raise e => Log Err "Context close failed" (Some e)
                end])%list.
      list_norm. reflexivity.
    + exists l, (l2 ++ [Log Err "Trace stop failed" (Some e)])%list,
        (l3 ++ [Called (pg page Video) rv;
                match rc with
                | Ok _ => Log Okay "Context closed" None
                | Raise e => Log Err "Context close failed" (Some e)
                end])%list.
      list_norm. reflexivity.
  - intros e ->. simpl. in_search.
Qed.

Lemma lookup_assign_opt a f o arts x :
  arts !! a = Some x ->
  assign_opt a f o arts !! a =
  Some (match o with Some p => setattr x f p | None => x end).
Proof.
  intros Hx. destruct o as [p|]; simpl; [|exact Hx].
  rewrite list_lookup_alter_eq, Hx. reflexivity.
Qed.

Lemma lookup_assign_opt_ne a b f o (arts : list ContextArtifacts) :
  a <> b -> assign_opt a f o arts !! b = arts !! b.
Proof.
  intros Hne. destruct o as [p|]; simpl; [|reflexivity].
  apply list_lookup_alter_ne. exact Hne.
Qed.

Lemma served_not_video_assignment l :
  Forall is_served l -> Forall not_video_assignment l.
Proof.
  intros H. eapply Forall_impl; [exact H|]. intros [] Hs; simpl in *; tauto.
Qed.

(** The video step, seen from the path: when the recording handle
    hands back a path, that path is stored in the artifacts object. *)
Lemma finalize_video_resolved page a w x :
  w_artifacts w !! a = Some x ->
  exists w' l3 rv,
    finalize_video page a w = (Ok tt, w')
    /\ adds w w' (l3 ++ [Called (pg page Video) rv])
    /\ forall video s,
         In (Called (VideoPath video) (Ok (VStr s))) l3 ->
         w_artifacts w' !! a = Some (setattr x f_video_path (PathOf s)).
Proof.
  intros Hx.
  unfold finalize_video, try_except, getattr_or_none, try_except.
  rewrite bind_run. unfold invoke at 1.
  set (rv := snd (w_env w (w_trace w) (pg page Video))).
  set (w1 := push (Called (pg page Video) rv) w).
  assert (forall w' l3, adds w1 w' l3 ->
            adds w w' (l3 ++ [Called (pg page Video) rv])) as Hext.
  { intros w' l3 H.
    apply (adds_trans w w1 w' [Called (pg page Video) rv] l3);
      [reflexivity | exact H]. }
  assert (w_artifacts w1 = w_artifacts w) as A1 by reflexivity.
  clearbody w1. clearbody rv. unfold pg in *.
  destruct rv as [v|e]; cbn [fst snd].
  - destruct (py_truthy v).
    + cbn beta iota. rewrite bind_run. unfold invoke at 1.
      set (r2 := snd (w_env w1 (w_trace w1) (PageCall (page_obj page) Video))).
      set (w2 := push (Called (PageCall (page_obj page) Video) r2) w1).
      assert (adds w1 w2 [Called (PageCall (page_obj page) Video) r2]) as H2
        by reflexivity.
      assert (w_artifacts w2 = w_artifacts w1) as A2 by reflexivity.
      clearbody w2. clearbody r2. destruct r2 as [video|e2]; cbn [fst snd].
      * rewrite bind_run.
        destruct (await_run (VideoPath video) w2)
          as (rp & l & w3 & -> & Hadds & Fl & Harts).
        pose proof (adds_trans _ _ _ _ _ H2 Hadds) as H3.
        destruct rp as [vp|e3]; cbn beta iota.
        -- rewrite bind_run. unfold lift.
           destruct vp as [|b|n|s|id|items];
             try (eexists _, _, (Ok v); split; [reflexivity|];
                  split; [apply Hext, adds_push, H3|];
                  intros video' s' Hin; exfalso; in_inv).
           eexists _, _, (Ok v). split; [reflexivity|].
           split; [apply Hext, adds_push, adds_assign, H3|].
           intros video' s' Hin. in_inv. simpl.
           rewrite list_lookup_alter_eq, Harts, A2, A1, Hx. reflexivity.
        -- eexists _, _, (Ok v). split; [reflexivity|].
           split; [apply Hext, adds_push, H3|].
           intros video' s' Hin. exfalso. in_inv.
      * eexists _, _, (Ok v). split; [reflexivity|].
        split; [apply Hext, adds_push, H2|].
        intros video' s' Hin. exfalso. in_inv.
    + eexists _, [], (Ok v). split; [reflexivity|].
      split; [apply Hext; reflexivity|]. intros video' s' [].
  - destruct (String.eqb (exc_class e) "AttributeError").
    + eexists _, [], (Raise e). split; [reflexivity|].
      split; [apply Hext; reflexivity|]. intros video' s' [].
    + eexists _, _, (Raise e). split; [reflexivity|].
      split; [apply Hext, adds_push, adds_refl|].
      intros video' s' Hin. exfalso. in_inv.
Qed.

(** C1, as the code has it. No assignment to [video_path] happens
    before the close step has completed, by success or by failure.
    The outcome of the close is logged, a failure as a failure, and
    the video step follows whatever it was: the recording handle is
    read, and when there is one it is read again and asked for its
    path.  The field changes only to a path that the handle returned
    then, and it does change to it whenever the handle returns one. *)
Theorem finalize_video_path_after_close (cfg : Config) (context : value)
    (page : Page) (a : nat) (record_dir : option Path) (w : world)
    (x : ContextArtifacts) :
  w_artifacts w !! a = Some x ->
  exists w' before_close rc rv video_events x',
    _finalize_artifacts cfg context page a record_dir w = (Ok a, w')
    /\ adds w w'
         (video_events
          ++ Called (pg page Video) rv
          :: match rc with
             | Ok _ => Log Okay "Context closed" None
             | Raise e => Log Err "Context close failed" (Some e)
             end
          :: Called (ContextClose context) rc :: before_close)
    /\ Forall not_video_assignment before_close
    /\ w_artifacts w' !! a = Some x'
    /\ (video_path x' = video_path x
        \/ exists video s,
             video_path x' = Some (PathOf s)
             /\ In (Called (VideoPath video) (Ok (VStr s))) video_events
             /\ In (Assigned a f_video_path (PathOf s)) video_events)
    /\ (forall v, rv = Ok v -> py_truthy v = true ->
          exists r2,
            In (Called (pg page Video) r2) video_events
            /\ forall video, r2 = Ok video ->
                 exists rp, In (Called (VideoPath video) rp) video_events)
    /\ (forall video s,
          In (Called (VideoPath video) (Ok (VStr s))) video_events ->
          video_path x' = Some (PathOf s)).
Proof.
  intros Hx. unfold _finalize_artifacts.
  destruct (finalize_trace_run cfg context a record_dir w)
    as (w1 & l1 & tp & R1 & H1 & F1 & A1 & _).
  destruct (finalize_close_run context w1)
    as (rc & l2 & w2 & R2 & H2 & F2 & A2).
  destruct (finalize_video_run page a w2)
    as (w3 & l3 & rv & vp & R3 & H3 & A3 & V1 & _ & _ & V4).
  assert (w_artifacts w2 !! a
          = Some (match tp with
                  | Some p => setattr x f_trace_path p
                  | None => x
                  end)) as Hx2
    by (rewrite A2, A1; apply lookup_assign_opt, Hx).
  destruct (finalize_video_resolved page a w2 _ Hx2)
    as (w3' & l3' & rv' & R3' & H3' & Hres).
  rewrite R3 in R3'. injection R3' as <-.
  pose proof (adds_inj _ _ _ _ H3 H3') as El.
  apply app_inj_tail in El as [<- _].
  exists w3, (l2 ++ l1)%list, rc, rv, l3.
  eexists.
  rewrite bind_run, R1. cbn beta iota.
  rewrite bind_run, R2. cbn beta iota.
  rewrite bind_run, R3. cbn beta iota.
  split; [reflexivity|]. split.
  { unfold adds in *. rewrite H3, H2, H1. list_norm. reflexivity. }
  split; [apply Forall_app; split;
          [apply served_not_video_assignment|]; assumption|].
  split.
  { rewrite A3. apply lookup_assign_opt, Hx2. }
  split; [|split; [exact V4|]].
  - destruct vp as [p|].
    + right. destruct (V1 p eq_refl) as (video & s & -> & Hpath & Hassign).
      exists video, s. split; [destruct tp; reflexivity|]. auto.
    + left. destruct tp; reflexivity.
  - intros video s Hin. pose proof (Hres video s Hin) as Hset.
    rewrite A3, (lookup_assign_opt _ _ _ _ _ Hx2) in Hset.
    apply (f_equal (fun o => match o with
                             | Some y => video_path y
                             | None => None
                             end)) in Hset.
    exact Hset.
Qed.

Lemma finalize_video_path_after_close_witness :
  exists w' x',
    _finalize_artifacts default_config (VObj 1) sample_page 0 None
      (with_artifacts [no_artifacts] (boot close_fails)) = (Ok 0, w')
    /\ In (Log Err "Context close failed" (Some (Exn "Error" "Target closed")))
         (w_trace w')
    /\ w_artifacts w' !! 0 = Some x'
    /\ video_path x' = Some (PathOf "videos/P123/page.webm").
Proof.
  destruct (finalize_video_path_after_close default_config (VObj 1)
              sample_page 0 None
              (with_artifacts [no_artifacts] (boot close_fails)) no_artifacts
              eq_refl)
    as (w' & before_close & rc & rv & video_events & x'
        & Hrun & Hadds & _ & Hx' & _ & _ & Hres).
  exists w', x'. split; [exact Hrun|].
  apply (f_equal snd) in Hrun. simpl in Hrun. subst w'.
  split; [vm_compute; tauto|]. split; [exact Hx'|].
  apply (Hres (VObj 3)).
  unfold adds in Hadds.
  change (w_trace (with_artifacts [no_artifacts] (boot close_fails)))
    with (@nil event) in Hadds.
  rewrite app_nil_r in Hadds.
  remember (Called (pg sample_page Video) rv
            :: match rc with
               | Ok _ => Log Okay "Context closed" None
               | Raise e => Log Err "Context close failed" (Some e)
               end
            :: Called (ContextClose (VObj 1)) rc :: before_close) as tail
    eqn:Etail.
  vm_compute in Hadds.
  do 4 (destruct video_events as [|? video_events];
        [subst tail; discriminate Hadds | injection Hadds as <- Hadds]).
  destruct video_events as [|? video_events].
  - vm_compute. tauto.
  - exfalso. injection Hadds as _ Hadds.
    destruct video_events as [|? video_events];
      [subst tail; discriminate Hadds | injection Hadds as _ Hadds].
    destruct video_events as [|? video_events];
      [subst tail; discriminate Hadds | injection Hadds as _ Hadds].
    destruct video_events; [subst tail|]; discriminate Hadds.
Defined.

(** C1 as stated fails: the close fails and the returned artifacts
    carry a video path all the same. *)
Lemma finalize_close_failed_video_path :
  let page := {| page_obj := VObj 2; _mdac_screens := None |} in
  let w := with_artifacts [no_artifacts] (boot close_fails) in
  let run := _finalize_artifacts default_config (VObj 1) page 0 None w in
  fst run = Ok 0
  /\ w_trace (snd run) =
     [Log Okay "Video saved: videos/P123/page.webm" None;
      Assigned 0 f_video_path (PathOf "videos/P123/page.webm");
      Called (VideoPath (VObj 3)) (Ok (VStr "videos/P123/page.webm"));
      Called (PageCall (VObj 2) Video) (Ok (VObj 3));
      Called (PageCall (VObj 2) Video) (Ok (VObj 3));
      Log Err "Context close failed" (Some (Exn "Error" "Target closed"));
      Called (ContextClose (VObj 1)) (Raise (Exn "Error" "Target closed"))]
  /\ video_path <$> w_artifacts (snd run) !! 0 =
     Some (Some (PathOf "videos/P123/page.webm")).
Proof. repeat split. Qed.

(** ** Inversion of runs *)

Lemma steps_run (R : relation world) {A} (m : M A) w r w' :
  steps R m -> m w = (r, w') -> R w w'.
Proof. intros Hm Hrun. specialize (Hm w). rewrite Hrun in Hm. exact Hm. Qed.

Lemma bind_ok_inv {A B} (m : M A) (k : A -> M B) w b w' :
  (m ≫= k) w = (Ok b, w') ->
  exists a w1, m w = (Ok a, w1) /\ k a w1 = (Ok b, w').
Proof.
  rewrite bind_run. destruct (m w) as [[a|e] w1]; [eauto | discriminate].
Qed.

Lemma bind_steps_inv (R : relation world) {A B} (m : M A) (k : A -> M B)
    w b w' :
  steps R m ->
  (m ≫= k) w = (Ok b, w') ->
  exists a w1, R w w1 /\ k a w1 = (Ok b, w').
Proof.
  intros Hm H. apply bind_ok_inv in H as (a & w1 & H1 & H2).
  exists a, w1. split; [eapply steps_run; eassumption | exact H2].
Qed.

Lemma try_except_ok_inv {A} (body : M A) (handler : exn -> M A) w a w' :
  try_except body handler w = (Ok a, w') ->
  body w = (Ok a, w')
  \/ exists e w1, body w = (Raise e, w1) /\ handler e w1 = (Ok a, w').
Proof.
  unfold try_except. destruct (body w) as [[a'|e] w1]; eauto.
Qed.

(** ** The session factory *)

Lemma open_context_run cfg download_dir headless record_video_dir w
    context page a w' :
  open_context cfg download_dir headless record_video_dir w
  = (Ok (context, page, a), w') ->
  exists x,
    w_artifacts w' = (w_artifacts w ++ [x])%list
    /\ a = length (w_artifacts w)
    /\ video_path x = None /\ trace_path x = None
    /\ screenshots_dir x = _mdac_screens page
    /\ match record_video_dir with
       | None => screenshots_dir x = None
       | Some dir =>
           screenshots_dir x = None
           \/ screenshots_dir x = Some (PathDiv dir "screens")
       end.
Proof.
  unfold open_context. intros H.
  apply (bind_steps_inv same_artifacts) in H as (pw & w1 & A1 & H);
    [|frame].
  apply (bind_steps_inv same_artifacts) in H as (? & w2 & A2 & H);
    [|frame].
  apply (bind_steps_inv same_artifacts) in H as (browser & w3 & A3 & H);
    [|frame].
  apply bind_ok_inv in H as ([kw sd] & w4 & H4 & H).
  assert (same_artifacts w3 w4
          /\ match record_video_dir with
             | None => sd = None
             | Some dir => sd = None \/ sd = Some (PathDiv dir "screens")
             end) as [A4 Hsd].
  { split; [eapply steps_run; [|exact H4]; frame|].
    destruct record_video_dir as [dir|].
    - apply try_except_ok_inv in H4 as [H4|(e & w5 & _ & H4)].
      + apply bind_ok_inv in H4 as (? & ? & _ & H4).
        apply bind_ok_inv in H4 as (? & ? & _ & H4).
        injection H4 as _ <- _. right. reflexivity.
      + apply bind_ok_inv in H4 as (? & ? & _ & H4).
        injection H4 as _ <- _. left. reflexivity.
    - injection H4 as _ <- _. reflexivity. }
  apply (bind_steps_inv same_artifacts) in H as (ctx & w5 & A5 & H);
    [|frame].
  apply (bind_steps_inv same_artifacts) in H as (? & w6 & A6 & H);
    [|frame].
  apply (bind_steps_inv same_artifacts) in H as (? & w7 & A7 & H);
    [|frame].
  apply (bind_steps_inv same_artifacts) in H as (pg' & w8 & A8 & H);
    [|frame].
  apply (bind_steps_inv same_artifacts) in H as (? & w9 & A9 & H);
    [|frame].
  apply (bind_steps_inv same_artifacts) in H as (? & w10 & A10 & H);
    [|frame].
  apply (bind_steps_inv same_artifacts) in H as (? & w11 & A11 & H);
    [|frame].
  apply (bind_steps_inv same_artifacts) in H as (? & w12 & A12 & H);
    [|frame].
  apply bind_ok_inv in H as (a' & w13 & H13 & H).
  unfold new_artifacts in H13. injection H13 as <- <-.
  injection H as <- <- <- <-.
  unfold same_artifacts in *.
  assert (w_artifacts w12 = w_artifacts w) as -> by congruence.
  eexists. do 5 (split; [reflexivity|]). exact Hsd.
Qed.

(** C8, as the code has it. The artifacts object of a new session has
    no video path and no trace path; its screenshots directory is the
    one attached to the page: absent without a recording directory,
    and otherwise the [screens] directory under it or absent.  The two
    workflows leave every artifacts object as it is, and the finalizer
    changes nothing but the video path and the trace path of the
    object it is given. *)
Theorem artifacts_written_by_finalizer_only (cfg : Config) :
  (forall download_dir headless record_video_dir w context page a w',
     open_context cfg download_dir headless record_video_dir w
     = (Ok (context, page, a), w') ->
     exists x,
       w_artifacts w' = (w_artifacts w ++ [x])%list
       /\ a = length (w_artifacts w)
       /\ video_path x = None /\ trace_path x = None
       /\ screenshots_dir x = _mdac_screens page
       /\ match record_video_dir with
          | None => screenshots_dir x = None
          | Some dir =>
              screenshots_dir x = None
              \/ screenshots_dir x = Some (PathDiv dir "screens")
          end)
  /\ (forall page row gate_token pause,
        steps same_artifacts (register_one cfg page row gate_token pause))
  /\ (forall page row download_dir,
        steps same_artifacts (download_one page row download_dir))
  /\ (forall context page a record_dir w,
        let w' := snd (_finalize_artifacts cfg context page a record_dir w) in
        (forall b, b <> a -> w_artifacts w' !! b = w_artifacts w !! b)
        /\ (forall x, w_artifacts w !! a = Some x ->
              exists x', w_artifacts w' !! a = Some x'
                /\ screenshots_dir x' = screenshots_dir x)).
Proof.
  split; [intros; eapply open_context_run; eassumption|].
  split; [intros; apply register_one_steps|].
  split; [intros; apply download_one_steps|].
  intros context page a record_dir w.
  destruct (finalize_run cfg context page a record_dir w)
    as (w' & l1 & rc & l2 & rv & l3 & tp & vp & Hrun & _ & _ & _ & Harts & _).
  rewrite Hrun. simpl. rewrite Harts. split.
  - intros b Hne. rewrite !lookup_assign_opt_ne by congruence. reflexivity.
  - intros x Hx. eexists. split.
    + erewrite lookup_assign_opt; [reflexivity|].
      apply lookup_assign_opt, Hx.
    + destruct vp, tp; reflexivity.
Qed.

Lemma artifacts_written_by_finalizer_only_witness :
  let w' := snd (open_context default_config None None None (boot quiet)) in
  exists x,
    w_artifacts w' = (w_artifacts (boot quiet) ++ [x])%list
    /\ 0 = length (w_artifacts (boot quiet))
    /\ video_path x = None /\ trace_path x = None
    /\ screenshots_dir x
       = _mdac_screens {| page_obj := VNone; _mdac_screens := None |}
    /\ screenshots_dir x = None.
Proof.
  intros w'.
  apply (proj1 (artifacts_written_by_finalizer_only default_config)
           None None None (boot quiet) VNone
           {| page_obj := VNone; _mdac_screens := None |} 0 w').
  vm_compute. reflexivity.
Defined.

(** C8 as stated fails: with a recording directory the artifacts
    object comes out of the factory with its screenshots directory
    set. *)
Lemma open_context_sets_screenshots_dir :
  let dir := PathOf "videos/P123" in
  let run := open_context default_config None None (Some dir) (boot quiet) in
  fst run
  = Ok (VNone,
        {| page_obj := VNone; _mdac_screens := Some (PathDiv dir "screens") |},
        0)
  /\ w_artifacts (snd run) !! 0
     = Some {| video_path := None; trace_path := None;
               screenshots_dir := Some (PathDiv dir "screens") |}.
Proof. split; vm_compute; reflexivity. Qed.

(** ** Fuzzy control matching *)







(** ** The download workflow *)

#[export] Instance adds_only_any_atomic :
  Atomic (adds_only (fun _ => True)) (fun _ => True) :=
  adds_only_atomic (fun _ => True) (fun _ _ => I).

#[export] Instance adds_only_no_popup_atomic :
  Atomic (adds_only not_popup_call) not_popup_call :=
  adds_only_atomic not_popup_call (fun _ _ => I).

Lemma download_direct_no_popup page row dir :
  steps (adds_only not_popup_call) (download_direct page row dir).
Proof. unfold download_direct. frame. Qed.

Lemma invoke_bind_adds {B} c (k : value -> M B) w :
  (forall v, steps (adds_only (fun _ => True)) (k v)) ->
  exists rp r w' rest,
    (invoke c ≫= k) w = (r, w') /\ adds w w' (rest ++ [Called c rp]).
Proof.
  intros Hk. rewrite bind_run. unfold invoke.
  set (rp := snd (w_env w (w_trace w) c)).
  set (w1 := push (Called c rp) w).
  assert (adds w w1 [Called c rp]) as H1 by reflexivity. clearbody w1.
  exists rp. destruct rp as [v|e]; cbn [fst snd]; cbn beta iota.
  - destruct (Hk v w1) as (rest & Hrest & _).
    destruct (k v w1) as [r w'] eqn:E. exists r, w', rest.
    split; [reflexivity|]. eapply adds_trans; eassumption.
  - exists (Raise e), w1, []. split; [reflexivity | exact H1].
Qed.

(** A direct download that succeeds has saved the file under the path
    that it returns. *)
Lemma download_direct_saved page row dir w0 out w1 new :
  download_direct page row dir w0 = (Ok out, w1) ->
  adds w0 w1 new ->
  exists download suggested v,
    out = PathDiv dir (PinRow.passport row ++ "_" ++ py_str suggested)
    /\ In (Called (SaveAs download (path_str out)) (Ok v)) new.
Proof.
  unfold download_direct. intros H Hnew.
  apply (bind_steps_inv (adds_only (fun _ => True))) in H
    as (n & wa & (la & Ha & _) & H); [|frame].
  apply (bind_steps_inv (adds_only (fun _ => True))) in H
    as (? & wb & (lb & Hb & _) & H); [|frame].
  apply (bind_steps_inv (adds_only (fun _ => True))) in H
    as (download & wc & (lc & Hc & _) & H); [|frame].
  apply (bind_steps_inv (adds_only (fun _ => True))) in H
    as (suggested & wd & (ld & Hd & _) & H); [|frame].
  cbn zeta in H.
  apply bind_ok_inv in H as (v & we & He & H).
  apply (bind_steps_inv (adds_only (fun _ => True))) in H
    as (? & wf' & (lf & Hf & _) & H); [|frame].
  apply (bind_steps_inv (adds_only (fun _ => True))) in H
    as (? & wg & (lg & Hg & _) & H); [|frame].
  injection H as <- <-.
  exists download, suggested, v. split; [reflexivity|].
  destruct (await_run
    (SaveAs download
       (path_str (PathDiv dir (PinRow.passport row ++ "_"
                               ++ py_str suggested)))) wd)
    as (r & l & we' & Hrun & Hadd & _).
  rewrite He in Hrun. injection Hrun as <- <-.
  assert (new = (lg ++ lf ++ (Called (SaveAs download
            (path_str (PathDiv dir (PinRow.passport row ++ "_"
                                    ++ py_str suggested)))) (Ok v) :: l)
                 ++ ld ++ lc ++ lb ++ la)%list) as ->.
  { eapply adds_inj; [exact Hnew|]. unfold adds in *.
    rewrite Hg, Hf, Hadd, Hd, Hc, Hb, Ha. list_norm. reflexivity. }
  in_search.
Qed.

(** C7. Once the lookup form has been sent, [download_one] returns:
    the path saved by the direct strategy, with no step of the popup
    strategy taken, when the direct strategy succeeds; otherwise the
    direct failure is logged and the popup strategy is started, and the
    result is its path when it succeeds and [None] when it fails too. *)
Theorem download_strategies_in_order (page : Page) (row : PinRow.t)
    (dir : Path) (w w0 : world) :
  download_lookup page row w = (Ok tt, w0) ->
  exists res w',
    download_one page row dir w = (Ok res, w')
    /\ match download_direct page row dir w0 with
       | (Ok out, w1) =>
           res = Some out /\ w' = w1
           /\ exists new,
                adds w0 w1 new /\ Forall not_popup_call new
                /\ exists download v,
                     In (Called (SaveAs download (path_str out)) (Ok v)) new
       | (Raise e, w1) =>
           let w2 := push (Log Err "Direct download failed" (Some e)) w1 in
           exists rp rest w3,
             adds w2 w3 (rest ++ [Called (pg page (ExpectPopup 25000)) rp])
             /\ match download_popup page row dir w2 with
                | (Ok out, w3') => w3' = w3 /\ res = Some out /\ w' = w3
                | (Raise e2, w3') =>
                    w3' = w3 /\ res = None
                    /\ w' = push
                              (Log Info "=== download_one: END (failed) ==="
                                 None)
                              (push (Log Err "Popup download failed" (Some e2))
                                 w3)
                end
       end.
Proof.
  intros Hlookup. unfold download_one. rewrite bind_run, Hlookup.
  cbn beta iota. rewrite bind_run. unfold try_except at 1.
  rewrite bind_run.
  destruct (download_direct page row dir w0) as [[out|e] w1] eqn:Hdirect;
    cbn beta iota.
  - exists (Some out), w1. split; [reflexivity|].
    split; [reflexivity|]. split; [reflexivity|].
    destruct (download_direct_no_popup page row dir w0) as (new & Hnew & Hall).
    rewrite Hdirect in Hnew. exists new. split; [exact Hnew|].
    split; [exact Hall|].
    destruct (download_direct_saved _ _ _ _ _ _ _ Hdirect Hnew)
      as (download & suggested & v & _ & Hin).
    eauto.
  - rewrite bind_run. unfold log_err at 1, emit at 1. cbn beta iota.
    set (w2 := push (Log Err "Direct download failed" (Some e)) w1).
    rewrite ret_run. cbn beta iota. unfold try_except. rewrite bind_run.
    assert (exists rp r w3 rest,
              download_popup page row dir w2 = (r, w3)
              /\ adds w2 w3
                   (rest ++ [Called (pg page (ExpectPopup 25000)) rp]))
      as (rp & r & w3 & rest & Hpopup & Hadds).
    { unfold download_popup. apply invoke_bind_adds. intros v. frame. }
    rewrite Hpopup. destruct r as [out|e2]; cbn beta iota.
    + exists (Some out), w3. split; [reflexivity|].
      exists rp, rest, w3. split; [exact Hadds|]. repeat split.
    + eexists None, _. split; [reflexivity|].
      exists rp, rest, w3. split; [exact Hadds|]. repeat split.
Qed.

Lemma download_strategies_in_order_witness :
  let page := {| page_obj := VObj 2; _mdac_screens := None |} in
  let row := {| PinRow.passport := "P123"; PinRow.nationality := "BGD";
                PinRow.pin := "4711" |} in
  let dir := PathOf "downloads" in
  let w0 := snd (download_lookup page row (boot quiet)) in
  exists res w',
    download_one page row dir (boot quiet) = (Ok res, w')
    /\ match download_direct page row dir w0 with
       | (Ok out, w1) =>
           res = Some out /\ w' = w1
           /\ exists new,
                adds w0 w1 new /\ Forall not_popup_call new
                /\ exists download v,
                     In (Called (SaveAs download (path_str out)) (Ok v)) new
       | (Raise e, w1) =>
           let w2 := push (Log Err "Direct download failed" (Some e)) w1 in
           exists rp rest w3,
             adds w2 w3 (rest ++ [Called (pg page (ExpectPopup 25000)) rp])
             /\ match download_popup page row dir w2 with
                | (Ok out, w3') => w3' = w3 /\ res = Some out /\ w' = w3
                | (Raise e2, w3') =>
                    w3' = w3 /\ res = None
                    /\ w' = push
                              (Log Info "=== download_one: END (failed) ==="
                                 None)
                              (push (Log Err "Popup download failed" (Some e2))
                                 w3)
                end
       end.
Proof.
  intros page row dir w0.
  apply (download_strategies_in_order page row dir (boot quiet) w0).
  vm_compute. reflexivity.
Defined.

(** ** The pause of the register workflow *)

Lemma try_swallow_run (m : M value) w :
  exists w',
    try_except (m;; mret tt) (fun _ => mret tt) w = (Ok tt, w')
    /\ w' = snd (m w).
Proof.
  unfold try_except. rewrite bind_run.
  destruct (m w) as [[v|e] w']; eexists; split; reflexivity.
Qed.

Lemma gate_kept_has_token w w' new token :
  gate_kept w w' -> adds w w' new -> has_token w token ->
  ~ In (Served (ReqResume token) true) new ->
  has_token w' token.
Proof.
  intros (_ & l & Hl & Hkept) Hnew Hin Hno.
  assert (l = new) as -> by (eapply adds_inj; eassumption).
  unfold has_token in *.
  destruct (ManualGate._events (w_gate w') !! token) as [ev|] eqn:E;
    [eauto|].
  exfalso. apply Hno, Hkept; [exact Hin|]. rewrite E. intros [x Hx].
  discriminate.
Qed.

(** A token just registered in a well-formed world holds its event
    alone. *)
Lemma GATE_create_held token w :
  wf w ->
  exists ev w',
    GATE_create token w = (Ok ev, w')
    /\ adds w w' []
    /\ has_token w' token
    /\ held ev (fun t => t = token) w'.
Proof.
  intros Hwf. unfold GATE_create. simpl.
  eexists _, _. split; [reflexivity|]. split; [reflexivity|].
  split; [unfold has_token; simpl; rewrite lookup_insert_eq; eauto|].
  unfold held. simpl. split; [apply is_set_fresh|].
  split; [rewrite length_app; simpl; lia|].
  intros t Ht. destruct (decide (token = t)) as [->|Hne]; [reflexivity|].
  rewrite lookup_insert_ne in Ht by assumption.
  apply Hwf in Ht. lia.
Qed.

Lemma register_gate_run cfg page token w :
  token <> "" -> wf w ->
  exists w' new,
    register_gate cfg page (Some token) true w = (Ok tt, w')
    /\ adds w w' new
    /\ (~ In (Served (ReqResume token) true) new ->
        has_token w' token
        /\ exists ev rest,
             new = Log Warn "Gate timed out; continuing" None
                   :: Called (GateWait ev (GATE_WAIT_SECONDS cfg))
                        (Raise asyncio_TimeoutError)
                   :: rest).
Proof.
  intros Hne Hwf. unfold register_gate.
  destruct token as [|c token]; [contradiction|].
  cbn [andb PyStr.truthy PyStr.fmt]. set (tok := String c token) in *.
  rewrite bind_run. unfold log at 1, emit at 1. cbn beta iota.
  set (line := Log Info _ None). set (wa := push line w).
  assert (adds w wa [line]) as Ha by reflexivity.
  assert (wf wa) as Hwfa by exact Hwf. clearbody wa.
  rewrite bind_run.
  destruct (try_swallow_run
    (await (pg page (Evaluate (JsConsoleLog
       ("Solve CAPTCHA/OTP, then POST /resume/" ++ tok))))) wa)
    as (wb & -> & Hwb).
  destruct (await_run
    (pg page (Evaluate (JsConsoleLog
       ("Solve CAPTCHA/OTP, then POST /resume/" ++ tok)))) wa)
    as (r & l & wb' & Hrun & Hb & Fl & _).
  rewrite Hrun in Hwb. simpl in Hwb. subst wb'.
  assert (wf wb) as Hwfb.
  { assert (gate_kept wa wb) as [Hk _]; [|auto].
    eapply steps_run; [|exact Hrun]. frame. }
  cbn beta iota. rewrite bind_run.
  destruct (GATE_create_held tok wb Hwfb)
    as (ev & wc & -> & Hc & Htok & Hheld).
  cbn beta iota.
  assert (steps gate_kept
            (try_except_class "TimeoutError"
               (wait_for_event ev (GATE_WAIT_SECONDS cfg);;
                log_ok "Gate resumed")
               (log_warn "Gate timed out; continuing"))) as Hsteps by frame.
  specialize (Hsteps wc).
  unfold try_except_class in *. rewrite bind_run in *.
  unfold wait_for_event in *.
  set (rqs := fst (w_env wc (w_trace wc)
                     (GateWait ev (GATE_WAIT_SECONDS cfg)))) in *.
  destruct (deliver_adds rqs wc) as (ld & Hd & Fd).
  pose proof (adds_trans _ _ _ _ _ Ha Hb) as Hab.
  pose proof (adds_trans _ _ _ _ _ Hab Hc) as Hac.
  pose proof (adds_trans _ _ _ _ _ Hac Hd) as Had.
  destruct (is_set (w_events (deliver rqs wc)) ev) eqn:Eset;
    cbn beta iota in *.
  - eexists _, _. split; [reflexivity|].
    split; [apply adds_push, adds_push, Had|].
    intros Hno. exfalso.
    assert (held ev (fun t => t = tok) (deliver rqs wc)) as (Hunset & _).
    { eapply deliver_held; [exact Hheld | exact Hd |].
      intros t -> Hin. apply Hno. right. right.
      apply in_or_app. left. exact Hin. }
    congruence.
  - change (String.eqb (exc_class asyncio_TimeoutError) "TimeoutError")
      with true in *. cbn iota in *.
    eexists _, _. split; [reflexivity|].
    split; [apply adds_push, adds_push, Had|].
    intros Hno. split; [|eauto].
    eapply (gate_kept_has_token wc); [exact Hsteps | | exact Htok |].
    + apply adds_push, adds_push, Hd.
    + intros Hin. apply Hno. destruct Hin as [Hin|[Hin|Hin]];
        [discriminate Hin | discriminate Hin |].
      right. right. apply in_or_app. left. exact Hin.
Qed.

(** A guarded call followed by more steps: the call is the first thing
    that happens. *)
Lemma try_await_bind_adds {A B} c (k1 : value -> M A) (h : exn -> M A)
    (k2 : A -> M B) w :
  (forall v, steps (adds_only (fun _ => True)) (k1 v)) ->
  (forall e, steps (adds_only (fun _ => True)) (h e)) ->
  (forall x, steps (adds_only (fun _ => True)) (k2 x)) ->
  exists rc l r w' rest,
    (try_except (await c ≫= k1) h ≫= k2) w = (r, w')
    /\ adds w w' (rest ++ Called c rc :: l)
    /\ Forall is_served l.
Proof.
  intros H1 Hh H2. rewrite bind_run. unfold try_except. rewrite bind_run.
  destruct (await_run c w) as (rc & l & wa & -> & Ha & Fl & _).
  exists rc, l.
  assert (forall (m : M B),
            steps (adds_only (fun _ => True)) m ->
            exists r w' rest,
              m wa = (r, w') /\ adds w w' (rest ++ Called c rc :: l)) as Hrest.
  { intros m Hm. destruct (Hm wa) as (rest & Hrest & _).
    destruct (m wa) as [r w'] eqn:E. exists r, w', rest.
    split; [reflexivity|]. eapply adds_trans; eassumption. }
  destruct rc as [v|e]; cbn beta iota.
  - destruct (Hrest (try_except (k1 v) h ≫= k2)) as (r & w' & rest & E & Hadd).
    { frame. }
    exists r, w', rest. split; [|split; assumption].
    rewrite bind_run in E. unfold try_except in E. exact E.
  - destruct (Hrest (h e ≫= k2)) as (r & w' & rest & E & Hadd).
    { frame. }
    exists r, w', rest. split; [|split; assumption].
    rewrite bind_run in E. exact E.
Qed.

(** The submission starts with the click on the submit control. *)
Lemma register_submit_starts page w :
  exists r w' rc l rest,
    register_submit page w = (r, w')
    /\ adds w w'
         (rest ++ Called (pg page (Click "#submit" 5000)) rc
               :: l ++ [Log Info "Try submit form (#submit or Enter)" None])
    /\ Forall is_served l.
Proof.
  unfold register_submit. rewrite bind_run. unfold log at 1, emit at 1.
  cbn beta iota.
  set (line := Log Info "Try submit form (#submit or Enter)" None).
  set (wa := push line w).
  assert (adds w wa [line]) as Ha by reflexivity. clearbody wa.
  match goal with
  | |- context [(try_except (await ?c ≫= ?k1) ?h ≫= ?k2) wa] =>
      destruct (try_await_bind_adds c k1 h k2 wa)
        as (rc & l & r & w' & rest & -> & Hadd & Fl); [frame..|]
  end.
  exists r, w', rc, l, rest. split; [reflexivity|]. split; [|assumption].
  pose proof (adds_trans _ _ _ _ _ Ha Hadd) as H. unfold adds in *.
  rewrite H. list_norm. reflexivity.
Qed.

(** C3. In the register workflow with a pause and a token, the form
    phase returns and the pause returns, whatever happens during the
    wait, and the workflow goes on with the submission. When no resume
    of the token succeeded during the pause, the wait ended with the
    timeout, which is logged as a warning, and the gate still holds the
    token afterwards. Over the whole workflow a token leaves the gate
    only through a resume of it that succeeded. *)
Theorem gate_timeout_keeps_token (cfg : Config) (page : Page)
    (row : RegisterRow.t) (token : string) (w : world) :
  token <> "" -> wf w ->
  exists w1 w2 new,
    register_fill page row w = (Ok tt, w1)
    /\ register_gate cfg page (Some token) true w1 = (Ok tt, w2)
    /\ adds w1 w2 new
    /\ register_one cfg page row (Some token) true w
       = register_submit page w2
    /\ (exists r w' rc l rest,
          register_submit page w2 = (r, w')
          /\ adds w2 w'
               (rest ++ Called (pg page (Click "#submit" 5000)) rc
                  :: l ++ [Log Info "Try submit form (#submit or Enter)"
                             None]))
    /\ (~ In (Served (ReqResume token) true) new ->
        has_token w2 token
        /\ exists ev rest,
             new = Log Warn "Gate timed out; continuing" None
                   :: Called (GateWait ev (GATE_WAIT_SECONDS cfg))
                        (Raise asyncio_TimeoutError)
                   :: rest)
    /\ (forall gate_token pause w' all t,
          snd (register_one cfg page row gate_token pause w) = w' ->
          adds w w' all ->
          has_token w t -> ~ has_token w' t ->
          In (Served (ReqResume t) true) all).
Proof.
  intros Hne Hwf.
  destruct (register_fill_returns page row w) as [[] Hfill].
  destruct (register_fill page row w) as [r1 w1] eqn:E1. simpl in Hfill.
  subst r1.
  assert (wf w1) as Hwf1.
  { assert (gate_kept w w1) as [Hk _]; [|auto].
    eapply steps_run; [|exact E1]. frame. }
  destruct (register_gate_run cfg page token w1 Hne Hwf1)
    as (w2 & new & E2 & Hnew & Htimeout).
  exists w1, w2, new.
  split; [reflexivity|]. split; [exact E2|]. split; [exact Hnew|].
  split.
  { unfold register_one. rewrite bind_run, E1. cbn beta iota.
    rewrite bind_run, E2. reflexivity. }
  split.
  { destruct (register_submit_starts page w2)
      as (r & w' & rc & l & rest & E3 & Hadd & _). eauto 10. }
  split; [exact Htimeout|].
  intros gate_token pause w' all t Hw' Hall Hin Hout.
  destruct (register_one_steps (R := gate_kept) cfg page row gate_token
              pause w) as (_ & l & Hl & Hkept).
  rewrite Hw' in *.
  assert (l = all) as -> by (eapply adds_inj; eassumption).
  apply Hkept; assumption.
Qed.

Lemma wf_boot env : wf (boot env).
Proof. intros token ev H. simpl in H. rewrite lookup_empty in H. discriminate. Qed.

Lemma gate_timeout_keeps_token_witness :
  exists w1 w2 new,
    register_fill sample_page sample_row (boot quiet) = (Ok tt, w1)
    /\ register_gate default_config sample_page (Some "a1b2c3d4") true w1
       = (Ok tt, w2)
    /\ adds w1 w2 new
    /\ register_one default_config sample_page sample_row (Some "a1b2c3d4")
         true (boot quiet)
       = register_submit sample_page w2
    /\ (exists r w' rc l rest,
          register_submit sample_page w2 = (r, w')
          /\ adds w2 w'
               (rest ++ Called (pg sample_page (Click "#submit" 5000)) rc
                  :: l ++ [Log Info "Try submit form (#submit or Enter)"
                             None]))
    /\ (~ In (Served (ReqResume "a1b2c3d4") true) new ->
        has_token w2 "a1b2c3d4"
        /\ exists ev rest,
             new = Log Warn "Gate timed out; continuing" None
                   :: Called (GateWait ev (GATE_WAIT_SECONDS default_config))
                        (Raise asyncio_TimeoutError)
                   :: rest)
    /\ (forall gate_token pause w' all t,
          snd (register_one default_config sample_page sample_row gate_token
                 pause (boot quiet)) = w' ->
          adds (boot quiet) w' all ->
          has_token (boot quiet) t -> ~ has_token w' t ->
          In (Served (ReqResume t) true) all).
Proof.
  apply (gate_timeout_keeps_token default_config sample_page sample_row
           "a1b2c3d4" (boot quiet)).
  - discriminate.
  - apply wf_boot.
Defined.

(** The pause on three runs: nobody resumes; the endpoint resumes the
    token; the token is registered anew and then resumed, which leaves
    the first wait to its timeout and the gate without the token. *)
Example register_gate_scenarios :
  let gate env :=
    register_gate default_config sample_page (Some "a1b2c3d4") true
      (boot env) in
  let last env := head (w_trace (snd (gate env))) in
  let token env :=
    ManualGate._events (w_gate (snd (gate env))) !! "a1b2c3d4" in
  (last quiet = Some (Log Warn "Gate timed out; continuing" None)
   /\ token quiet = Some 0)
  /\ (last (resumes "a1b2c3d4") = Some (Log Okay "Gate resumed" None)
      /\ token (resumes "a1b2c3d4") = None)
  /\ (last (recreates_then_resumes "a1b2c3d4")
      = Some (Log Warn "Gate timed out; continuing" None)
      /\ token (recreates_then_resumes "a1b2c3d4") = None).
Proof. repeat split; vm_compute; reflexivity. Qed.

(** ** The date setter *)

(** A run of [set_date_by_id] on an accepted date: the line with the
    normalised date, then the wait for the field, and, when the field
    is there, the widget script with the normalised date and its three
    groups. *)
Lemma set_date_by_id_run page input_id date_str dd mm yyyy w :
  date_groups date_str = Some (dd, mm, yyyy) ->
  let sel := "#" ++ input_id in
  let val := ddmmyyyy (dd, mm, yyyy) in
  exists w' r1 l1 rest,
    set_date_by_id page input_id date_str w = (Ok tt, w')
    /\ adds w w'
         (rest ++ Called (pg page (WaitForSelector sel None 15000)) r1
               :: l1
               ++ [Log Date ("set_date_by_id('" ++ input_id ++ "'): input='"
                             ++ PyStr.fmt date_str ++ "' -> normalized='"
                             ++ val ++ "'") None])
    /\ Forall is_served l1
    /\ match r1 with
       | Raise e =>
           rest = [Log Err ("date field not found: " ++ sel
                            ++ " (" ++ exc_msg e ++ ")") None]
       | Ok _ =>
           exists rs l2 rest',
             rest = (rest'
                     ++ Called (pg page
                                  (Evaluate (JsSetDate sel val dd mm yyyy))) rs
                     :: l2)%list
             /\ Forall is_served l2
       end.
Proof.
  intros Hg sel val. unfold set_date_by_id. rewrite Hg.
  fold sel. fold val.
  rewrite bind_run. unfold log_date at 1, emit. cbn beta iota.
  set (line := Log Date _ None).
  set (w0 := push line w).
  assert (adds w w0 [line]) as H0 by reflexivity. clearbody w0.
  rewrite bind_run. unfold try_except at 1. rewrite bind_run.
  destruct (await_run (pg page (WaitForSelector sel None 15000)) w0)
    as (r1 & l1 & w1 & -> & H1 & F1 & _).
  pose proof (adds_trans _ _ _ _ _ H0 H1) as H01.
  destruct r1 as [v|e]; cbn beta iota.
  - rewrite ret_run. cbn beta iota.
    match goal with
    | |- context [(try_except (await ?c ≫= ?k1) ?h ≫= ?k2) w1] =>
        destruct (try_await_bind_adds c k1 h k2 w1)
          as (rs & l2 & r & w' & rest' & E & Hadd & F2);
          [frame | frame | frame |];
        assert (returns (try_except (await c ≫= k1) h ≫= k2)) as Hr
          by returning;
        destruct (Hr w1) as [[] Hok]
    end.
    rewrite E in Hok |- *. simpl in Hok. subst r.
    exists w', (Ok v), l1,
      (rest' ++ Called (pg page (Evaluate (JsSetDate sel val dd mm yyyy))) rs
             :: l2)%list.
    split; [reflexivity|]. split; [|split; [assumption|]].
    + pose proof (adds_trans _ _ _ _ _ H01 Hadd) as H.
      unfold adds in *. rewrite H. list_norm. reflexivity.
    + exists rs, l2, rest'. split; [reflexivity | assumption].
  - rewrite bind_run. unfold log_err at 1, emit. cbn beta iota.
    eexists _, (Raise e), l1, [_]. split; [reflexivity|].
    split; [|split; [assumption | reflexivity]].
    unfold adds in *. simpl. rewrite H01. list_norm. reflexivity.
Qed.

(** C4. The three accepted forms are normalised to day/month/year.  On
    an input of none of the three shapes (after trimming)
    [set_date_by_id] returns with nothing done but the failure logged.
    On an input of an accepted shape it returns too: it logs the
    normalised date and waits for the field; when the field is there
    it hands the normalised date and its day, month and year to the
    widget script, and when it is not it logs that and stops; no other
    date is ever handed to the field. *)
Theorem set_date_by_id_normalizes :
  ddmmyyyy <$> date_groups (Some "2024-05-07") = Some "07/05/2024"
  /\ ddmmyyyy <$> date_groups (Some "07-05-2024") = Some "07/05/2024"
  /\ ddmmyyyy <$> date_groups (Some "07/05/2024") = Some "07/05/2024"
  /\ (forall page input_id date_str w,
        ~ accepted_shape date_str ->
        set_date_by_id page input_id date_str w =
        (Ok tt,
         push (Log Err ("set_date_by_id('" ++ input_id
                        ++ "'): unsupported format '"
                        ++ PyStr.fmt date_str ++ "'") None) w))
  /\ (forall page input_id date_str w,
        accepted_shape date_str ->
        exists dd mm yyyy w' r1 l1 rest,
          let sel := "#" ++ input_id in
          let val := ddmmyyyy (dd, mm, yyyy) in
          date_groups date_str = Some (dd, mm, yyyy)
          /\ set_date_by_id page input_id date_str w = (Ok tt, w')
          /\ adds w w'
               (rest ++ Called (pg page (WaitForSelector sel None 15000)) r1
                     :: l1
                     ++ [Log Date ("set_date_by_id('" ++ input_id
                                   ++ "'): input='" ++ PyStr.fmt date_str
                                   ++ "' -> normalized='" ++ val ++ "'")
                           None])
          /\ Forall is_served l1
          /\ match r1 with
             | Raise e =>
                 rest = [Log Err ("date field not found: " ++ sel
                                  ++ " (" ++ exc_msg e ++ ")") None]
             | Ok _ =>
                 exists rs l2 rest',
                   rest = (rest'
                           ++ Called (pg page
                                        (Evaluate
                                           (JsSetDate sel val dd mm yyyy))) rs
                           :: l2)%list
                   /\ Forall is_served l2
             end
          /\ Forall (writes_date val) rest).
Proof.
  do 3 (split; [reflexivity|]). split.
  - intros page input_id date_str w Hno. unfold set_date_by_id.
    destruct (date_groups date_str) as [g|] eqn:E; [|reflexivity].
    exfalso. apply Hno. apply date_groups_accepts. eauto.
  - intros page input_id date_str w Hyes.
    apply date_groups_accepts in Hyes as [[[dd mm] yyyy] Hg].
    destruct (set_date_by_id_run page input_id date_str dd mm yyyy w Hg)
      as (w' & r1 & l1 & rest & Hrun & Hadds & F1 & Hrest).
    exists dd, mm, yyyy, w', r1, l1, rest. cbn zeta.
    do 5 (split; [assumption|]).
    assert (steps (adds_only (writes_date (ddmmyyyy (dd, mm, yyyy))))
              (set_date_by_id page input_id date_str)) as Hsteps.
    { unfold set_date_by_id. rewrite Hg. frame. }
    destruct (Hsteps w) as (new & Hnew & Hall).
    rewrite Hrun in Hnew. simpl in Hnew.
    rewrite (adds_inj _ _ _ _ Hnew Hadds) in Hall.
    apply Forall_app in Hall as [Hall _]. exact Hall.
Qed.

Lemma set_date_by_id_normalizes_witness :
  set_date_by_id sample_page "dob" (Some "7 May 2024") (boot quiet)
  = (Ok tt,
     push (Log Err "set_date_by_id('dob'): unsupported format '7 May 2024'"
             None) (boot quiet))
  /\ exists w' r1 l1 rest,
       set_date_by_id sample_page "dob" (Some " 2024-05-07 ") (boot quiet)
       = (Ok tt, w')
       /\ adds (boot quiet) w'
            (rest ++ Called (pg sample_page (WaitForSelector "#dob" None 15000))
                       r1
                  :: l1
                  ++ [Log Date "set_date_by_id('dob'): input=' 2024-05-07 ' -> normalized='07/05/2024'"
                        None])
       /\ match r1 with
          | Raise e =>
              rest = [Log Err ("date field not found: #dob ("
                               ++ exc_msg e ++ ")") None]
          | Ok _ =>
              exists rs l2 rest',
                rest = (rest'
                        ++ Called (pg sample_page
                                     (Evaluate
                                        (JsSetDate "#dob" "07/05/2024"
                                           "07" "05" "2024"))) rs
                        :: l2)%list
                /\ Forall is_served l2
          end.
Proof.
  destruct set_date_by_id_normalizes as (_ & _ & _ & Hno & Hyes). split.
  - apply (Hno _ "dob" (Some "7 May 2024")).
    intros H. apply date_groups_accepts in H as [g Hg]. discriminate Hg.
  - destruct (Hyes sample_page "dob" (Some " 2024-05-07 ") (boot quiet))
      as (dd & mm & yyyy & w' & r1 & l1 & rest & Hg & Hrun & Hadds & _
          & Hrest & _).
    { apply date_groups_accepts. eexists. reflexivity. }
    injection Hg as <- <- <-.
    exists w', r1, l1, rest. split; [exact Hrun|]. split; [exact Hadds|].
    exact Hrest.
Defined.

(** ** Runs on sample inputs *)

(** Both strategies fail: the result is [None], after the popup
    strategy has been tried. *)
Example download_one_both_fail :
  let run :=
    download_one sample_page sample_pin (PathOf "downloads")
      (boot nothing_downloads) in
  fst run = Ok None
  /\ take 6 (w_trace (snd run)) =
     [Log Info "=== download_one: END (failed) ===" None;
      Log Err "Popup download failed"
        (Some (Exn "TimeoutError" "Timeout 25000ms exceeded"));
      Called (PageCall (VObj 2) PopupValue)
        (Raise (Exn "TimeoutError" "Timeout 25000ms exceeded"));
      Log Warn "No button/link matched: /(download|print|pdf)/" None;
      Called (PageCall (VObj 2)
                (Count (get_by_role "link"
                          (re_compile "(download|print|pdf)" true))))
        (Ok VNone);
      Called (PageCall (VObj 2)
                (Count (get_by_role "button"
                          (re_compile "(download|print|pdf)" true))))
        (Ok VNone)]
  /\ In (Log Err "Direct download failed"
           (Some (Exn "TimeoutError" "Timeout 25000ms exceeded")))
        (w_trace (snd run)).
Proof.
  split; [vm_compute; reflexivity|]. split; [vm_compute; reflexivity|].
  vm_compute. tauto.
Qed.

(** The patterns on telephone numbers. *)
Example phone_patterns :
  region_match (keep_digits_plus "+880 1712-345678") = Some "880"
  /\ region_match (keep_digits_plus "0060 12") = Some "601"
  /\ region_match "00" = Some "0"
  /\ region_match "+" = None
  /\ sub_dial_prefix "+880 - 1712345678" = "1712345678"
  /\ sub_dial_prefix "01712" = "12"
  /\ sub_dial_prefix "n/a" = "n/a".
Proof. repeat split; reflexivity. Qed.

(** The whole register workflow on a sample row, with nobody at the
    gate: it returns the start of the page text and leaves the token
    in the gate. *)
Example register_one_quiet :
  let run :=
    register_one default_config sample_page sample_row (Some "a1b2c3d4")
      true (boot quiet) in
  fst run = Ok "None"
  /\ ManualGate._events (w_gate (snd run)) !! "a1b2c3d4" = Some 0
  /\ head (w_trace (snd run)) = Some (Log Info "=== register_one: END ===" None).
Proof. repeat split; vm_compute; reflexivity. Qed.

(** * Further properties *)

(** ** The gate, continued *)

(** X1. A token that is registered and then resumed: the resume
    succeeds, the gate is left without the token whatever it held for
    it before, and the heap has one more event, which is set. *)
Theorem create_then_resume (self : ManualGate.t) (token : string)
    (heap : list bool) :
  exists ev self1 heap1 self2,
    ManualGate.create self token heap = (ev, self1, heap1)
    /\ ManualGate.resume self1 token heap1
       = (true, self2, (heap ++ [true])%list)
    /\ ManualGate._events self2 = delete token (ManualGate._events self)
    /\ ManualGate.resume self2 token (heap ++ [true])%list
       = (false, self2, (heap ++ [true])%list).
Proof.
  eexists _, _, _, _. split; [reflexivity|].
  unfold ManualGate.resume. simpl. rewrite lookup_insert_eq.
  split.
  { f_equal.
    replace (length heap) with (length heap + 0) by lia.
    rewrite insert_app_r. reflexivity. }
  split; [simpl; apply delete_insert_eq|].
  simpl. rewrite delete_insert_eq, lookup_delete_eq. reflexivity.
Qed.

Lemma gate_inj_serve rq w : gate_inj w -> gate_inj (serve w rq).
Proof.
  intros [Hwf Hinj]. split; [apply wf_serve, Hwf|].
  destruct rq as [token|token]; unfold serve; simpl.
  - unfold ManualGate.resume.
    destruct (ManualGate._events (w_gate w) !! token) as [ev|] eqn:E; simpl;
      [|exact Hinj].
    intros t1 t2 e H1 H2.
    apply lookup_delete_Some in H1 as [_ H1].
    apply lookup_delete_Some in H2 as [_ H2]. eauto.
  - intros t1 t2 e H1 H2.
    destruct (decide (token = t1)) as [<-|N1];
      destruct (decide (token = t2)) as [<-|N2]; try reflexivity.
    + rewrite lookup_insert_eq in H1. injection H1 as <-.
      rewrite lookup_insert_ne in H2 by assumption.
      apply Hwf in H2. lia.
    + rewrite lookup_insert_eq in H2. injection H2 as <-.
      rewrite lookup_insert_ne in H1 by assumption.
      apply Hwf in H1. lia.
    + rewrite lookup_insert_ne in H1, H2 by assumption. eauto.
Qed.

#[export] Instance keeps_preorder P : PreOrder (keeps P).
Proof.
  split.
  - intros w H. exact H.
  - intros w1 w2 w3 H12 H23 H. apply H23, H12, H.
Qed.

#[export] Instance keeps_gate_inj_atomic :
  Atomic (keeps gate_inj) (fun _ => True).
Proof.
  split.
  - apply _.
  - intros ev w _ H. exact H.
  - intros rq w H. apply gate_inj_serve, H.
  - intros token w H. apply (gate_inj_serve (ReqCreate token)), H.
Qed.

Lemma gate_inj_deliver rqs : forall w, gate_inj w -> gate_inj (deliver rqs w).
Proof.
  induction rqs as [|rq rqs IH]; intros w H; simpl; [exact H|].
  apply IH, gate_inj_serve, H.
Qed.

Lemma gate_inj_boot env : gate_inj (boot env).
Proof.
  split; [apply wf_boot|]. intros t1 t2 ev H. simpl in H.
  rewrite lookup_empty in H. discriminate.
Qed.

(** X2. Two tokens of the gate never refer to the same event, and every
    reference is a live event: this holds at process start and is kept
    by every request to the gate and by the register and download
    workflows. *)
Theorem gate_distinct_events (cfg : Config) (w : world) :
  gate_inj w ->
  (forall rqs, gate_inj (deliver rqs w))
  /\ (forall page row gate_token pause,
        gate_inj (snd (register_one cfg page row gate_token pause w)))
  /\ (forall page row dir, gate_inj (snd (download_one page row dir w)))
  /\ (forall token, gate_inj (snd (GATE_create token w))).
Proof.
  intros H. split; [|split; [|split]].
  - intros rqs. apply gate_inj_deliver, H.
  - intros page row gate_token pause.
    apply (register_one_steps (R := keeps gate_inj)). exact H.
  - intros page row dir.
    apply (download_one_steps (R := keeps gate_inj)). exact H.
  - intros token. apply (gate_inj_serve (ReqCreate token)). exact H.
Qed.

Lemma gate_distinct_events_witness :
  (forall rqs, gate_inj (deliver rqs (boot quiet)))
  /\ (forall page row gate_token pause,
        gate_inj (snd (register_one default_config page row gate_token
                         pause (boot quiet))))
  /\ (forall page row dir,
        gate_inj (snd (download_one page row dir (boot quiet))))
  /\ (forall token, gate_inj (snd (GATE_create token (boot quiet)))).
Proof.
  apply (gate_distinct_events default_config (boot quiet)).
  apply gate_inj_boot.
Defined.

(** X3. A resume of one token leaves every other token of the gate in
    place, with its event as it was: it never wakes the wait of another
    row. *)
Theorem resume_leaves_other_tokens (w : world) (token other : string)
    (ev : nat) :
  gate_inj w ->
  token <> other ->
  ManualGate._events (w_gate w) !! other = Some ev ->
  let w' := serve w (ReqResume token) in
  ManualGate._events (w_gate w') !! other = Some ev
  /\ is_set (w_events w') ev = is_set (w_events w) ev.
Proof.
  intros [Hwf Hinj] Hne Hother. unfold serve, ManualGate.resume.
  destruct (ManualGate._events (w_gate w) !! token) as [ev0|] eqn:E; simpl.
  - split; [rewrite lookup_delete_ne by assumption; exact Hother|].
    apply is_set_insert_ne. intros <-. apply Hne. eapply Hinj; eassumption.
  - split; [exact Hother | reflexivity].
Qed.

Lemma resume_leaves_other_tokens_witness :
  let w := deliver [ReqCreate "aaaaaaaa"; ReqCreate "bbbbbbbb"] (boot quiet) in
  let w' := serve w (ReqResume "aaaaaaaa") in
  ManualGate._events (w_gate w') !! "bbbbbbbb" = Some 1
  /\ is_set (w_events w') 1 = is_set (w_events w) 1.
Proof.
  intros w.
  apply (resume_leaves_other_tokens w "aaaaaaaa" "bbbbbbbb" 1).
  - apply gate_inj_deliver, gate_inj_boot.
  - discriminate.
  - vm_compute. reflexivity.
Defined.

Lemma deliver_app l1 : forall l2 w,
  deliver (l1 ++ l2) w = deliver l2 (deliver l1 w).
Proof.
  induction l1 as [|rq l1 IH]; intros l2 w; simpl; [reflexivity|]. apply IH.
Qed.

Lemma is_set_lt heap ev : is_set heap ev = true -> ev < length heap.
Proof.
  unfold is_set. destruct (heap !! ev) as [b|] eqn:E; [|discriminate].
  intros _. eapply lookup_lt_Some, E.
Qed.

(** An event that is set stays set: nothing clears it. *)
Lemma is_set_serve rq w ev :
  is_set (w_events w) ev = true -> is_set (w_events (serve w rq)) ev = true.
Proof.
  intros Hset. destruct rq as [token|token]; unfold serve; simpl.
  - unfold ManualGate.resume.
    destruct (ManualGate._events (w_gate w) !! token) as [ev'|]; simpl;
      [|exact Hset].
    destruct (decide (ev = ev')) as [<-|Hne].
    + unfold is_set. rewrite list_lookup_insert_eq; [reflexivity|].
      apply is_set_lt, Hset.
    + rewrite is_set_insert_ne by assumption. exact Hset.
  - rewrite is_set_app; [exact Hset | apply is_set_lt, Hset].
Qed.

Lemma is_set_deliver rqs : forall w ev,
  is_set (w_events w) ev = true ->
  is_set (w_events (deliver rqs w)) ev = true.
Proof.
  induction rqs as [|rq rqs IH]; intros w ev H; simpl; [exact H|].
  apply IH, is_set_serve, H.
Qed.

(** Requests that do not name a token leave its entry alone. *)
Lemma serve_other_token rq w token :
  ~ mentions token rq ->
  ManualGate._events (w_gate (serve w rq)) !! token
  = ManualGate._events (w_gate w) !! token
  /\ length (w_events w) <= length (w_events (serve w rq)).
Proof.
  intros Hno. destruct rq as [t|t]; unfold serve; simpl in *.
  - unfold ManualGate.resume.
    destruct (ManualGate._events (w_gate w) !! t) as [ev'|]; simpl.
    + rewrite lookup_delete_ne by assumption. rewrite length_insert. auto.
    + auto.
  - rewrite lookup_insert_ne by assumption. rewrite length_app. simpl.
    split; [reflexivity | lia].
Qed.

Lemma deliver_other_token rqs token : forall w,
  Forall (fun rq => ~ mentions token rq) rqs ->
  ManualGate._events (w_gate (deliver rqs w)) !! token
  = ManualGate._events (w_gate w) !! token
  /\ length (w_events w) <= length (w_events (deliver rqs w)).
Proof.
  induction rqs as [|rq rqs IH]; intros w Hall; simpl; [auto|].
  inversion Hall as [|? ? Hrq Hrest]; subst.
  destruct (serve_other_token rq w token Hrq) as [E1 L1].
  destruct (IH (serve w rq) Hrest) as [E2 L2].
  split; [congruence | lia].
Qed.

(** X4. A resume of the token that reaches the gate while the workflow
    waits on the token's event ends the wait without a timeout, however
    many requests for other tokens come before it and whatever comes
    after it; the token is gone from the gate unless a later request
    names it again. *)
Theorem resume_unblocks_wait (w : world) (ev : nat) (token : string)
    (timeout : Z) (pre post : list gate_request) :
  ManualGate._events (w_gate w) !! token = Some ev ->
  ev < length (w_events w) ->
  fst (w_env w (w_trace w) (GateWait ev timeout))
  = (pre ++ ReqResume token :: post)%list ->
  Forall (fun rq => ~ mentions token rq) pre ->
  exists w',
    wait_for_event ev timeout w = (Ok tt, w')
    /\ is_set (w_events w') ev = true
    /\ (Forall (fun rq => ~ mentions token rq) post ->
        ManualGate._events (w_gate w') !! token = None).
Proof.
  intros Htok Hlt Hbatch Hpre. unfold wait_for_event. rewrite Hbatch.
  rewrite deliver_app. cbn [deliver].
  destruct (deliver_other_token pre token w Hpre) as [E1 L1].
  set (w1 := deliver pre w) in *.
  assert (is_set (w_events (serve w1 (ReqResume token))) ev = true
          /\ ManualGate._events (w_gate (serve w1 (ReqResume token))) !! token
             = None) as [Hset Hgone].
  { unfold serve, ManualGate.resume. rewrite E1, Htok. simpl.
    split; [|apply lookup_delete_eq].
    unfold is_set. rewrite list_lookup_insert_eq; [reflexivity | lia]. }
  rewrite (is_set_deliver post _ ev Hset).
  eexists. split; [reflexivity|]. cbn [w_events w_gate push].
  split; [apply is_set_deliver, Hset|].
  intros Hpost.
  destruct (deliver_other_token post token
              (serve w1 (ReqResume token)) Hpost) as [E2 _].
  rewrite E2. exact Hgone.
Qed.

Lemma resume_unblocks_wait_witness :
  let w := snd (GATE_create "a1b2c3d4" (boot (resumes "a1b2c3d4"))) in
  exists w',
    wait_for_event 0 120 w = (Ok tt, w')
    /\ is_set (w_events w') 0 = true
    /\ (Forall (fun rq => ~ mentions "a1b2c3d4" rq) [] ->
        ManualGate._events (w_gate w') !! "a1b2c3d4" = None).
Proof.
  intros w.
  apply (resume_unblocks_wait w 0 "a1b2c3d4" 120 [] []).
  - reflexivity.
  - simpl. lia.
  - reflexivity.
  - constructor.
Defined.

(** ** Where exceptions escape *)

Lemma raises_at_returns {A} Q (m : M A) : returns m -> raises_at Q m.
Proof.
  intros Hm w e w' H. destruct (Hm w) as [a Ha]. rewrite H in Ha.
  discriminate.
Qed.

Lemma raises_at_ret {A} Q (a : A) : raises_at Q (mret a).
Proof. intros w e w' H. discriminate. Qed.

Lemma raises_at_emit Q ev : raises_at Q (emit ev).
Proof. intros w e w' H. discriminate. Qed.

Lemma raises_at_bind {A B} Q (m : M A) (k : A -> M B) :
  raises_at Q m -> (forall a, raises_at Q (k a)) -> raises_at Q (m ≫= k).
Proof.
  intros Hm Hk w e w' H. rewrite bind_run in H.
  destruct (m w) as [[a|e0] w1] eqn:E.
  - eapply Hk, H.
  - injection H as <- <-. eapply Hm, E.
Qed.

Lemma raises_at_try_except {A} Q (body : M A) (handler : exn -> M A) :
  (forall e, raises_at Q (handler e)) -> raises_at Q (try_except body handler).
Proof.
  intros Hh w e w' H. unfold try_except in H.
  destruct (body w) as [[a|e0] w1]; [discriminate|]. eapply Hh, H.
Qed.

Lemma raises_at_await (Q : call -> Prop) c : Q c -> raises_at Q (await c).
Proof.
  intros Hc w e w' H. unfold await in H.
  destruct (w_env w (w_trace w) c) as [rqs r]. injection H as -> <-.
  eexists _, _. split; [reflexivity | exact Hc].
Qed.

Lemma raises_at_invoke (Q : call -> Prop) c : Q c -> raises_at Q (invoke c).
Proof.
  intros Hc w e w' H. unfold invoke in H. injection H as H <-.
  rewrite H. eexists _, _. split; [reflexivity | exact Hc].
Qed.

Lemma returns_GATE_create token : returns (GATE_create token).
Proof. intros w. eexists. reflexivity. Qed.

Lemma returns_new_artifacts a : returns (new_artifacts a).
Proof. intros w. eexists. reflexivity. Qed.

Lemma gate_wait_returns ev timeout :
  returns
    (try_except_class "TimeoutError"
       (wait_for_event ev timeout;; log_ok "Gate resumed")
       (log_warn "Gate timed out; continuing")).
Proof.
  intros w. unfold try_except_class. rewrite bind_run. unfold wait_for_event.
  destruct (is_set _ ev); eexists; reflexivity.
Qed.

#[export] Hint Resolve returns_GATE_create returns_new_artifacts
  gate_wait_returns register_fill_returns : frames.

Lemma register_gate_returns cfg page gate_token pause :
  returns (register_gate cfg page gate_token pause).
Proof. unfold register_gate. returning. Qed.

Lemma _finalize_artifacts_returns cfg context page a record_dir :
  returns (_finalize_artifacts cfg context page a record_dir).
Proof.
  intros w.
  destruct (finalize_run cfg context page a record_dir w)
    as (w' & l1 & rc & l2 & rv & l3 & tp & vp & -> & _).
  eexists. reflexivity.
Qed.

#[export] Hint Resolve register_gate_returns _finalize_artifacts_returns
  : frames.

Ltac raises_step :=
  first
    [ solve [apply raises_at_returns; eauto with frames]
    | match goal with
      | |- raises_at _ (mret _) => apply raises_at_ret
      | |- raises_at _ (emit _) => apply raises_at_emit
      | |- raises_at _ (await _) => apply raises_at_await
      | |- raises_at _ (invoke _) => apply raises_at_invoke
      | |- raises_at _ (_ ≫= _) => apply raises_at_bind
      | |- raises_at _ (try_except _ _) => apply raises_at_try_except
      | |- raises_at _ (match ?x with _ => _ end) => destruct x
      | |- raises_at _ (log _) => unfold log
      | |- raises_at _ (log_ok _) => unfold log_ok
      | |- raises_at _ (log_warn _) => unfold log_warn
      | |- raises_at _ (log_err _ _) => unfold log_err
      | |- raises_at _ (log_exc _ _) => unfold log_exc
      | |- raises_at _ (log_date _) => unfold log_date
      | |- raises_at _ (Main.log _) => unfold Main.log
      | |- forall _, _ => intro
      end
    | solve [exact I | reflexivity | eauto] ].

Ltac raising := repeat raises_step.

Lemma register_one_raises cfg page row gate_token pause :
  raises_at (fun c => c = pg page (WaitForTimeout 1500))
    (register_one cfg page row gate_token pause).
Proof. unfold register_one, register_submit. raising. Qed.

Lemma download_one_raises page row dir :
  raises_at (fun c => c = pg page (WaitForTimeout 1200))
    (download_one page row dir).
Proof. unfold download_one, download_lookup. raising. Qed.

Lemma _attach_listeners_raises cfg page :
  raises_at is_launch_call (_attach_listeners cfg page).
Proof. unfold _attach_listeners. raising. Qed.

Lemma open_context_raises cfg download_dir headless record_video_dir :
  raises_at is_launch_call
    (open_context cfg download_dir headless record_video_dir).
Proof.
  unfold open_context. pose proof _attach_listeners_raises. raising.
Qed.

(** X5. The only exception that escapes [register_one] is one raised by
    the settle wait after the submission: no failure while filling the
    form, at the gate or at the submit control makes the row fail. *)
Theorem register_one_escapes (cfg : Config) (page : Page)
    (row : RegisterRow.t) (gate_token : option string) (pause : bool)
    (w w' : world) (e : exn) :
  register_one cfg page row gate_token pause w = (Raise e, w') ->
  exists rest,
    w_trace w' = Called (pg page (WaitForTimeout 1500)) (Raise e) :: rest.
Proof.
  intros H.
  destruct (register_one_raises cfg page row gate_token pause w e w' H)
    as (c & rest & Htrace & ->).
  exists rest. exact Htrace.
Qed.

Lemma register_one_escapes_witness :
  exists rest,
    w_trace (snd (register_one default_config sample_page sample_row None
                    false (boot page_gone)))
    = Called (pg sample_page (WaitForTimeout 1500))
        (Raise (Exn "Error" "Target closed")) :: rest.
Proof.
  apply (register_one_escapes default_config sample_page sample_row None
           false (boot page_gone)).
  vm_compute. reflexivity.
Defined.

(** X6. The only exception that escapes [download_one] is one raised by
    the wait after the lookup form was sent: no failure of a control,
    of a fill or of a download strategy is raised. *)
Theorem download_one_escapes (page : Page) (row : PinRow.t) (dir : Path)
    (w w' : world) (e : exn) :
  download_one page row dir w = (Raise e, w') ->
  exists rest,
    w_trace w' = Called (pg page (WaitForTimeout 1200)) (Raise e) :: rest.
Proof.
  intros H.
  destruct (download_one_raises page row dir w e w' H)
    as (c & rest & Htrace & ->).
  exists rest. exact Htrace.
Qed.

Lemma download_one_escapes_witness :
  exists rest,
    w_trace (snd (download_one sample_page sample_pin (PathOf "downloads")
                    (boot page_gone)))
    = Called (pg sample_page (WaitForTimeout 1200))
        (Raise (Exn "Error" "Target closed")) :: rest.
Proof.
  apply (download_one_escapes sample_page sample_pin (PathOf "downloads")
           (boot page_gone)).
  vm_compute. reflexivity.
Defined.

(** X7. [open_context] raises only out of a call that brings the
    session up (starting the driver, launching the browser, creating
    the context or the page, subscribing a listener), and that call is
    the last thing it did: a directory that cannot be prepared or a
    trace that cannot be started never aborts it. *)
Theorem open_context_escapes (cfg : Config) (download_dir : option Path)
    (headless : option bool) (record_video_dir : option Path)
    (w w' : world) (e : exn) :
  open_context cfg download_dir headless record_video_dir w = (Raise e, w') ->
  exists c rest,
    w_trace w' = Called c (Raise e) :: rest /\ is_launch_call c.
Proof.
  apply open_context_raises.
Qed.

Lemma open_context_escapes_witness :
  exists c rest,
    w_trace (snd (open_context default_config None None
                    (Some (PathOf "videos/P123")) (boot launch_fails)))
    = Called c (Raise (Exn "Error" "Executable doesn't exist")) :: rest
    /\ is_launch_call c.
Proof.
  apply (open_context_escapes default_config None None
           (Some (PathOf "videos/P123")) (boot launch_fails)).
  vm_compute. reflexivity.
Defined.

(** ** Dates, continued *)

Lemma digit_not_space a : PyStr.is_digit a = true -> PyStr.is_space a = false.
Proof.
  destruct a as [[] [] [] [] [] [] [] []]; vm_compute; congruence.
Qed.

Lemma lstrip_nonspace a s :
  PyStr.is_space a = false -> PyStr.lstrip (String a s) = String a s.
Proof. intros H. simpl. rewrite H. reflexivity. Qed.

Lemma rstrip_nonspace_end p : forall a,
  PyStr.is_space a = false ->
  PyStr.rstrip (p ++ String a "") = p ++ String a "".
Proof.
  induction p as [|b p IH]; intros a Ha.
  - simpl. rewrite Ha. reflexivity.
  - rewrite append_cons. simpl. rewrite (IH a Ha).
    destruct p; reflexivity.
Qed.

Lemma three_groups_groups n1 n2 n3 sep s g1 g2 g3 :
  Re.three_groups n1 n2 n3 sep s = Some (g1, g2, g3) ->
  (String.length g1 = n1 /\ all_digits g1)
  /\ (String.length g2 = n2 /\ all_digits g2)
  /\ (String.length g3 = n3 /\ all_digits g3).
Proof.
  unfold Re.three_groups. intros H.
  destruct (Re.digits n1 s) as [[d1 r1]|] eqn:E1; simpl in H; [|discriminate].
  destruct (Re.lit sep r1) as [r2|] eqn:E2; simpl in H; [|discriminate].
  destruct (Re.digits n2 r2) as [[d2 r3]|] eqn:E3; simpl in H; [|discriminate].
  destruct (Re.lit sep r3) as [r4|] eqn:E4; simpl in H; [|discriminate].
  destruct (Re.digits n3 r4) as [[d3 r5]|] eqn:E5; simpl in H; [|discriminate].
  destruct (Re.at_end r5); [|discriminate].
  injection H as <- <- <-.
  apply digits_sound in E1 as (_ & L1 & D1).
  apply digits_sound in E3 as (_ & L2 & D2).
  apply digits_sound in E5 as (_ & L3 & D3).
  auto.
Qed.

Lemma date_groups_digits date_str dd mm yyyy :
  date_groups date_str = Some (dd, mm, yyyy) ->
  (String.length dd = 2 /\ all_digits dd)
  /\ (String.length mm = 2 /\ all_digits mm)
  /\ (String.length yyyy = 4 /\ all_digits yyyy).
Proof.
  unfold date_groups.
  set (s := PyStr.strip (PyStr.or_else date_str "")).
  destruct (Re.three_groups 4 2 2 "-" s) as [[[g1 g2] g3]|] eqn:E1.
  { intros [= <- <- <-]. apply three_groups_groups in E1. tauto. }
  destruct (Re.three_groups 2 2 4 "-" s) as [[[g1 g2] g3]|] eqn:E2.
  { intros [= <- <- <-]. apply three_groups_groups in E2. tauto. }
  destruct (Re.three_groups 2 2 4 "/" s) as [[[g1 g2] g3]|] eqn:E3.
  { intros [= <- <- <-]. apply three_groups_groups in E3. tauto. }
  discriminate.
Qed.

Lemma slash_groups_accepted dd mm yyyy :
  String.length dd = 2 -> all_digits dd ->
  String.length mm = 2 -> all_digits mm ->
  String.length yyyy = 4 -> all_digits yyyy ->
  date_groups (Some (ddmmyyyy (dd, mm, yyyy))) = Some (dd, mm, yyyy).
Proof.
  intros L1 D1 L2 D2 L3 D3.
  destruct dd as [|a [|b [|? ?]]]; try discriminate L1.
  destruct mm as [|c [|d [|? ?]]]; try discriminate L2.
  destruct yyyy as [|e [|f [|g [|h [|? ?]]]]]; try discriminate L3.
  unfold all_digits in *. simpl in D1, D2, D3.
  repeat match goal with
         | H : Forall _ (_ :: _) |- _ => inversion H; clear H; subst
         | H : Forall _ [] |- _ => clear H
         end.
  unfold date_groups, ddmmyyyy.
  change (PyStr.or_else (Some (String a (String b "") ++ "/" ++
             String c (String d "") ++ "/" ++
             String e (String f (String g (String h ""))))) "")
    with (String a (String b (String "/" (String c (String d (String "/"
            (String e (String f (String g ""))))))))
          ++ String h "").
  unfold PyStr.strip.
  assert (PyStr.is_space a = false) as Sa by (apply digit_not_space; assumption).
  assert (PyStr.is_space h = false) as Sh by (apply digit_not_space; assumption).
  rewrite append_cons, (lstrip_nonspace _ _ Sa), <- append_cons.
  rewrite (rstrip_nonspace_end _ _ Sh).
  unfold Re.three_groups. simpl.
  repeat match goal with
         | H : PyStr.is_digit _ = true |- _ => rewrite H; clear H; simpl
         end.
  reflexivity.
Qed.

(** X8. A date that [set_date_by_id] accepts is written as two digits,
    a slash, two digits, a slash and four digits, and that text is
    itself accepted and normalised to itself: handing a normalised date
    back changes nothing. *)
Theorem normalized_date_is_stable (date_str : option string)
    (g : string * string * string) :
  date_groups date_str = Some g ->
  shaped 2 2 4 "/" (ddmmyyyy g)
  /\ date_groups (Some (ddmmyyyy g)) = Some g.
Proof.
  destruct g as [[dd mm] yyyy]. intros H.
  apply date_groups_digits in H as ((L1 & D1) & (L2 & D2) & (L3 & D3)).
  split.
  - exists dd, mm, yyyy. repeat split; assumption.
  - apply slash_groups_accepted; assumption.
Qed.

Lemma normalized_date_is_stable_witness :
  shaped 2 2 4 "/" "31/01/1990"
  /\ date_groups (Some "31/01/1990") = Some ("31", "01", "1990").
Proof.
  apply (normalized_date_is_stable (Some " 1990-01-31") ("31", "01", "1990")).
  reflexivity.
Defined.

(** ** Phone numbers *)

Lemma zeros_sound k : forall s r,
  zeros k s = Some r -> exists z, s = z ++ r /\ String.length z = k.
Proof.
  induction k as [|k IH]; intros s r H; simpl in H.
  - injection H as <-. exists "". auto.
  - destruct (Re.lit "0" s) as [r1|] eqn:E; simpl in H; [|discriminate].
    apply lit_sound in E as ->. destruct (IH _ _ H) as (z & -> & Hz).
    exists (String "0" z). simpl. auto.
Qed.

Lemma upto_digits_sound k : forall s d r,
  Re.upto_digits k s = (d, r) ->
  s = d ++ r /\ all_digits d /\ String.length d <= k.
Proof.
  assert (forall s k, s = "" ++ s /\ all_digits "" /\ String.length "" <= k)
    as Hnil by (intros; split; [reflexivity|split; [constructor|simpl; lia]]).
  induction k as [|k IH]; intros s d r H; simpl in H.
  - destruct s; injection H as <- <-; apply (Hnil _ 0).
  - destruct s as [|a s]; [injection H as <- <-; apply Hnil|].
    destruct (PyStr.is_digit a) eqn:Ea.
    + destruct (Re.upto_digits k s) as [d' r'] eqn:E.
      injection H as <- <-. destruct (IH _ _ _ E) as (-> & Hd & Hl).
      split; [reflexivity|]. split; [constructor; assumption | simpl; lia].
    + injection H as <- <-. apply Hnil.
Qed.

Lemma some_digits_sound k s d r :
  Re.some_digits k s = Some (d, r) ->
  s = d ++ r /\ all_digits d /\ 1 <= String.length d <= k.
Proof.
  unfold Re.some_digits. destruct (Re.upto_digits k s) as [d' r'] eqn:E.
  apply upto_digits_sound in E as (-> & Hd & Hl).
  destruct d' as [|a d']; [discriminate|]. intros [= <- <-].
  repeat split; try assumption. simpl. lia.
Qed.

(** What [region_match] finds sits in the text after an optional plus
    sign and at most two zeros. *)
Lemma region_match_sound s c :
  region_match s = Some c ->
  all_digits c /\ 1 <= String.length c <= 3
  /\ exists z r, s = z ++ c ++ r /\ In z [""; "0"; "00"; "+"; "+0"; "+00"].
Proof.
  assert (forall k t c,
            (r ← zeros k t; fst <$> Re.some_digits 3 r) = Some c ->
            all_digits c /\ 1 <= String.length c <= 3
            /\ exists z r, t = z ++ c ++ r /\ String.length z = k
                           /\ (forall x, x ∈ list_ascii_of_string z -> x = "0"%char))
    as Hzeros.
  { intros k t c' H.
    destruct (zeros k t) as [r|] eqn:Ez; simpl in H; [|discriminate].
    destruct (Re.some_digits 3 r) as [[d r']|] eqn:Ed; simpl in H;
      [|discriminate].
    injection H as <-.
    apply some_digits_sound in Ed as (-> & Hd & Hl).
    split; [assumption|]. split; [assumption|].
    clear Hd Hl. revert t Ez. induction k as [|k IH]; intros t Ez; simpl in Ez.
    - injection Ez as ->. exists "", r'. repeat split.
      intros x Hx. inversion Hx.
    - destruct (Re.lit "0" t) as [t1|] eqn:E; simpl in Ez; [|discriminate].
      apply lit_sound in E as ->.
      destruct (IH _ Ez) as (z & r & -> & Hz & Hall).
      exists (String "0" z), r. repeat split; [simpl; lia|].
      intros x Hx. simpl in Hx. apply elem_of_cons in Hx as [->|Hx]; auto. }
  assert (forall t c,
            match (r ← zeros 2 t; fst <$> Re.some_digits 3 r) with
            | Some c => Some c
            | None =>
                match (r ← zeros 1 t; fst <$> Re.some_digits 3 r) with
                | Some c => Some c
                | None => r ← zeros 0 t; fst <$> Re.some_digits 3 r
                end
            end = Some c ->
            all_digits c /\ 1 <= String.length c <= 3
            /\ exists z r, t = z ++ c ++ r /\ In z [""; "0"; "00"])
    as Hplus.
  { intros t c' H.
    assert (forall k z, String.length z = k -> k <= 2 ->
              (forall x, x ∈ list_ascii_of_string z -> x = "0"%char) ->
              In z [""; "0"; "00"]) as Hz.
    { intros k z Hk Hle Hall.
      destruct z as [|a [|b [|? ?]]]; simpl in *; try lia; auto.
      - rewrite (Hall a) by (left). auto.
      - rewrite (Hall a) by (left).
        rewrite (Hall b) by (right; left). auto. }
    destruct (r ← zeros 2 t; fst <$> Re.some_digits 3 r) as [c2|] eqn:E2.
    { injection H as <-.
      destruct (Hzeros _ _ _ E2) as (Hd & Hl & z & r & -> & Hk & Hall).
      do 2 (split; [assumption|]). exists z, r. split; [reflexivity|].
      eapply Hz; eauto. }
    destruct (r ← zeros 1 t; fst <$> Re.some_digits 3 r) as [c1|] eqn:E1.
    { injection H as <-.
      destruct (Hzeros _ _ _ E1) as (Hd & Hl & z & r & -> & Hk & Hall).
      do 2 (split; [assumption|]). exists z, r. split; [reflexivity|].
      eapply Hz; eauto. }
    destruct (Hzeros _ _ _ H) as (Hd & Hl & z & r & -> & Hk & Hall).
    do 2 (split; [assumption|]). exists z, r. split; [reflexivity|].
    eapply Hz; eauto. }
  unfold region_match. intros H.
  assert (forall t, (exists z r, t = z ++ c ++ r /\ In z [""; "0"; "00"]) ->
            exists z r, t = z ++ c ++ r
                        /\ In z [""; "0"; "00"; "+"; "+0"; "+00"]) as Hweak.
  { intros t (z & r & -> & Hin). exists z, r. split; [reflexivity|].
    simpl in *. tauto. }
  destruct (Re.lit "+" s) as [r|] eqn:El.
  - apply lit_sound in El as ->.
    match type of H with
    | match ?m with _ => _ end = _ => destruct m as [c'|] eqn:E
    end.
    + injection H as ->.
      destruct (Hplus _ _ E) as (Hd & Hl & z & r' & -> & Hin).
      do 2 (split; [assumption|]). exists (String "+" z), r'.
      split; [reflexivity|]. simpl in *.
      destruct Hin as [<-|[<-|[<-|[]]]]; tauto.
    + apply Hplus in H as (Hd & Hl & Hex). auto using Hweak.
  - apply Hplus in H as (Hd & Hl & Hex). auto using Hweak.
Qed.

(** X9. The region code is made of digits only, at most three of them;
    it is empty for a missing or empty phone number, and otherwise it
    is read from the digits and plus signs of the number, after an
    optional plus sign and at most two zeros.  Extracting it never
    fails and touches nothing but the log. *)
Theorem region_code_digits (phone : option string) (w : world) :
  exists code w' new,
    _extract_region_code phone w = (Ok code, w')
    /\ adds w w' new
    /\ Forall (fun ev => exists msg, ev = Log Info msg None) new
    /\ all_digits code /\ String.length code <= 3
    /\ (PyStr.truthy phone = false -> code = "" /\ new = [])
    /\ (code <> "" ->
        exists z r,
          keep_digits_plus (PyStr.fmt phone) = z ++ code ++ r
          /\ In z [""; "0"; "00"; "+"; "+0"; "+00"]).
Proof.
  unfold _extract_region_code.
  destruct phone as [[|a phone]|].
  1, 3: exists "", w, []; split; [reflexivity|]; split; [apply adds_refl|];
        do 2 (split; [constructor|]); split; [simpl; lia|];
        split; [auto | congruence].
  set (s := keep_digits_plus (String a phone)).
  destruct (region_match s) as [c|] eqn:E; simpl.
  - destruct (region_match_sound _ _ E) as (Hd & Hl & Hex).
    eexists _, _, [_]. split; [reflexivity|]. split; [reflexivity|].
    split; [repeat constructor; eexists; reflexivity|].
    split; [assumption|]. split; [lia|]. split; [discriminate | auto].
  - eexists _, _, [_]. split; [reflexivity|]. split; [reflexivity|].
    split; [repeat constructor; eexists; reflexivity|].
    split; [constructor|]. split; [simpl; lia|].
    split; [discriminate | intros H; exfalso; apply H; reflexivity].
Qed.

Lemma region_code_digits_witness :
  exists code w' new,
    _extract_region_code (Some "+880 1712-345678") (boot quiet) = (Ok code, w')
    /\ adds (boot quiet) w' new
    /\ Forall (fun ev => exists msg, ev = Log Info msg None) new
    /\ all_digits code /\ String.length code <= 3
    /\ exists z r,
         keep_digits_plus "+880 1712-345678" = z ++ code ++ r
         /\ In z [""; "0"; "00"; "+"; "+0"; "+00"].
Proof.
  destruct (region_code_digits (Some "+880 1712-345678") (boot quiet))
    as (code & w' & new & Hrun & Hadds & Hlog & Hd & Hl & _ & Hin).
  exists code, w', new. do 5 (split; [assumption|]).
  apply Hin. intros ->. discriminate Hrun.
Defined.

Lemma lstrip_suffix s : is_suffix (PyStr.lstrip s) s.
Proof.
  induction s as [|a s IH]; simpl.
  - exists "". reflexivity.
  - destruct (PyStr.is_space a).
    + destruct IH as [p Hp]. exists (String a p). rewrite append_cons. f_equal. exact Hp.
    + exists "". reflexivity.
Qed.

Lemma is_suffix_refl s : is_suffix s s.
Proof. exists "". reflexivity. Qed.

Lemma is_suffix_trans a b c : is_suffix a b -> is_suffix b c -> is_suffix a c.
Proof.
  intros [p ->] [q ->]. exists (q ++ p). symmetry. apply append_assoc.
Qed.

Lemma is_suffix_cons a s : is_suffix s (String a s).
Proof. exists (String a ""). reflexivity. Qed.

Lemma opt_lit_suffix c s : is_suffix (Re.opt_lit c s) s.
Proof.
  unfold Re.opt_lit. destruct (Re.lit c s) as [r|] eqn:E.
  - apply lit_sound in E as ->. apply is_suffix_cons.
  - apply is_suffix_refl.
Qed.

(** X10. The mobile number derived from a phone number is the phone
    number with a prefix cut off, never anything else: the cut takes an
    optional plus sign, one to three digits and an optional hyphen with
    blanks around it, and a number that does not start that way is
    kept whole. *)
Theorem sub_dial_prefix_suffix (phone : string) :
  is_suffix (sub_dial_prefix phone) phone
  /\ (forall a r,
        phone = String a r -> PyStr.is_digit a = false -> a <> "+"%char ->
        sub_dial_prefix phone = phone).
Proof.
  assert (forall s x,
            ('(_, r) ← Re.some_digits 3 s;
             Some (Re.skip_space (Re.opt_lit "-" (Re.skip_space r)))) = Some x ->
            is_suffix x s) as Hafter.
  { intros s x H.
    destruct (Re.some_digits 3 s) as [[d r]|] eqn:E; simpl in H;
      [|discriminate].
    injection H as <-. apply some_digits_sound in E as (-> & _ & _).
    unfold Re.skip_space.
    eapply is_suffix_trans; [apply lstrip_suffix|].
    eapply is_suffix_trans; [apply opt_lit_suffix|].
    eapply is_suffix_trans; [apply lstrip_suffix|].
    exists d. reflexivity. }
  unfold sub_dial_prefix. split.
  - destruct (Re.lit "+" phone) as [r|] eqn:El.
    + match goal with
      | |- is_suffix (match match ?m with _ => _ end with _ => _ end) _ =>
          destruct m as [x|] eqn:E
      end.
      * apply lit_sound in El as ->.
        eapply is_suffix_trans; [eapply Hafter, E | apply is_suffix_cons].
      * match goal with
        | |- is_suffix (match ?m with _ => _ end) _ => destruct m as [x|] eqn:E'
        end; [eapply Hafter, E' | apply is_suffix_refl].
    + match goal with
      | |- is_suffix (match ?m with _ => _ end) _ => destruct m as [x|] eqn:E'
      end; [eapply Hafter, E' | apply is_suffix_refl].
  - intros a r -> Hd Hne. unfold Re.lit.
    apply Ascii.eqb_neq in Hne. rewrite Hne.
    unfold Re.some_digits. simpl. rewrite Hd. reflexivity.
Qed.

Lemma sub_dial_prefix_suffix_witness :
  is_suffix (sub_dial_prefix "+880 - 1712345678") "+880 - 1712345678"
  /\ sub_dial_prefix "(880) 1712345678" = "(880) 1712345678".
Proof.
  destruct (sub_dial_prefix_suffix "+880 - 1712345678") as [H _].
  split; [exact H|].
  apply (proj2 (sub_dial_prefix_suffix "(880) 1712345678") "("%char "880) 1712345678");
    [reflexivity | reflexivity | discriminate].
Defined.

(** ** The finalizer, continued *)

(** X11. The trace path of the artifacts object is set by the finalizer
    exactly when the trace was stopped with success, and then to
    [trace.zip] under the recording directory; a failed stop, tracing
    switched off or no recording directory leave it as it was. *)
Theorem finalize_trace_path (cfg : Config) (context : value) (page : Page)
    (a : nat) (record_dir : option Path) (w : world) (x : ContextArtifacts) :
  w_artifacts w !! a = Some x ->
  exists w' new x',
    _finalize_artifacts cfg context page a record_dir w = (Ok a, w')
    /\ adds w w' new
    /\ w_artifacts w' !! a = Some x'
    /\ match record_dir with
       | Some dir =>
           let zip := PathDiv dir "trace.zip" in
           if RECORD_TRACE cfg then
             exists rs,
               In (Called (TracingStop context (path_str zip)) rs) new
               /\ trace_path x' = match rs with
                                  | Ok _ => Some zip
                                  | Raise _ => trace_path x
                                  end
           else trace_path x' = trace_path x
       | None => trace_path x' = trace_path x
       end.
Proof.
  intros Hx.
  destruct (finalize_run cfg context page a record_dir w)
    as (w' & l1 & rc & l2 & rv & l3 & tp & vp
        & Hrun & Hadds & _ & _ & Harts & Htrace & _).
  eexists w', _, _. split; [exact Hrun|]. split; [exact Hadds|].
  split.
  { rewrite Harts. erewrite lookup_assign_opt; [reflexivity|].
    apply lookup_assign_opt, Hx. }
  destruct record_dir as [dir|]; [destruct (RECORD_TRACE cfg)|].
  - destruct Htrace as (rs & l & -> & _ & ->). exists rs. split.
    { destruct rs; in_search. }
    destruct rs, vp; reflexivity.
  - destruct Htrace as [_ ->]. destruct vp; reflexivity.
  - destruct Htrace as [_ ->]. destruct vp; reflexivity.
Qed.

Lemma finalize_trace_path_witness :
  exists w' new x',
    _finalize_artifacts default_config (VObj 1) sample_page 0
      (Some (PathOf "videos/P123")) (with_artifacts [no_artifacts] (boot quiet))
    = (Ok 0, w')
    /\ adds (with_artifacts [no_artifacts] (boot quiet)) w' new
    /\ w_artifacts w' !! 0 = Some x'
    /\ exists rs,
         In (Called (TracingStop (VObj 1) "videos/P123/trace.zip") rs) new
         /\ trace_path x' = match rs with
                            | Ok _ => Some (PathDiv (PathOf "videos/P123")
                                              "trace.zip")
                            | Raise _ => trace_path no_artifacts
                            end.
Proof.
  apply (finalize_trace_path default_config (VObj 1) sample_page 0
           (Some (PathOf "videos/P123"))
           (with_artifacts [no_artifacts] (boot quiet)) no_artifacts).
  reflexivity.
Defined.

(** ** The field setters *)

(** A write that waits for its control first. *)
Lemma guarded_write_run (c1 c2 : call) (okmsg errmsg : string) w :
  exists w' r1 l1 rest,
    try_except
      (await c1;; await c2;; log_ok okmsg)
      (fun e => log_err errmsg (Some e)) w = (Ok tt, w')
    /\ adds w w' (rest ++ Called c1 r1 :: l1)
    /\ Forall is_served l1
    /\ match r1 with
       | Raise e => rest = [Log Err errmsg (Some e)]
       | Ok _ =>
           exists r2 l2,
             rest = (match r2 with
                     | Ok _ => Log Okay okmsg None
                     | Raise e => Log Err errmsg (Some e)
                     end :: Called c2 r2 :: l2)
             /\ Forall is_served l2
       end.
Proof.
  unfold try_except. rewrite bind_run.
  destruct (await_run c1 w) as (r1 & l1 & w1 & -> & H1 & F1 & _).
  destruct r1 as [v1|e1]; cbn beta iota.
  - rewrite bind_run.
    destruct (await_run c2 w1) as (r2 & l2 & w2 & -> & H2 & F2 & _).
    destruct r2 as [v2|e2]; cbn beta iota.
    + eexists _, (Ok v1), l1, _. split; [reflexivity|].
      split; [|split; [assumption|]].
      * apply (adds_trans w w1 _ _ _ H1). apply adds_push, H2.
      * exists (Ok v2), l2. split; [reflexivity | assumption].
    + eexists _, (Ok v1), l1, _. split; [reflexivity|].
      split; [|split; [assumption|]].
      * apply (adds_trans w w1 _ _ _ H1). apply adds_push, H2.
      * exists (Raise e2), l2. split; [reflexivity | assumption].
  - eexists _, (Raise e1), l1, [_]. split; [reflexivity|].
    split; [|split; [assumption | reflexivity]].
    apply (adds_push w w1 _ _ H1).
Qed.

(** The consequences of [guarded_write_run] that the setters share. *)
Lemma guarded_write_props (c1 c2 : call) (okmsg errmsg : string) w :
  c1 <> c2 ->
  exists w' new,
    try_except
      (await c1;; await c2;; log_ok okmsg)
      (fun e => log_err errmsg (Some e)) w = (Ok tt, w')
    /\ adds w w' new
    /\ (forall c r, In (Called c r) new -> c = c1 \/ c = c2)
    /\ (forall r, In (Called c2 r) new ->
          exists v, before (Called c1 (Ok v)) (Called c2 r) new)
    /\ (forall c e, In (Called c (Raise e)) new ->
          In (Log Err errmsg (Some e)) new).
Proof.
  intros Hne.
  destruct (guarded_write_run c1 c2 okmsg errmsg w)
    as (w' & r1 & l1 & rest & Hrun & Hadds & F1 & Hrest).
  exists w', (rest ++ Called c1 r1 :: l1)%list.
  split; [exact Hrun|]. split; [exact Hadds|].
  destruct r1 as [v1|e1].
  - destruct Hrest as (r2 & l2 & -> & F2).
    split; [|split].
    + intros c r Hin. destruct r2; in_inv; auto.
    + intros r Hin. exists v1.
      assert (r = r2) as ->.
      { destruct r2; in_inv; try reflexivity; contradiction Hne; reflexivity. }
      exists l1, l2,
        [match r2 with
         | Ok _ => Log Okay okmsg None
         | Raise e => Log Err errmsg (Some e)
         end].
      reflexivity.
    + intros c e Hin. destruct r2; in_inv. in_search.
  - subst rest. split; [|split].
    + intros c r Hin. in_inv. auto.
    + intros r Hin. in_inv. contradiction Hne; reflexivity.
    + intros c e Hin. in_inv. in_search.
Qed.

(** X12. [_fill_if_value] and [_select_if_value] touch nothing but
    their own control: they wait for it, write the given value into it
    only once the wait has found it, and log whatever fails; without a
    value (for a select, also with an empty one) they call nothing and
    leave a warning. *)
Theorem setters_write_after_wait (page : Page) (css : string) (w : world) :
  (forall value,
     exists w' new,
       _fill_if_value page css (Some value) w = (Ok tt, w')
       /\ adds w w' new
       /\ writes_after_wait (pg page (WaitForSelector css None 4000))
            (pg page (Fill css value)) new)
  /\ (forall value,
        value <> "" ->
        exists w' new,
          _select_if_value page css (Some value) w = (Ok tt, w')
          /\ adds w w' new
          /\ writes_after_wait (pg page (WaitForSelector css None 4000))
               (pg page (SelectOption css value)) new)
  /\ _fill_if_value page css None w
     = (Ok tt, push (Log Warn ("_fill_if_value: No value for " ++ css) None) w)
  /\ (forall value,
        PyStr.truthy value = false ->
        _select_if_value page css value w
        = (Ok tt,
           push (Log Warn ("_select_if_value: No value for " ++ css) None) w)).
Proof.
  split; [|split; [|split]].
  - intros value. unfold _fill_if_value.
    destruct (guarded_write_props
                (pg page (WaitForSelector css None 4000))
                (pg page (Fill css value))
                ("Fill " ++ css ++ " = '" ++ value ++ "'")
                ("Fill failed " ++ css ++ " = '" ++ value ++ "'") w)
      as (w' & new & Hrun & Hadds & H1 & H2 & H3); [discriminate|].
    exists w', new. split; [exact Hrun|]. split; [exact Hadds|].
    split; [exact H1|]. split; [exact H2|]. eauto.
  - intros value Hne. unfold _select_if_value.
    destruct value as [|a value]; [contradiction Hne; reflexivity|].
    destruct (guarded_write_props
                (pg page (WaitForSelector css None 4000))
                (pg page (SelectOption css (String a value)))
                ("Select " ++ css ++ " = " ++ String a value)
                ("Select failed " ++ css ++ " = " ++ String a value) w)
      as (w' & new & Hrun & Hadds & H1 & H2 & H3); [discriminate|].
    exists w', new. split; [exact Hrun|]. split; [exact Hadds|].
    split; [exact H1|]. split; [exact H2|]. eauto.
  - reflexivity.
  - intros [[|a value]|] H; try discriminate H; reflexivity.
Qed.

Lemma setters_write_after_wait_witness :
  (exists w' new,
     _select_if_value sample_page "#sex" (Some "1") (boot quiet) = (Ok tt, w')
     /\ adds (boot quiet) w' new
     /\ writes_after_wait (pg sample_page (WaitForSelector "#sex" None 4000))
          (pg sample_page (SelectOption "#sex" "1")) new)
  /\ _select_if_value sample_page "#sex" (Some "") (boot quiet)
     = (Ok tt,
        push (Log Warn "_select_if_value: No value for #sex" None) (boot quiet)).
Proof.
  destruct (setters_write_after_wait sample_page "#sex" (boot quiet))
    as (_ & Hsel & _ & Hno).
  split; [apply Hsel; discriminate | apply Hno; reflexivity].
Defined.

(** X13. [set_date_by_id] runs the widget script only after the wait
    for the date field has found it: when the field does not show up,
    the failure is logged and nothing more is asked of the page. *)
Theorem date_script_after_field (page : Page) (input_id : string)
    (date_str : option string) (w : world) :
  exists w' new,
    set_date_by_id page input_id date_str w = (Ok tt, w')
    /\ adds w w' new
    /\ (forall c r,
          In (Called c r) new ->
          c <> pg page (WaitForSelector ("#" ++ input_id) None 15000) ->
          exists v,
            before
              (Called (pg page (WaitForSelector ("#" ++ input_id) None 15000))
                 (Ok v))
              (Called c r) new).
Proof.
  destruct (date_groups date_str) as [[[dd mm] yyyy]|] eqn:Hg.
  - destruct (set_date_by_id_run page input_id date_str dd mm yyyy w Hg)
      as (w' & r1 & l1 & rest & Hrun & Hadds & F1 & Hrest).
    cbn zeta in Hadds, Hrest.
    eexists w', _. split; [exact Hrun|]. split; [exact Hadds|].
    intros c r Hin Hne. destruct r1 as [v|e].
    + exists v. in_inv.
      * apply in_split in Hin as (l3 & l2 & ->).
        eexists _, l2, l3. list_norm. reflexivity.
      * contradiction Hne; reflexivity.
    + subst rest. in_inv. contradiction Hne; reflexivity.
  - unfold set_date_by_id. rewrite Hg.
    eexists _, [_]. split; [reflexivity|]. split; [reflexivity|].
    intros c r Hin Hne. in_inv.
Qed.

Lemma date_script_after_field_witness :
  exists v,
    before
      (Called (pg sample_page (WaitForSelector "#dob" None 15000)) (Ok v))
      (Called (pg sample_page
                 (Evaluate (JsSetDate "#dob" "31/01/1990" "31" "01" "1990")))
         (Ok VNone))
      (w_trace (snd (set_date_by_id sample_page "dob" (Some "1990-01-31")
                       (boot quiet)))).
Proof.
  destruct (date_script_after_field sample_page "dob" (Some "1990-01-31")
              (boot quiet)) as (w' & new & Hrun & Hadds & H).
  rewrite Hrun. simpl. unfold adds in Hadds. simpl in Hadds.
  rewrite app_nil_r in Hadds. rewrite Hadds.
  apply H; [|discriminate].
  rewrite <- Hadds.
  apply (f_equal snd) in Hrun. simpl in Hrun. rewrite <- Hrun.
  vm_compute. tauto.
Defined.

(** ** Navigation *)

Lemma fallback_run page w :
  exists w' r2 l2,
    try_except
      (await (pg page (Goto BASE "domcontentloaded" 60000));;
       log_ok ("Fallback navigate -> " ++ BASE))
      (fun e2 => log_exc "Fallback navigate failed" e2) w = (Ok tt, w')
    /\ adds w w'
         (match r2 with
          | Ok _ => Log Okay ("Fallback navigate -> " ++ BASE) None
          | Raise e2 => Log Exc "Fallback navigate failed" (Some e2)
          end :: Called (pg page (Goto BASE "domcontentloaded" 60000)) r2 :: l2)
    /\ Forall is_served l2.
Proof.
  unfold try_except. rewrite bind_run.
  destruct (await_run (pg page (Goto BASE "domcontentloaded" 60000)) w)
    as (r2 & l2 & w1 & -> & H1 & F1 & _).
  exists (push (match r2 with
                | Ok _ => Log Okay ("Fallback navigate -> " ++ BASE) None
                | Raise e2 => Log Exc "Fallback navigate failed" (Some e2)
                end) w1), r2, l2.
  destruct r2 as [v|e]; (split; [reflexivity|]);
    (split; [apply adds_push, H1 | assumption]).
Qed.

(** X14. [navigate_safe] never raises.  It goes to the address it is
    given first; it falls back to the base address exactly when that
    navigation, or reading the address reached, failed, and then after
    having logged the failure; it navigates at most twice. *)
Theorem navigate_safe_fallback (page : Page) (url : string) (w : world) :
  let goto u := pg page (Goto u "domcontentloaded" 60000) in
  exists w' r1 l1 rest,
    navigate_safe page url w = (Ok tt, w')
    /\ adds w w'
         (rest ++ Called (goto url) r1 :: l1
               ++ [Log Info ("Navigate -> " ++ url) None])
    /\ Forall is_served l1
    /\ (forall c r, In (Called c r) rest -> c = pg page Url \/ c = goto BASE)
    /\ ((exists r2, In (Called (goto BASE) r2) rest)
        <-> (exists e,
               In (Log Err ("Navigate failed (" ++ url ++ "), retrying BASE")
                     (Some e)) rest))
    /\ ((exists e,
           In (Log Err ("Navigate failed (" ++ url ++ "), retrying BASE")
                 (Some e)) rest)
        <-> ((exists e, r1 = Raise e)
             \/ exists e, In (Called (pg page Url) (Raise e)) rest)).
Proof.
  intros goto. subst goto. cbv beta. unfold navigate_safe, try_except at 1.
  rewrite bind_run. unfold log at 1, emit. cbn beta iota.
  set (line := Log Info ("Navigate -> " ++ url) None).
  set (w0 := push line w).
  assert (adds w w0 [line]) as H0 by reflexivity. clearbody w0.
  rewrite bind_run.
  destruct (await_run (pg page (Goto url "domcontentloaded" 60000)) w0)
    as (r1 & l1 & w1 & -> & H1 & F1 & _).
  pose proof (adds_trans _ _ _ _ _ H0 H1) as H01.
  assert (forall w2 w' l (tail : list event),
            adds w1 w2 tail -> adds w2 w' l ->
            adds w w'
              ((l ++ tail)
               ++ Called (pg page (Goto url "domcontentloaded" 60000)) r1
               :: l1 ++ [line]))
    as Hext.
  { intros w2 w' l tail Ht Hl.
    pose proof (adds_trans _ _ _ _ _ H01 (adds_trans _ _ _ _ _ Ht Hl)) as H.
    unfold adds in *. rewrite H. list_norm. reflexivity. }
  destruct r1 as [v|e]; cbn beta iota.
  - rewrite bind_run. unfold invoke at 1.
    set (ru := snd (w_env w1 (w_trace w1) (pg page Url))).
    set (w2 := push (Called (pg page Url) ru) w1).
    assert (adds w1 w2 [Called (pg page Url) ru]) as H2 by reflexivity.
    clearbody w2. clearbody ru. destruct ru as [u|e]; cbn [fst snd].
    + eexists _, (Ok v), l1, [_; _]. split; [reflexivity|].
      split; [apply (Hext w2 _ [_] _ H2); reflexivity|].
      split; [assumption|]. split; [intros c r Hin; in_inv; auto|].
      split; split.
      * intros [r2 Hin]. in_inv.
      * intros [e Hin]. in_inv; discriminate.
      * intros [e Hin]. in_inv; discriminate.
      * intros [[e [=]]|[e Hin]]. in_inv.
    + rewrite bind_run. unfold log_err at 1, emit. cbn beta iota.
      set (w3 := push _ w2).
      assert (adds w2 w3
                [Log Err ("Navigate failed (" ++ url ++ "), retrying BASE")
                   (Some e)]) as H3 by reflexivity.
      clearbody w3.
      destruct (fallback_run page w3) as (w' & r2 & l2 & -> & H4 & F2).
      pose proof (adds_trans _ _ _ _ _ H3 H4) as H34.
      eexists w', (Ok v), l1, _. split; [reflexivity|].
      split; [apply (Hext w2 _ _ _ H2 H34)|].
      split; [assumption|].
      split; [intros c r Hin; destruct r2; in_inv; auto|].
      split; split.
      * intros _. exists e. in_search.
      * intros _. exists r2. in_search.
      * intros _. right. exists e. in_search.
      * intros _. exists e. in_search.
  - rewrite bind_run. unfold log_err at 1, emit. cbn beta iota.
    set (w3 := push _ w1).
    assert (adds w1 w3
              [Log Err ("Navigate failed (" ++ url ++ "), retrying BASE")
                 (Some e)]) as H3 by reflexivity.
    clearbody w3.
    destruct (fallback_run page w3) as (w' & r2 & l2 & -> & H4 & F2).
    eexists w', (Raise e), l1, _. split; [reflexivity|].
    split; [apply (Hext w1 _ _ [] (adds_refl w1)
                     (adds_trans _ _ _ _ _ H3 H4))|].
    split; [assumption|].
    split; [intros c r Hin; destruct r2; in_inv; auto|].
    split; split.
    + intros _. exists e. in_search.
    + intros _. exists r2. in_search.
    + intros _. left. eauto.
    + intros _. exists e. in_search.
Qed.

(** ** Screenshots *)

#[export] Instance adds_only_shots_in_atomic screens :
  Atomic (adds_only (shots_in screens)) (shots_in screens) :=
  adds_only_atomic (shots_in screens) (fun _ _ => I).






(** ** The submission *)

Lemma take_str_length n s : String.length (take_str n s) <= n.
Proof.
  unfold take_str. revert s. induction n as [|n IH]; intros [|a s]; simpl;
    try lia.
  specialize (IH s). lia.
Qed.

(** X16. What [register_one] returns is decided by the read of the
    page body, the last call of the run: when the read gives a text the
    summary is made of its first 500 characters (so at most 500 long),
    and when the read raises the summary is the word [submitted].  The
    excerpt that is logged next starts the summary, and the closing
    line of the log follows. *)
Theorem register_summary_bounded (cfg : Config) (page : Page)
    (row : RegisterRow.t) (gate_token : option string) (pause : bool)
    (w w' : world) (info : string) :
  register_one cfg page row gate_token pause w = (Ok info, w') ->
  exists rb older,
    w_trace w'
    = Log Info "=== register_one: END ===" None
      :: Log Info ("Register result (excerpt): "
                   ++ replace_linesep (take_str 160 info)) None
      :: Called (pg page (InnerText "body")) rb :: older
    /\ (forall s, rb = Ok (VStr s) ->
          info = take_str 500 s /\ String.length info <= 500)
    /\ (forall e, rb = Raise e -> info = "submitted").
Proof.
  unfold register_one. intros H.
  apply bind_ok_inv in H as (? & w1 & _ & H).
  apply bind_ok_inv in H as (? & w2 & _ & H).
  unfold register_submit in H.
  apply bind_ok_inv in H as (? & w3 & _ & H).
  apply bind_ok_inv in H as (? & w4 & _ & H).
  apply bind_ok_inv in H as (? & w5 & _ & H).
  apply bind_ok_inv in H as (? & w6 & _ & H).
  apply bind_ok_inv in H as (body_txt & w7 & Hbody & H).
  apply bind_ok_inv in H as (? & w8 & H8 & H).
  apply bind_ok_inv in H as (? & w9 & H9 & H).
  injection H as <- <-. injection H9 as <- <-. injection H8 as <- <-.
  unfold try_except in Hbody. rewrite bind_run in Hbody.
  destruct (await_run (pg page (InnerText "body")) w6)
    as (rb & l & wb & Eb & Hb & _).
  rewrite Eb in Hbody. exists rb, (l ++ w_trace w6)%list.
  destruct rb as [v|e]; cbn beta iota in Hbody; injection Hbody as <- <-.
  - split; [simpl; rewrite Hb; reflexivity|]. split; [|discriminate].
    intros s [= ->]. split; [reflexivity|]. apply take_str_length.
  - split; [simpl; rewrite Hb; reflexivity|]. split; [discriminate|].
    intros _ _. reflexivity.
Qed.

Lemma register_summary_bounded_witness :
  exists w' info rb older,
    register_one default_config sample_page sample_row None false
      (boot body_reads) = (Ok info, w')
    /\ w_trace w'
       = Log Info "=== register_one: END ===" None
         :: Log Info ("Register result (excerpt): "
                      ++ replace_linesep (take_str 160 info)) None
         :: Called (pg sample_page (InnerText "body")) rb :: older
    /\ rb = Ok (VStr "Registration submitted")
    /\ info = "Registration submitted"
    /\ String.length info <= 500.
Proof.
  assert (register_one default_config sample_page sample_row None false
            (boot body_reads)
          = (Ok "Registration submitted",
             snd (register_one default_config sample_page sample_row None
                    false (boot body_reads)))) as E
    by (vm_compute; reflexivity).
  destruct (register_summary_bounded default_config sample_page sample_row
              None false (boot body_reads) _ _ E)
    as (rb & older & Htrace & Hstr & _).
  assert (rb = Ok (VStr "Registration submitted")) as Hrb.
  { pose proof Htrace as Hthird.
    apply (f_equal (fun l => nth_error l 2)) in Hthird.
    vm_compute in Hthird. injection Hthird as Hthird. symmetry.
    exact Hthird. }
  eexists _, "Registration submitted", rb, older.
  split; [exact E|]. split; [exact Htrace|]. split; [exact Hrb|].
  split; [reflexivity|]. exact (proj2 (Hstr _ Hrb)).
Defined.

#[export] Instance adds_only_no_key_press_atomic :
  Atomic (adds_only not_key_press) not_key_press :=
  adds_only_atomic not_key_press (fun _ _ => I).

Lemma register_fill_no_key_press page row :
  steps (adds_only not_key_press) (register_fill page row).
Proof.
  unfold register_fill, navigate_safe, _screenshot, _fill_if_value,
    _select_if_value, set_date_by_id, _extract_region_code.
  frame.
Qed.

Lemma register_gate_no_key_press cfg page gate_token pause :
  steps (adds_only not_key_press) (register_gate cfg page gate_token pause).
Proof. unfold register_gate. frame. Qed.

Lemma steps_eta (R : relation world) {A} (m : M A) :
  steps R m -> steps R (fun w => m w).
Proof. exact id. Qed.

(** The submission: the click on the submit control comes first, and
    when it goes through no key is pressed. *)
Lemma register_submit_run page w :
  exists r w' rc l rest,
    register_submit page w = (r, w')
    /\ adds w w'
         (rest ++ Called (pg page (Click "#submit" 5000)) rc
               :: l ++ [Log Info "Try submit form (#submit or Enter)" None])
    /\ Forall is_served l
    /\ (forall v, rc = Ok v -> Forall not_key_press rest).
Proof.
  unfold register_submit. rewrite bind_run. unfold log at 1, emit.
  cbn beta iota.
  set (line := Log Info "Try submit form (#submit or Enter)" None).
  set (w0 := push line w).
  assert (adds w w0 [line]) as H0 by reflexivity. clearbody w0.
  rewrite bind_run. unfold try_except at 1. rewrite bind_run.
  destruct (await_run (pg page (Click "#submit" 5000)) w0)
    as (rc & l & w1 & -> & H1 & F1 & _).
  pose proof (adds_trans _ _ _ _ _ H0 H1) as H01.
  assert (forall w' rest,
            adds w1 w' rest ->
            adds w w' (rest ++ Called (pg page (Click "#submit" 5000)) rc
                            :: l ++ [line])) as Hext.
  { intros w' rest Hrest. pose proof (adds_trans _ _ _ _ _ H01 Hrest) as H.
    unfold adds in *. rewrite H. list_norm. reflexivity. }
  destruct rc as [v|e]; cbn beta iota.
  - unfold log_ok at 1, emit. cbn beta iota.
    set (w2 := push (Log Okay "Submit button clicked" None) w1).
    assert (adds w1 w2 [Log Okay "Submit button clicked" None]) as H2
      by reflexivity.
    clearbody w2.
    match goal with
    | |- context [?m w2] =>
        assert (steps (adds_only not_key_press) m) as Hs2
          by (unfold _screenshot; frame);
        destruct (Hs2 w2) as (rest2 & Hrest2 & Q2);
        destruct (m w2) as [r w'] eqn:E2; simpl in Hrest2
    end.
    exists r, w', (Ok v), l, (rest2 ++ [Log Okay "Submit button clicked" None])%list.
    split; [reflexivity|].
    split; [apply Hext; eapply adds_trans; eassumption|].
    split; [assumption|]. intros _ _. apply Forall_app. split; [assumption|].
    repeat constructor.
  - rewrite <- bind_run.
    match goal with
    | |- context [?m w1] =>
        match type of m with
        | M ?T =>
            match T with
            | string =>
                assert (steps (adds_only (fun _ => True)) m) as Hs
                  by (frame; apply steps_eta; frame);
                destruct (Hs w1) as (rest & Hrest & _);
                destruct (m w1) as [r w'] eqn:E; simpl in Hrest
            end
        end
    end.
    exists r, w', (Raise e), l, rest. split; [reflexivity|].
    split; [apply Hext; assumption|].
    split; [assumption|]. intros v [=].
Qed.

(** X17. In [register_one] a key is pressed only to submit the form
    after the click on the submit control has failed: while the form is
    filled and at the gate no key is pressed, and a click that goes
    through is not followed by a key press. *)
Theorem enter_only_after_failed_click (cfg : Config) (page : Page)
    (row : RegisterRow.t) (gate_token : option string) (pause : bool)
    (w : world) :
  exists new,
    adds w (snd (register_one cfg page row gate_token pause w)) new
    /\ forall p key r,
         In (Called (PageCall p (KeyboardPress key)) r) new ->
         exists e,
           before (Called (pg page (Click "#submit" 5000)) (Raise e))
                  (Called (PageCall p (KeyboardPress key)) r) new.
Proof.
  unfold register_one. rewrite bind_run.
  destruct (register_fill_no_key_press page row w) as (l1 & H1 & Q1).
  destruct (register_fill_returns page row w) as [[] Hf].
  destruct (register_fill page row w) as [rf w1]. simpl in *. subst rf.
  rewrite bind_run.
  destruct (register_gate_no_key_press cfg page gate_token pause w1)
    as (l2 & H2 & Q2).
  destruct (register_gate_returns cfg page gate_token pause w1) as [[] Hg].
  destruct (register_gate cfg page gate_token pause w1) as [rg w2].
  simpl in *. subst rg.
  destruct (register_submit_run page w2)
    as (r & w' & rc & l & rest & -> & H3 & Fl & Hrest).
  simpl.
  pose proof (adds_trans _ _ _ _ _ (adds_trans _ _ _ _ _ H1 H2) H3) as Hall.
  eexists. split; [exact Hall|].
  assert (forall (l0 : list event) p key r0,
            Forall not_key_press l0 ->
            ~ In (Called (PageCall p (KeyboardPress key)) r0) l0) as Hno.
  { intros l0 p key r0 F Hin. rewrite List.Forall_forall in F.
    apply F in Hin. exact Hin. }
  intros p key r0 Hin.
  apply in_app_or in Hin as [Hin|Hin].
  - apply in_app_or in Hin as [Hin|Hin].
    + destruct rc as [v|e].
      * exfalso. eapply Hno; [eapply Hrest; reflexivity | exact Hin].
      * exists e. apply in_split in Hin as (l3 & l4 & ->).
        eexists _, l4, l3. list_norm. reflexivity.
    + exfalso. in_inv.
  - exfalso. apply in_app_or in Hin as [Hin|Hin];
      [eapply Hno; [exact Q2 | exact Hin] | eapply Hno; [exact Q1 | exact Hin]].
Qed.

Lemma enter_only_after_failed_click_witness :
  exists new,
    adds (boot submit_click_fails)
      (snd (register_one default_config sample_page sample_row None false
              (boot submit_click_fails))) new
    /\ exists e,
         before (Called (pg sample_page (Click "#submit" 5000)) (Raise e))
           (Called (PageCall (VObj 2) (KeyboardPress "Enter")) (Ok VNone)) new.
Proof.
  destruct (enter_only_after_failed_click default_config sample_page
              sample_row None false (boot submit_click_fails))
    as (new & Hadds & Hkey).
  exists new. split; [exact Hadds|]. apply Hkey.
  unfold adds in Hadds.
  change (w_trace (boot submit_click_fails)) with (@nil event) in Hadds.
  rewrite app_nil_r in Hadds. rewrite <- Hadds.
  vm_compute. tauto.
Defined.

(** ** Where a download is stored *)

Lemma download_popup_saved page row dir w0 out w1 new :
  download_popup page row dir w0 = (Ok out, w1) ->
  adds w0 w1 new ->
  exists now content v,
    out = PathDiv dir (PinRow.passport row ++ "_" ++ py_str now ++ ".pdf")
    /\ In (Called (WriteBytes out content) (Ok v)) new.
Proof.
  unfold download_popup. intros H Hnew.
  apply (bind_steps_inv (adds_only (fun _ => True))) in H
    as (? & wa & (la & Ha & _) & H); [|frame].
  apply (bind_steps_inv (adds_only (fun _ => True))) in H
    as (? & wb & (lb & Hb & _) & H); [|frame].
  apply (bind_steps_inv (adds_only (fun _ => True))) in H
    as (popup & wc & (lc & Hc & _) & H); [|frame].
  apply (bind_steps_inv (adds_only (fun _ => True))) in H
    as (u & wd & (ld & Hd & _) & H); [|frame].
  apply (bind_steps_inv (adds_only (fun _ => True))) in H
    as (? & we & (le & He & _) & H); [|frame].
  apply (bind_steps_inv (adds_only (fun _ => True))) in H
    as (resp & wf' & (lf & Hf & _) & H); [|frame].
  apply (bind_steps_inv (adds_only (fun _ => True))) in H
    as (content & wg & (lg & Hg & _) & H); [|frame].
  apply (bind_steps_inv (adds_only (fun _ => True))) in H
    as (now & wh & (lh & Hh & _) & H); [|frame].
  cbn zeta in H.
  apply bind_ok_inv in H as (v & wi & Hi & H).
  apply (bind_steps_inv (adds_only (fun _ => True))) in H
    as (? & wj & (lj & Hj & _) & H); [|frame].
  apply (bind_steps_inv (adds_only (fun _ => True))) in H
    as (? & wk & (lk & Hk & _) & H); [|frame].
  apply (bind_steps_inv (adds_only (fun _ => True))) in H
    as (? & wl & (ll & Hl & _) & H); [|frame].
  injection H as <- <-.
  exists now, content, v. split; [reflexivity|].
  unfold invoke in Hi. injection Hi as Hv <-.
  assert (new = (ll ++ lk ++ lj
                 ++ [Called (WriteBytes
                       (PathDiv dir (PinRow.passport row ++ "_"
                                     ++ py_str now ++ ".pdf")) content) (Ok v)]
                 ++ lh ++ lg ++ lf ++ le ++ ld ++ lc ++ lb ++ la)%list) as ->.
  { eapply adds_inj; [exact Hnew|]. unfold adds in *.
    rewrite Hl, Hk, Hj. simpl. rewrite Hv, Hh, Hg, Hf, He, Hd, Hc, Hb, Ha.
    list_norm. reflexivity. }
  in_search.
Qed.

Lemma download_one_saved (page : Page) (row : PinRow.t) (dir : Path)
    (w w' : world) (out : Path) :
  download_one page row dir w = (Ok (Some out), w') ->
  exists new name,
    adds w w' new
    /\ out = PathDiv dir (PinRow.passport row ++ "_" ++ name)
    /\ ((exists download v,
           In (Called (SaveAs download (path_str out)) (Ok v)) new)
        \/ (exists content v,
              In (Called (WriteBytes out content) (Ok v)) new)).
Proof.
  intros H.
  destruct (download_one_steps (R := adds_only (fun _ => True)) page row dir w)
    as (new & Hnew & _).
  rewrite H in Hnew. simpl in Hnew. exists new.
  unfold download_one in H.
  apply (bind_steps_inv (adds_only (fun _ => True))) in H
    as (? & wa & (la & Ha & _) & H); [|frame].
  apply bind_ok_inv in H as (returned & wb & Htry & H).
  pose proof Htry as Hb.
  eapply (steps_run (adds_only (fun _ => True))) in Hb; [|frame].
  destruct Hb as (lb & Hb & _).
  destruct returned as [out0|].
  - injection H as <- <-.
    apply try_except_ok_inv in Htry as [Htry|(e & wx & _ & Htry)].
    + apply bind_ok_inv in Htry as (o & wx & Hd & Hret).
      injection Hret as <- <-.
      destruct (download_direct_saved _ _ _ _ _ _ lb Hd Hb)
        as (download & suggested & v & -> & Hin).
      exists (py_str suggested).
      split; [assumption|]. split; [reflexivity|]. left.
      exists download, v.
      assert (new = (lb ++ la)%list) as ->.
      { eapply adds_inj; [exact Hnew|]. eapply adds_trans; eassumption. }
      apply in_or_app. left. exact Hin.
    + apply bind_ok_inv in Htry as (? & ? & _ & Hret). discriminate Hret.
  - pose proof H as Hc.
    eapply (steps_run (adds_only (fun _ => True))) in Hc; [|frame].
    destruct Hc as (lc & Hc & _).
    apply try_except_ok_inv in H as [H|(e & wx & _ & H)].
    + apply bind_ok_inv in H as (o & wx & Hp & Hret).
      injection Hret as <- <-.
      destruct (download_popup_saved _ _ _ _ _ _ lc Hp Hc)
        as (now & content & v & -> & Hin).
      exists (py_str now ++ ".pdf").
      split; [assumption|]. split; [reflexivity|]. right.
      exists content, v.
      assert (new = (lc ++ lb ++ la)%list) as ->.
      { eapply adds_inj; [exact Hnew|].
        eapply adds_trans; [|exact Hc]. eapply adds_trans; eassumption. }
      apply in_or_app. left. exact Hin.
    + apply bind_ok_inv in H as (? & ? & _ & H).
      apply bind_ok_inv in H as (? & ? & _ & H). discriminate H.
Qed.

(** A name without a separator is one component, kept unless it is
    empty or a dot. *)
Lemma split_no_slash s : no_slash s = true -> PurePosixPath.split s = [s].
Proof.
  induction s as [|a s IH]; [reflexivity|]. simpl.
  destruct (Ascii.eqb a "/"); [discriminate|]. simpl. intros H.
  rewrite (IH H). reflexivity.
Qed.

Lemma parse_no_slash s :
  no_slash s = true -> PurePosixPath.kept s = true ->
  PurePosixPath.parse s = ("", [s]).
Proof.
  intros Hs Hk. unfold PurePosixPath.parse.
  assert (PurePosixPath.splitroot s = ("", s)) as ->.
  { destruct s as [|a s]; [reflexivity|]. simpl in Hs |- *.
    destruct (Ascii.eqb a "/"); [discriminate | reflexivity]. }
  rewrite (split_no_slash s Hs). simpl. rewrite Hk. reflexivity.
Qed.

(** Joining a name without a separator appends one component. *)
Lemma path_parts_child p n :
  no_slash n = true -> PurePosixPath.kept n = true ->
  path_parts (PathDiv p n) = (fst (path_parts p), snd (path_parts p) ++ [n])%list.
Proof.
  intros Hs Hk. simpl. rewrite (parse_no_slash n Hs Hk). simpl.
  destruct (path_parts p). reflexivity.
Qed.

(** Joining a name that starts with the separator forgets the left
    operand. *)
Lemma path_parts_absolute p rest :
  path_parts (PathDiv p (String "/" rest))
  = path_parts (PathOf (String "/" rest)).
Proof.
  simpl. unfold PurePosixPath.parse.
  assert (exists root rel,
            PurePosixPath.splitroot (String "/" rest) = (root, rel)
            /\ String.eqb root "" = false) as (root & rel & -> & Hroot).
  { simpl. destruct rest as [|b r2]; [eauto|].
    destruct (Ascii.eqb b "/"); [|eauto].
    destruct r2 as [|c r3]; [eauto|]. destruct (Ascii.eqb c "/"); eauto. }
  rewrite Hroot. reflexivity.
Qed.

(** The name of a stored file is never empty and never a dot. *)
Lemma kept_file_name passport name :
  PurePosixPath.kept (passport ++ "_" ++ name) = true.
Proof.
  unfold PurePosixPath.kept. destruct passport as [|a p]; [reflexivity|].
  change (String a p ++ "_" ++ name)%string
    with (String a (p ++ "_" ++ name)).
  cbn [String.eqb negb andb]. destruct (Ascii.eqb a "."); [|reflexivity].
  destruct p; reflexivity.
Qed.

(** X18. When [download_one] returns a path, the path is the download
    directory joined with the passport, an underscore and a name, as
    [download_dir / f"{passport}_{name}"] makes it, and a file has been
    stored under that very path, by the save of the download or by the
    write of the body of the popup's response.  When passport and name
    hold no separator the file is that one entry of the download
    directory; a passport that starts with the separator makes the
    path absolute, whatever the download directory. *)
Theorem download_one_path (page : Page) (row : PinRow.t) (dir : Path)
    (w w' : world) (out : Path) :
  download_one page row dir w = (Ok (Some out), w') ->
  exists new name,
    adds w w' new
    /\ out = PathDiv dir (PinRow.passport row ++ "_" ++ name)
    /\ ((exists download v,
           In (Called (SaveAs download (path_str out)) (Ok v)) new)
        \/ (exists content v,
              In (Called (WriteBytes out content) (Ok v)) new))
    /\ (no_slash (PinRow.passport row ++ "_" ++ name) = true ->
        path_parts out
        = (fst (path_parts dir),
           (snd (path_parts dir)
            ++ [(PinRow.passport row ++ "_" ++ name)%string])%list))
    /\ (forall rest,
          PinRow.passport row = String "/" rest ->
          path_str out
          = path_str (PathOf (PinRow.passport row ++ "_" ++ name))).
Proof.
  intros H.
  destruct (download_one_saved page row dir w w' out H)
    as (new & name & Hadds & -> & Hstored).
  exists new, name. split; [exact Hadds|]. split; [reflexivity|].
  split; [exact Hstored|]. split.
  - intros Hs. apply path_parts_child; [exact Hs | apply kept_file_name].
  - intros rest ->. unfold path_str.
    change (String "/" rest ++ "_" ++ name)%string
      with (String "/" (rest ++ "_" ++ name)).
    rewrite path_parts_absolute. reflexivity.
Qed.

Lemma download_one_path_witness :
  exists new,
    adds (boot pdf_downloads)
      (snd (download_one sample_page sample_pin (PathOf "./downloads")
              (boot pdf_downloads))) new
    /\ (exists download v,
          In (Called (SaveAs download "downloads/P123_mdac.pdf") (Ok v)) new)
    /\ path_parts (PathDiv (PathOf "./downloads") "P123_mdac.pdf")
       = ("", ["downloads"; "P123_mdac.pdf"]).
Proof.
  destruct (download_one_path sample_page sample_pin (PathOf "./downloads")
              (boot pdf_downloads)
              (snd (download_one sample_page sample_pin (PathOf "./downloads")
                      (boot pdf_downloads)))
              (PathDiv (PathOf "./downloads") "P123_mdac.pdf"))
    as (new & name & Hadds & Hout & Hstored & Hchild & _);
    [vm_compute; reflexivity|].
  assert (name = "mdac.pdf") as -> by (vm_compute in Hout; congruence).
  exists new. split; [exact Hadds|]. split.
  - destruct Hstored as [Hsaved|(content & v & Hin)]; [exact Hsaved|].
    exfalso. unfold adds in Hadds.
    change (w_trace (boot pdf_downloads)) with (@nil event) in Hadds.
    rewrite app_nil_r in Hadds. rewrite <- Hadds in Hin.
    vm_compute in Hin. intuition discriminate.
  - apply Hchild. reflexivity.
Defined.

(** The download directory of the endpoints: a plain name is stored in
    it, a leading dot is dropped, and an absolute name leaves it. *)
Example download_dir_paths :
  path_str Main.DOWNLOAD_DIR = "downloads"
  /\ path_str Main.VIDEOS_DIR = "videos"
  /\ path_str (PathDiv Main.DOWNLOAD_DIR "P123_mdac.pdf")
     = "downloads/P123_mdac.pdf"
  /\ path_str (PathDiv Main.DOWNLOAD_DIR "/etc/P123_mdac.pdf")
     = "/etc/P123_mdac.pdf"
  /\ path_str (PathDiv Main.DOWNLOAD_DIR "../P123_mdac.pdf")
     = "downloads/../P123_mdac.pdf"
  /\ path_str (PathDiv (PathDiv Main.VIDEOS_DIR "P123") "trace.zip")
     = "videos/P123/trace.zip".
Proof. vm_compute. repeat split. Qed.

(** ** The endpoints *)

Lemma closes_app l1 l2 : closes (l1 ++ l2) = closes l1 + closes l2.
Proof.
  induction l1 as [|ev l1 IH]; [reflexivity|]. simpl.
  destruct ev as [| [] | |]; simpl; rewrite IH; reflexivity.
Qed.

Lemma closes_none l : Forall not_close_call l -> closes l = 0.
Proof.
  induction 1 as [|ev l Hev _ IH]; [reflexivity|].
  destruct ev as [| [] | |]; simpl in *; try assumption. contradiction.
Qed.

Lemma closes_served l : Forall is_served l -> closes l = 0.
Proof.
  intros H. apply closes_none. eapply Forall_impl; [exact H|].
  intros [] Hs; simpl in *; tauto.
Qed.

#[export] Instance adds_only_no_close_atomic :
  Atomic (adds_only not_close_call) not_close_call :=
  adds_only_atomic not_close_call (fun _ _ => I).

Lemma steps_assign_adds_only (Q : event -> Prop) a f p :
  Q (Assigned a f p) -> steps (adds_only Q) (assign a f p).
Proof.
  intros HQ w. exists [Assigned a f p]. split; [reflexivity|].
  constructor; [exact HQ | constructor].
Qed.

Lemma steps_new_artifacts_adds_only (Q : event -> Prop) x :
  steps (adds_only Q) (new_artifacts x).
Proof. intros w. exists []. split; [reflexivity | constructor]. Qed.

Lemma open_context_no_close cfg download_dir headless record_video_dir :
  steps (adds_only not_close_call)
    (open_context cfg download_dir headless record_video_dir).
Proof.
  pose proof (steps_new_artifacts_adds_only not_close_call) as Hnew.
  unfold open_context, _attach_listeners. frame.
Qed.

Lemma register_one_no_close cfg page row gate_token pause :
  steps (adds_only not_close_call)
    (register_one cfg page row gate_token pause).
Proof.
  unfold register_one, register_fill, register_gate, register_submit,
    navigate_safe, _screenshot, _fill_if_value, _select_if_value,
    set_date_by_id, _extract_region_code.
  frame.
Qed.

Lemma download_one_no_close page row dir :
  steps (adds_only not_close_call) (download_one page row dir).
Proof.
  unfold download_one, download_lookup, download_direct, download_popup,
    navigate_safe, _screenshot, click_if_exists.
  frame.
Qed.

(** The finalizer closes the context once, and leaves the trace path
    of the artifacts object alone or sets it to [trace.zip] in the
    recording directory. *)
Lemma finalize_closes_once cfg context page a record_dir w :
  exists w' new,
    _finalize_artifacts cfg context page a record_dir w = (Ok a, w')
    /\ adds w w' new /\ closes new = 1
    /\ forall x,
         w_artifacts w !! a = Some x ->
         exists x',
           w_artifacts w' !! a = Some x'
           /\ (trace_path x' = trace_path x
               \/ exists d,
                    record_dir = Some d
                    /\ trace_path x' = Some (PathDiv d "trace.zip")).
Proof.
  pose proof (fun a f p =>
    steps_assign_adds_only not_close_call a f p I) as Hassign.
  destruct (finalize_run cfg context page a record_dir w)
    as (w' & ? & ? & ? & ? & ? & tp & vp & Hrun & _ & _ & _ & Harts & Htp & _).
  exists w'. revert Hrun.
  unfold _finalize_artifacts. rewrite bind_run.
  assert (steps (adds_only not_close_call)
            (finalize_trace cfg context a record_dir)) as S1
    by (unfold finalize_trace; frame).
  destruct (S1 w) as (l1 & H1 & Q1).
  destruct (finalize_trace_run cfg context a record_dir w)
    as (w1 & ? & ? & R1 & _).
  rewrite R1 in H1 |- *. simpl in H1. cbn beta iota.
  rewrite bind_run.
  destruct (finalize_close_run context w1) as (rc & l2 & w2 & R2 & H2 & F2 & _).
  rewrite R2. cbn beta iota. rewrite bind_run.
  assert (steps (adds_only not_close_call) (finalize_video page a)) as S3
    by (unfold finalize_video; frame).
  destruct (S3 w2) as (l3 & H3 & Q3).
  destruct (finalize_video_run page a w2) as (w3 & ? & ? & ? & R3 & _).
  rewrite R3 in H3 |- *. simpl in H3. cbn beta iota.
  intros [= <-].
  eexists. split; [reflexivity|].
  split; [exact (adds_trans _ _ _ _ _ (adds_trans _ _ _ _ _ H1 H2) H3)|].
  split.
  { rewrite !closes_app. rewrite (closes_none _ Q1), (closes_none _ Q3).
    destruct rc; simpl; rewrite (closes_served _ F2); reflexivity. }
  intros x' Hx. eexists. split.
  { rewrite Harts. erewrite lookup_assign_opt; [reflexivity|].
    apply lookup_assign_opt, Hx. }
  destruct record_dir as [d|]; [destruct (RECORD_TRACE cfg)|].
  - destruct Htp as (rs & ? & _ & _ & ->).
    destruct rs; [right; exists d | left]; destruct vp; auto.
  - destruct Htp as [_ ->]. left. destruct vp; reflexivity.
  - destruct Htp as [_ ->]. left. destruct vp; reflexivity.
Qed.

(** The row's artifacts object between the opening of the session and
    its finalization: fresh, and without a trace path. *)
Lemma session_artifacts cfg download_dir headless record_video_dir w context
    page a w1 w2 :
  open_context cfg download_dir headless record_video_dir w
  = (Ok (context, page, a), w1) ->
  same_artifacts w1 w2 ->
  exists x, w_artifacts w2 !! a = Some x /\ trace_path x = None.
Proof.
  intros Hopen Hsame.
  apply open_context_run in Hopen as (x & Harts & -> & _ & Ht & _).
  exists x. split; [|exact Ht]. rewrite Hsame, Harts.
  rewrite lookup_app_r by lia. rewrite Nat.sub_diag. reflexivity.
Qed.

Lemma register_row_raises cfg uuid4_hex record headless pause idx total row :
  raises_at is_launch_call
    (Main.register_row cfg uuid4_hex record headless pause idx total row).
Proof.
  pose proof open_context_raises as Hopen.
  unfold Main.register_row. raising.
Qed.

Lemma download_row_raises cfg record headless idx total row :
  raises_at is_launch_call
    (Main.download_row cfg record headless idx total row).
Proof.
  pose proof open_context_raises as Hopen.
  unfold Main.download_row. raising.
Qed.

(** One row of [/register]: the session is opened, the row is
    registered and the session is finalized; a failure of the
    registration ends in an error record, after the session has been
    finalized all the same. *)
Lemma register_row_run cfg uuid4_hex record headless pause idx total row w :
  exists res w' new,
    Main.register_row cfg uuid4_hex record headless pause idx total row w
    = (res, w')
    /\ adds w w' new
    /\ match res with
       | Ok r =>
           Main.register_passport r = RegisterRow.passport row
           /\ paused_as pause r /\ register_trace record r /\ closes new = 1
       | Raise _ => closes new = 0
       end.
Proof.
  unfold Main.register_row. cbn zeta.
  set (video_dir := if record then _ else _).
  rewrite bind_run. unfold Main.log at 1, emit. cbn beta iota.
  set (line := Log Info _ None). set (w0 := push line w).
  assert (adds w w0 [line]) as H0 by reflexivity. clearbody w0.
  rewrite bind_run.
  destruct (open_context_no_close cfg None headless video_dir w0)
    as (l1 & H1 & Q1).
  destruct (open_context cfg None headless video_dir w0)
    as [[[[context page] a]|e] w1] eqn:Eo; simpl in H1.
  2: { exists (Raise e), w1, (l1 ++ [line])%list. split; [reflexivity|].
       split; [eapply adds_trans; eassumption|].
       rewrite closes_app, (closes_none _ Q1). reflexivity. }
  cbn beta iota. unfold try_except at 1. rewrite bind_run.
  set (token := if pause then Some (take_str 8 (uuid4_hex idx)) else None).
  destruct (register_one_no_close cfg page row token pause w1)
    as (l2 & H2 & Q2).
  pose proof (register_one_steps (R := same_artifacts) cfg page row token
                pause w1) as Hsame.
  destruct (register_one cfg page row token pause w1) as [[info|e] w2];
    simpl in H2, Hsame; cbn beta iota.
  - rewrite bind_run.
    destruct (finalize_closes_once cfg context page a video_dir w2)
      as (w3 & l3 & -> & H3 & C3 & Harts).
    destruct (session_artifacts _ _ _ _ _ _ _ _ _ w2 Eo Hsame)
      as (x & Hx & Hnone).
    destruct (Harts x Hx) as (x' & Hx' & Htrace).
    cbn beta iota. rewrite bind_run. unfold Main.read_artifacts at 1.
    cbn beta iota. rewrite ret_run. rewrite Hx'. cbn [default from_option id].
    eexists (Ok _), w3, (l3 ++ l2 ++ l1 ++ [line])%list.
    split; [reflexivity|]. split.
    { eapply adds_trans; [|exact H3]. eapply adds_trans; [|exact H2].
      eapply adds_trans; eassumption. }
    split; [reflexivity|]. split.
    + subst token. destruct pause; simpl.
      * split; [reflexivity|]. split; [split; eauto|].
        intros t [= <-]. apply take_str_length.
      * split; [reflexivity|]. split; [split; [intros [? [=]]|discriminate]|].
        intros t [=].
    + split.
      { simpl. unfold trace_under. subst video_dir.
        destruct Htrace as [->|(d & Hd & ->)].
        - rewrite Hnone. left. reflexivity.
        - right. exists d. split; [|reflexivity].
          destruct record; [exact Hd | discriminate Hd]. }
      rewrite !closes_app, C3, (closes_none _ Q2), (closes_none _ Q1).
      reflexivity.
  - rewrite bind_run. unfold try_except at 1. rewrite bind_run.
    destruct (finalize_closes_once cfg context page a video_dir w2)
      as (w3 & l3 & -> & H3 & C3 & _).
    cbn beta iota. rewrite !ret_run. cbn beta iota.
    eexists (Ok _), w3, (l3 ++ l2 ++ l1 ++ [line])%list.
    split; [reflexivity|]. split.
    { eapply adds_trans; [|exact H3]. eapply adds_trans; [|exact H2].
      eapply adds_trans; eassumption. }
    split; [reflexivity|]. split; [exact I|]. split; [exact I|].
    rewrite !closes_app, C3, (closes_none _ Q2), (closes_none _ Q1).
    reflexivity.
Qed.

Lemma register_loop_run cfg uuid4_hex record headless pause total todo :
  forall idx results w,
    exists res w' new,
      Main.register_loop cfg uuid4_hex record headless pause idx total todo
        results w = (res, w')
      /\ adds w w' new
      /\ closes new <= length todo
      /\ match res with
         | Ok out =>
             exists rs,
               out = (results ++ rs)%list
               /\ map Main.register_passport rs
                  = map RegisterRow.passport todo
               /\ Forall (paused_as pause) rs
               /\ Forall (register_trace record) rs
               /\ closes new = length todo
         | Raise _ => True
         end.
Proof.
  induction todo as [|row todo IH]; intros idx results w; simpl.
  - exists (Ok results), w, []. split; [reflexivity|].
    split; [reflexivity|]. split; [simpl; lia|].
    exists []. rewrite app_nil_r. repeat split; constructor.
  - rewrite bind_run.
    destruct (register_row_run cfg uuid4_hex record headless pause idx total
                row w) as (res1 & w1 & l1 & -> & H1 & Hrow).
    destruct res1 as [r|e]; cbn beta iota.
    + destruct Hrow as (Hp & Hr & Ht & C1).
      destruct (IH (S idx) (results ++ [r])%list w1)
        as (res & w' & l2 & -> & H2 & C2 & Hrest).
      exists res, w', (l2 ++ l1)%list. split; [reflexivity|].
      split; [eapply adds_trans; eassumption|].
      rewrite closes_app, C1. split; [lia|].
      destruct res as [out|]; [|exact I].
      destruct Hrest as (rs & -> & Hmap & Hall & Hall' & C2').
      exists (r :: rs). split; [rewrite <- app_assoc; reflexivity|].
      split; [simpl; congruence|]. split; [constructor; assumption|].
      split; [constructor; assumption | lia].
    + exists (Raise e), w1, l1. split; [reflexivity|].
      split; [assumption|]. split; [lia | exact I].
Qed.

Lemma register_loop_raises cfg uuid4_hex record headless pause total todo :
  forall idx results,
    raises_at is_launch_call
      (Main.register_loop cfg uuid4_hex record headless pause idx total todo
         results).
Proof.
  induction todo as [|row todo IH]; intros idx results; simpl.
  - apply raises_at_ret.
  - apply raises_at_bind; [apply register_row_raises|]. intros r. apply IH.
Qed.

(** X19. The answer of [/register] has one record for every row, in the
    order of the rows and with the passport of its row, whether the
    row was registered or failed; it counts them; and every record of
    a registered row tells whether the row was paused, with a token
    exactly when it was.  Without an explicit choice rows are paused
    exactly when the browser is not headless. *)
Theorem register_rows_records (cfg : Config) (uuid4_hex : nat -> string)
    (rows : list RegisterRow.t) (record : bool) (headless pause : option bool)
    (w w' : world) (resp : Main.Response Main.RegisterResult) :
  Main.register_rows cfg uuid4_hex rows record headless pause w
  = (Ok resp, w') ->
  Main.ok resp = true
  /\ Main.count resp = length rows
  /\ map Main.register_passport (Main.rows resp)
     = map RegisterRow.passport rows
  /\ Forall
       (paused_as
          (default (negb (default (HEADLESS_DEFAULT cfg) headless)) pause))
       (Main.rows resp).
Proof.
  unfold Main.register_rows, Main.default_pause. intros H.
  apply bind_ok_inv in H as (out & w1 & Hloop & H). injection H as <- <-.
  simpl.
  set (p := default (negb (default (HEADLESS_DEFAULT cfg) headless)) pause)
    in *.
  destruct (register_loop_run cfg uuid4_hex record headless p (length rows)
              rows 1 [] w) as (res & w2 & new & Hrun & _ & _ & Hout).
  rewrite Hloop in Hrun. injection Hrun as <- <-.
  destruct Hout as (rs & -> & Hmap & Hall & _ & _). simpl.
  split; [reflexivity|]. split; [|split; assumption].
  rewrite <- (length_map Main.register_passport), Hmap. apply length_map.
Qed.

Lemma register_rows_records_witness :
  let resp :=
    {| Main.ok := true; Main.count := 1;
       Main.rows := [Main.Registered "P123" None false "None" None None] |} in
  Main.ok resp = true
  /\ Main.count resp = length [sample_row]
  /\ map Main.register_passport (Main.rows resp)
     = map RegisterRow.passport [sample_row]
  /\ Forall (paused_as false) (Main.rows resp).
Proof.
  intros resp.
  apply (register_rows_records default_config (fun _ => "0123456789abcdef")
           [sample_row] false None None (boot quiet)
           (snd (Main.register_rows default_config
                   (fun _ => "0123456789abcdef") [sample_row] false None None
                   (boot quiet)))).
  vm_compute. reflexivity.
Defined.

Lemma download_row_run cfg record headless idx total row w :
  exists res w' new,
    Main.download_row cfg record headless idx total row w = (res, w')
    /\ adds w w' new
    /\ match res with
       | Ok r =>
           Main.download_passport r = PinRow.passport row
           /\ stored_in Main.DOWNLOAD_DIR r /\ download_trace record r
           /\ closes new = 1
       | Raise _ => closes new = 0
       end.
Proof.
  unfold Main.download_row. cbn zeta.
  set (video_dir := if record then _ else _).
  rewrite bind_run. unfold Main.log at 1, emit. cbn beta iota.
  set (line := Log Info _ None). set (w0 := push line w).
  assert (adds w w0 [line]) as H0 by reflexivity. clearbody w0.
  rewrite bind_run.
  destruct (open_context_no_close cfg (Some Main.DOWNLOAD_DIR) headless
              video_dir w0) as (l1 & H1 & Q1).
  destruct (open_context cfg (Some Main.DOWNLOAD_DIR) headless video_dir w0)
    as [[[[context page] a]|e] w1] eqn:Eo; simpl in H1.
  2: { exists (Raise e), w1, (l1 ++ [line])%list. split; [reflexivity|].
       split; [eapply adds_trans; eassumption|].
       rewrite closes_app, (closes_none _ Q1). reflexivity. }
  cbn beta iota. unfold try_except at 1. rewrite bind_run.
  destruct (download_one_no_close page row Main.DOWNLOAD_DIR w1)
    as (l2 & H2 & Q2).
  pose proof (download_one_steps (R := same_artifacts) page row
                Main.DOWNLOAD_DIR w1) as Hsame.
  destruct (download_one page row Main.DOWNLOAD_DIR w1) as [[pdf|e] w2] eqn:Ed;
    simpl in H2, Hsame; cbn beta iota.
  - rewrite bind_run.
    destruct (finalize_closes_once cfg context page a video_dir w2)
      as (w3 & l3 & -> & H3 & C3 & Harts).
    destruct (session_artifacts _ _ _ _ _ _ _ _ _ w2 Eo Hsame)
      as (x & Hx & Hnone).
    destruct (Harts x Hx) as (x' & Hx' & Htrace).
    cbn beta iota. rewrite bind_run. unfold Main.read_artifacts at 1.
    cbn beta iota. rewrite ret_run. rewrite Hx'. cbn [default from_option id].
    eexists (Ok _), w3, (l3 ++ l2 ++ l1 ++ [line])%list.
    split; [reflexivity|]. split.
    { eapply adds_trans; [|exact H3]. eapply adds_trans; [|exact H2].
      eapply adds_trans; eassumption. }
    split; [reflexivity|]. split.
    + simpl. split.
      * rewrite bool_decide_eq_true, fmap_is_Some. reflexivity.
      * intros f Hf. destruct pdf as [out|]; [|discriminate Hf].
        injection Hf as <-.
        destruct (download_one_saved _ _ _ _ _ _ Ed) as (? & name & _ & -> & _).
        exists name. reflexivity.
    + split.
      { simpl. unfold trace_under. subst video_dir.
        destruct Htrace as [->|(d & Hd & ->)].
        - rewrite Hnone. left. reflexivity.
        - right. exists d. split; [|reflexivity].
          destruct record; [exact Hd | discriminate Hd]. }
      rewrite !closes_app, C3, (closes_none _ Q2), (closes_none _ Q1).
      reflexivity.
  - rewrite bind_run. unfold try_except at 1. rewrite bind_run.
    destruct (finalize_closes_once cfg context page a video_dir w2)
      as (w3 & l3 & -> & H3 & C3 & _).
    cbn beta iota. rewrite !ret_run. cbn beta iota.
    eexists (Ok _), w3, (l3 ++ l2 ++ l1 ++ [line])%list.
    split; [reflexivity|]. split.
    { eapply adds_trans; [|exact H3]. eapply adds_trans; [|exact H2].
      eapply adds_trans; eassumption. }
    split; [reflexivity|]. split; [exact I|]. split; [exact I|].
    rewrite !closes_app, C3, (closes_none _ Q2), (closes_none _ Q1).
    reflexivity.
Qed.

Lemma download_loop_run cfg record headless total todo :
  forall idx results w,
    exists res w' new,
      Main.download_loop cfg record headless idx total todo results w
      = (res, w')
      /\ adds w w' new
      /\ closes new <= length todo
      /\ match res with
         | Ok out =>
             exists rs,
               out = (results ++ rs)%list
               /\ map Main.download_passport rs = map PinRow.passport todo
               /\ Forall (stored_in Main.DOWNLOAD_DIR) rs
               /\ Forall (download_trace record) rs
               /\ closes new = length todo
         | Raise _ => True
         end.
Proof.
  induction todo as [|row todo IH]; intros idx results w; simpl.
  - exists (Ok results), w, []. split; [reflexivity|].
    split; [reflexivity|]. split; [simpl; lia|].
    exists []. rewrite app_nil_r. repeat split; constructor.
  - rewrite bind_run.
    destruct (download_row_run cfg record headless idx total row w)
      as (res1 & w1 & l1 & -> & H1 & Hrow).
    destruct res1 as [r|e]; cbn beta iota.
    + destruct Hrow as (Hp & Hr & Ht & C1).
      destruct (IH (S idx) (results ++ [r])%list w1)
        as (res & w' & l2 & -> & H2 & C2 & Hrest).
      exists res, w', (l2 ++ l1)%list. split; [reflexivity|].
      split; [eapply adds_trans; eassumption|].
      rewrite closes_app, C1. split; [lia|].
      destruct res as [out|]; [|exact I].
      destruct Hrest as (rs & -> & Hmap & Hall & Hall' & C2').
      exists (r :: rs). split; [rewrite <- app_assoc; reflexivity|].
      split; [simpl; congruence|]. split; [constructor; assumption|].
      split; [constructor; assumption | lia].
    + exists (Raise e), w1, l1. split; [reflexivity|].
      split; [assumption|]. split; [lia | exact I].
Qed.

Lemma download_loop_raises cfg record headless total todo :
  forall idx results,
    raises_at is_launch_call
      (Main.download_loop cfg record headless idx total todo results).
Proof.
  induction todo as [|row todo IH]; intros idx results; simpl.
  - apply raises_at_ret.
  - apply raises_at_bind; [apply download_row_raises|]. intros r. apply IH.
Qed.

(** X20. The answer of [/download] has one record for every row, in the
    order of the rows and with the passport of its row, and it counts
    them; a record is flagged as saved exactly when it names a file,
    and the file it names is the text of the download directory joined
    with the passport, an underscore and a name. *)
Theorem download_rows_records (cfg : Config) (rows : list PinRow.t)
    (record : bool) (headless : option bool) (w w' : world)
    (resp : Main.Response Main.DownloadResult) :
  Main.download_rows cfg rows record headless w = (Ok resp, w') ->
  Main.ok resp = true
  /\ Main.count resp = length rows
  /\ map Main.download_passport (Main.rows resp) = map PinRow.passport rows
  /\ Forall (stored_in Main.DOWNLOAD_DIR) (Main.rows resp).
Proof.
  unfold Main.download_rows. intros H.
  apply bind_ok_inv in H as (out & w1 & Hloop & H). injection H as <- <-.
  simpl.
  destruct (download_loop_run cfg record headless (length rows) rows 1 [] w)
    as (res & w2 & new & Hrun & _ & _ & Hout).
  rewrite Hloop in Hrun. injection Hrun as <- <-.
  destruct Hout as (rs & -> & Hmap & Hall & _ & _). simpl.
  split; [reflexivity|]. split; [|split; assumption].
  rewrite <- (length_map Main.download_passport), Hmap. apply length_map.
Qed.

Lemma download_rows_records_witness :
  let resp :=
    {| Main.ok := true; Main.count := 1;
       Main.rows := [Main.Downloaded "P123" true
                       (Some "downloads/P123_mdac.pdf") None None] |} in
  Main.ok resp = true
  /\ Main.count resp = length [sample_pin]
  /\ map Main.download_passport (Main.rows resp)
     = map PinRow.passport [sample_pin]
  /\ Forall (stored_in Main.DOWNLOAD_DIR) (Main.rows resp).
Proof.
  intros resp.
  apply (download_rows_records default_config [sample_pin] false None
           (boot pdf_downloads)
           (snd (Main.download_rows default_config [sample_pin] false None
                   (boot pdf_downloads)))).
  vm_compute. reflexivity.
Defined.

(** X21. Each endpoint finalizes every session it has opened: when it
    answers, the context of each row has been closed once, whether the
    row succeeded or failed, and when it is cut short no more contexts
    have been closed than rows were given. *)
Theorem sessions_closed_once (cfg : Config) (uuid4_hex : nat -> string)
    (record : bool) (headless : option bool) (w : world) :
  (forall rows pause,
     exists res w' new,
       Main.register_rows cfg uuid4_hex rows record headless pause w
       = (res, w')
       /\ adds w w' new
       /\ closes new <= length rows
       /\ (forall resp, res = Ok resp -> closes new = length rows))
  /\ (forall rows,
        exists res w' new,
          Main.download_rows cfg rows record headless w = (res, w')
          /\ adds w w' new
          /\ closes new <= length rows
          /\ (forall resp, res = Ok resp -> closes new = length rows)).
Proof.
  split.
  - intros rows pause. unfold Main.register_rows. rewrite bind_run.
    destruct (register_loop_run cfg uuid4_hex record headless
                (default (Main.default_pause cfg headless) pause)
                (length rows) rows 1 [] w)
      as (res & w' & new & -> & Hadds & Hle & Hres).
    destruct res as [out|e]; cbn beta iota.
    + eexists (Ok _), w', new. split; [reflexivity|].
      split; [assumption|]. split; [assumption|]. intros _ _.
      destruct Hres as (rs & _ & _ & _ & _ & Hc). exact Hc.
    + exists (Raise e), w', new. split; [reflexivity|].
      split; [assumption|]. split; [assumption|]. intros resp [=].
  - intros rows. unfold Main.download_rows. rewrite bind_run.
    destruct (download_loop_run cfg record headless (length rows) rows 1 [] w)
      as (res & w' & new & -> & Hadds & Hle & Hres).
    destruct res as [out|e]; cbn beta iota.
    + eexists (Ok _), w', new. split; [reflexivity|].
      split; [assumption|]. split; [assumption|]. intros _ _.
      destruct Hres as (rs & _ & _ & _ & _ & Hc). exact Hc.
    + exists (Raise e), w', new. split; [reflexivity|].
      split; [assumption|]. split; [assumption|]. intros resp [=].
Qed.

(** X22. A failure inside a row never aborts an endpoint: the only
    exceptions that escape [/register] and [/download] are those of the
    calls that bring a session up, and then the failed call is the last
    thing that happened. *)
Theorem endpoints_escape_at_launch (cfg : Config) (uuid4_hex : nat -> string)
    (record : bool) (headless : option bool) (w w' : world) (e : exn) :
  (forall rows pause,
     Main.register_rows cfg uuid4_hex rows record headless pause w
     = (Raise e, w') ->
     exists c rest,
       w_trace w' = Called c (Raise e) :: rest /\ is_launch_call c)
  /\ (forall rows,
        Main.download_rows cfg rows record headless w = (Raise e, w') ->
        exists c rest,
          w_trace w' = Called c (Raise e) :: rest /\ is_launch_call c).
Proof.
  split.
  - intros rows pause.
    apply (raises_at_bind is_launch_call);
      [apply register_loop_raises | intros; apply raises_at_ret].
  - intros rows.
    apply (raises_at_bind is_launch_call);
      [apply download_loop_raises | intros; apply raises_at_ret].
Qed.

Lemma endpoints_escape_at_launch_witness :
  exists c rest,
    w_trace (snd (Main.register_rows default_config (fun _ => "0123456789abcdef")
                    [sample_row] false None None (boot launch_fails)))
    = Called c (Raise (Exn "Error" "Executable doesn't exist")) :: rest
    /\ is_launch_call c.
Proof.
  apply (proj1 (endpoints_escape_at_launch default_config
                  (fun _ => "0123456789abcdef") false None (boot launch_fails)
                  _ (Exn "Error" "Executable doesn't exist"))
           [sample_row] None).
  vm_compute. reflexivity.
Defined.

Lemma sessions_closed_once_witness :
  exists res w' new,
    Main.register_rows default_config (fun _ => "0123456789abcdef")
      [sample_row] false None None (boot quiet) = (res, w')
    /\ adds (boot quiet) w' new
    /\ closes new = 1.
Proof.
  destruct (proj1 (sessions_closed_once default_config
                     (fun _ => "0123456789abcdef") false None (boot quiet))
              [sample_row] None)
    as (res & w' & new & Hrun & Hadds & _ & Hok).
  exists res, w', new. split; [exact Hrun|]. split; [exact Hadds|].
  destruct res as [resp|e]; [apply (Hok resp); reflexivity|].
  exfalso. vm_compute in Hrun. discriminate Hrun.
Defined.

Lemma assign_opt_last f o (l : list ContextArtifacts) x :
  assign_opt (length l) f o (l ++ [x])
  = (l ++ [match o with Some p => setattr x f p | None => x end])%list.
Proof.
  destruct o as [p|]; [|reflexivity]. unfold assign_opt.
  rewrite <- (Nat.add_0_r (length l)). rewrite alter_app_r. reflexivity.
Qed.

(** What the finalizer leaves of the artifacts object of a session that
    has just been opened, when it is the newest object of the heap. *)
Lemma finalize_last cfg context page record_dir w l x :
  w_artifacts w = (l ++ [x])%list ->
  trace_path x = None ->
  exists w' x',
    _finalize_artifacts cfg context page (length l) record_dir w
    = (Ok (length l), w')
    /\ w_artifacts w' = (l ++ [x'])%list
    /\ w_artifacts w' !! length l = Some x'
    /\ (trace_path x' = None
        \/ exists d,
             record_dir = Some d
             /\ trace_path x' = Some (PathDiv d "trace.zip")).
Proof.
  intros Harts Hnone.
  destruct (finalize_run cfg context page (length l) record_dir w)
    as (w' & ? & ? & ? & ? & ? & tp & vp & Hrun & _ & _ & _ & A & Htp & _).
  rewrite Harts, !assign_opt_last in A.
  eexists w', _. split; [exact Hrun|]. split; [exact A|]. split.
  { rewrite A, lookup_app_r by lia. rewrite Nat.sub_diag. reflexivity. }
  destruct record_dir as [d|]; [destruct (RECORD_TRACE cfg)|].
  - destruct Htp as (rs & ? & _ & _ & ->).
    destruct rs; [right; exists d | left]; destruct vp; auto.
  - destruct Htp as [_ ->]. left. destruct vp; exact Hnone.
  - destruct Htp as [_ ->]. left. destruct vp; exact Hnone.
Qed.

(** One row of [/register] adds one artifacts object to the heap, and
    the record of the row reads its paths off that object. *)
Lemma register_row_heap cfg uuid4_hex record headless pause idx total row w :
  exists res w',
    Main.register_row cfg uuid4_hex record headless pause idx total row w
    = (res, w')
    /\ forall r, res = Ok r ->
         exists x,
           w_artifacts w' = (w_artifacts w ++ [x])%list
           /\ register_reads record x r.
Proof.
  unfold Main.register_row. cbn zeta.
  set (video_dir := if record then _ else _).
  rewrite bind_run. unfold Main.log at 1, emit. cbn beta iota.
  set (line := Log Info _ None). set (w0 := push line w).
  assert (w_artifacts w0 = w_artifacts w) as A0 by reflexivity. clearbody w0.
  rewrite bind_run.
  destruct (open_context cfg None headless video_dir w0)
    as [[[[context page] a]|e] w1] eqn:Eo.
  2: { exists (Raise e), w1. split; [reflexivity|]. intros r [=]. }
  apply open_context_run in Eo as (x0 & A1 & -> & _ & Hnone & _).
  rewrite A0 in *.
  cbn beta iota. unfold try_except at 1. rewrite bind_run.
  set (token := if pause then Some (take_str 8 (uuid4_hex idx)) else None).
  pose proof (register_one_steps (R := same_artifacts) cfg page row token
                pause w1) as Hsame.
  destruct (register_one cfg page row token pause w1) as [[info|e] w2];
    simpl in Hsame; cbn beta iota.
  - rewrite bind_run.
    destruct (finalize_last cfg context page video_dir w2 (w_artifacts w) x0)
      as (w3 & x' & -> & A3 & L3 & Htrace);
      [rewrite Hsame; exact A1 | exact Hnone |].
    cbn beta iota. rewrite bind_run. unfold Main.read_artifacts at 1.
    cbn beta iota. rewrite ret_run. rewrite L3. cbn [default from_option id].
    eexists (Ok _), w3. split; [reflexivity|]. intros r [= <-].
    exists x'. split; [exact A3|]. simpl. do 2 (split; [reflexivity|]).
    destruct Htrace as [Ht|(d & Hd & Ht)]; [left; exact Ht | right].
    subst video_dir. destruct record; [|discriminate Hd].
    injection Hd as <-. split; [reflexivity | exact Ht].
  - rewrite bind_run. unfold try_except at 1. rewrite bind_run.
    destruct (finalize_last cfg context page video_dir w2 (w_artifacts w) x0)
      as (w3 & x' & -> & A3 & _);
      [rewrite Hsame; exact A1 | exact Hnone |].
    cbn beta iota. rewrite !ret_run. cbn beta iota.
    eexists (Ok _), w3. split; [reflexivity|]. intros r [= <-].
    exists x'. split; [exact A3 | exact I].
Qed.

Lemma register_loop_heap cfg uuid4_hex record headless pause total todo :
  forall idx results w out w',
    Main.register_loop cfg uuid4_hex record headless pause idx total todo
      results w = (Ok out, w') ->
    exists rs xs,
      out = (results ++ rs)%list
      /\ w_artifacts w' = (w_artifacts w ++ xs)%list
      /\ Forall2 (register_reads record) xs rs.
Proof.
  induction todo as [|row todo IH]; intros idx results w out w' H;
    simpl in H.
  - injection H as <- <-. exists [], []. rewrite !app_nil_r.
    repeat split. constructor.
  - apply bind_ok_inv in H as (r & w1 & Hr & H).
    destruct (register_row_heap cfg uuid4_hex record headless pause idx total
                row w) as (res & w1' & Hrun & Hrow).
    rewrite Hr in Hrun. injection Hrun as <- <-.
    destruct (Hrow r eq_refl) as (x & A1 & Hx).
    apply IH in H as (rs & xs & -> & A2 & Hxs).
    exists (r :: rs), (x :: xs).
    split; [rewrite <- app_assoc; reflexivity|].
    split; [rewrite A2, A1, <- app_assoc; reflexivity|].
    constructor; assumption.
Qed.

Lemma download_row_heap cfg record headless idx total row w :
  exists res w',
    Main.download_row cfg record headless idx total row w = (res, w')
    /\ forall r, res = Ok r ->
         exists x,
           w_artifacts w' = (w_artifacts w ++ [x])%list
           /\ download_reads record x r.
Proof.
  unfold Main.download_row. cbn zeta.
  set (video_dir := if record then _ else _).
  rewrite bind_run. unfold Main.log at 1, emit. cbn beta iota.
  set (line := Log Info _ None). set (w0 := push line w).
  assert (w_artifacts w0 = w_artifacts w) as A0 by reflexivity. clearbody w0.
  rewrite bind_run.
  destruct (open_context cfg (Some Main.DOWNLOAD_DIR) headless video_dir w0)
    as [[[[context page] a]|e] w1] eqn:Eo.
  2: { exists (Raise e), w1. split; [reflexivity|]. intros r [=]. }
  apply open_context_run in Eo as (x0 & A1 & -> & _ & Hnone & _).
  rewrite A0 in *.
  cbn beta iota. unfold try_except at 1. rewrite bind_run.
  pose proof (download_one_steps (R := same_artifacts) page row
                Main.DOWNLOAD_DIR w1) as Hsame.
  destruct (download_one page row Main.DOWNLOAD_DIR w1) as [[pdf|e] w2];
    simpl in Hsame; cbn beta iota.
  - rewrite bind_run.
    destruct (finalize_last cfg context page video_dir w2 (w_artifacts w) x0)
      as (w3 & x' & -> & A3 & L3 & Htrace);
      [rewrite Hsame; exact A1 | exact Hnone |].
    cbn beta iota. rewrite bind_run. unfold Main.read_artifacts at 1.
    cbn beta iota. rewrite ret_run. rewrite L3. cbn [default from_option id].
    eexists (Ok _), w3. split; [reflexivity|]. intros r [= <-].
    exists x'. split; [exact A3|]. simpl. do 2 (split; [reflexivity|]).
    destruct Htrace as [Ht|(d & Hd & Ht)]; [left; exact Ht | right].
    subst video_dir. destruct record; [|discriminate Hd].
    injection Hd as <-. split; [reflexivity | exact Ht].
  - rewrite bind_run. unfold try_except at 1. rewrite bind_run.
    destruct (finalize_last cfg context page video_dir w2 (w_artifacts w) x0)
      as (w3 & x' & -> & A3 & _);
      [rewrite Hsame; exact A1 | exact Hnone |].
    cbn beta iota. rewrite !ret_run. cbn beta iota.
    eexists (Ok _), w3. split; [reflexivity|]. intros r [= <-].
    exists x'. split; [exact A3 | exact I].
Qed.

Lemma download_loop_heap cfg record headless total todo :
  forall idx results w out w',
    Main.download_loop cfg record headless idx total todo results w
    = (Ok out, w') ->
    exists rs xs,
      out = (results ++ rs)%list
      /\ w_artifacts w' = (w_artifacts w ++ xs)%list
      /\ Forall2 (download_reads record) xs rs.
Proof.
  induction todo as [|row todo IH]; intros idx results w out w' H;
    simpl in H.
  - injection H as <- <-. exists [], []. rewrite !app_nil_r.
    repeat split. constructor.
  - apply bind_ok_inv in H as (r & w1 & Hr & H).
    destruct (download_row_heap cfg record headless idx total row w)
      as (res & w1' & Hrun & Hrow).
    rewrite Hr in Hrun. injection Hrun as <- <-.
    destruct (Hrow r eq_refl) as (x & A1 & Hx).
    apply IH in H as (rs & xs & -> & A2 & Hxs).
    exists (r :: rs), (x :: xs).
    split; [rewrite <- app_assoc; reflexivity|].
    split; [rewrite A2, A1, <- app_assoc; reflexivity|].
    constructor; assumption.
Qed.

(** X23. Every row of either endpoint adds one artifacts object to the
    heap, that of its own session, in the order of the rows, and the
    video and the trace that the record of a row names are read off
    that object as the finalizer left it.  The trace of the object is
    [trace.zip] in the recording directory of the row, which is named
    after the passport, or it is unset; a run that does not record
    names no trace. *)
Theorem records_name_the_trace (cfg : Config) (uuid4_hex : nat -> string)
    (record : bool) (headless : option bool) (w w' : world) :
  (forall rows pause resp,
     Main.register_rows cfg uuid4_hex rows record headless pause w
     = (Ok resp, w') ->
     Forall (register_trace record) (Main.rows resp)
     /\ exists xs,
          w_artifacts w' = (w_artifacts w ++ xs)%list
          /\ Forall2 (register_reads record) xs (Main.rows resp))
  /\ (forall rows resp,
        Main.download_rows cfg rows record headless w = (Ok resp, w') ->
        Forall (download_trace record) (Main.rows resp)
        /\ exists xs,
             w_artifacts w' = (w_artifacts w ++ xs)%list
             /\ Forall2 (download_reads record) xs (Main.rows resp)).
Proof.
  split.
  - intros rows pause resp H. unfold Main.register_rows in H.
    apply bind_ok_inv in H as (out & w1 & Hloop & H). injection H as <- <-.
    split.
    + destruct (register_loop_run cfg uuid4_hex record headless
                  (default (Main.default_pause cfg headless) pause)
                  (length rows) rows 1 [] w)
        as (res & w2 & new & Hrun & _ & _ & Hout).
      rewrite Hloop in Hrun. injection Hrun as <- <-.
      destruct Hout as (rs & -> & _ & _ & Hall & _). exact Hall.
    + apply register_loop_heap in Hloop as (rs & xs & -> & A & Hxs).
      exists xs. split; assumption.
  - intros rows resp H. unfold Main.download_rows in H.
    apply bind_ok_inv in H as (out & w1 & Hloop & H). injection H as <- <-.
    split.
    + destruct (download_loop_run cfg record headless (length rows) rows 1
                  [] w) as (res & w2 & new & Hrun & _ & _ & Hout).
      rewrite Hloop in Hrun. injection Hrun as <- <-.
      destruct Hout as (rs & -> & _ & _ & Hall & _). exact Hall.
    + apply download_loop_heap in Hloop as (rs & xs & -> & A & Hxs).
      exists xs. split; assumption.
Qed.

Lemma records_name_the_trace_witness :
  let trace := PathDiv (PathDiv Main.VIDEOS_DIR "P123") "trace.zip" in
  let row :=
    Main.Registered "P123" None false "None" None
      (Some "videos/P123/trace.zip") in
  Forall (register_trace true) [row]
  /\ exists x,
       w_artifacts
         (snd (Main.register_rows default_config
                 (fun _ => "0123456789abcdef") [sample_row] true None None
                 (boot quiet)))
       = [x]
       /\ trace_path x = Some trace
       /\ register_reads true x row.
Proof.
  intros trace row.
  destruct (proj1 (records_name_the_trace default_config
                     (fun _ => "0123456789abcdef") true None (boot quiet)
                     (snd (Main.register_rows default_config
                             (fun _ => "0123456789abcdef") [sample_row] true
                             None None (boot quiet))))
              [sample_row] None
              {| Main.ok := true; Main.count := 1; Main.rows := [row] |})
    as (Hall & xs & Hheap & Hreads); [vm_compute; reflexivity|].
  split; [exact Hall|].
  destruct xs as [|x [|y xs]];
    [apply Forall2_length in Hreads; discriminate Hreads | |
     apply Forall2_length in Hreads; discriminate Hreads].
  exists x. change (w_artifacts (boot quiet)) with (@nil ContextArtifacts)
    in Hheap.
  split; [exact Hheap|]. split.
  - pose proof Hheap as Hx. vm_compute in Hx. injection Hx as <-.
    reflexivity.
  - apply Forall2_cons_1 in Hreads as [Hx _]. exact Hx.
Defined.

(** ** The session factory, continued *)

#[export] Instance adds_only_no_tracing_atomic :
  Atomic (adds_only not_tracing_start) not_tracing_start :=
  adds_only_atomic not_tracing_start (fun _ _ => I).

Lemma await_ok_inv c w v w1 :
  await c w = (Ok v, w1) ->
  exists l, adds w w1 (Called c (Ok v) :: l) /\ Forall is_served l.
Proof.
  intros H. destruct (await_run c w) as (r & l & w' & Hrun & Hadds & Fl & _).
  rewrite H in Hrun. injection Hrun as <- <-. eauto.
Qed.

(** A step that is tried, with both outcomes logged. *)
Lemma try_await_run c okmsg errmsg w :
  exists w' r l,
    try_except (await c;; log_ok okmsg) (fun e => log_err errmsg (Some e)) w
    = (Ok tt, w')
    /\ adds w w'
         (match r with
          | Ok _ => Log Okay okmsg None
          | Raise e => Log Err errmsg (Some e)
          end :: Called c r :: l)
    /\ Forall is_served l.
Proof.
  unfold try_except. rewrite bind_run.
  destruct (await_run c w) as (r & l & w1 & -> & H1 & F1 & _).
  exists (push (match r with
                | Ok _ => Log Okay okmsg None
                | Raise e => Log Err errmsg (Some e)
                end) w1), r, l.
  destruct r; (split; [reflexivity|]);
    (split; [apply adds_push, H1 | assumption]).
Qed.

(** The recording directory is prepared before the context is made,
    and the context is made with or without recording accordingly. *)
Lemma record_dir_run dir w :
  exists w' rm,
    try_except
      (invoke (Mkdir dir);;
       log_ok ("Video+Screens dir ready: " ++ path_str dir);;
       mret (video_kwargs dir, Some (PathDiv dir "screens")))
      (fun e =>
         log_err "Failed to prepare record_video_dir" (Some e);;
         mret (base_kwargs, None)) w
    = (Ok (match rm with
           | Ok _ => (video_kwargs dir, Some (PathDiv dir "screens"))
           | Raise _ => (base_kwargs, None)
           end), w')
    /\ adds w w'
         [match rm with
          | Ok _ => Log Okay ("Video+Screens dir ready: " ++ path_str dir) None
          | Raise e => Log Err "Failed to prepare record_video_dir" (Some e)
          end; Called (Mkdir dir) rm].
Proof.
  unfold try_except. rewrite bind_run. unfold invoke at 1.
  set (rm := snd (w_env w (w_trace w) (Mkdir dir))).
  set (w1 := push (Called (Mkdir dir) rm) w).
  assert (adds w w1 [Called (Mkdir dir) rm]) as H1 by reflexivity.
  clearbody w1. clearbody rm.
  destruct rm as [v|e]; cbn [fst snd];
    [eexists _, (Ok v) | eexists _, (Raise e)];
    (split; [reflexivity|]); apply (adds_push _ _ _ _ H1).
Qed.

Lemma open_context_recording_run cfg download_dir headless
    record_video_dir w context page a w' :
  open_context cfg download_dir headless record_video_dir w
  = (Ok (context, page, a), w') ->
  exists new pw browser,
    adds w w' new
    /\ before
         (Called (ChromiumLaunch pw (default (HEADLESS_DEFAULT cfg) headless)
                    launch_args) (Ok browser))
         (Called (NewPage context) (Ok (page_obj page))) new
    /\ match record_video_dir with
       | Some dir =>
           exists rm,
             before (Called (Mkdir dir) rm)
               (Called (NewContext browser
                          (match rm with
                           | Ok _ => video_kwargs dir
                           | Raise _ => base_kwargs
                           end)) (Ok context)) new
             /\ _mdac_screens page
                = match rm with
                  | Ok _ => Some (PathDiv dir "screens")
                  | Raise _ => None
                  end
             /\ (RECORD_TRACE cfg = true ->
                 exists rt,
                   before (Called (Mkdir dir) rm)
                     (Called (TracingStart context) rt) new)
       | None =>
           In (Called (NewContext browser base_kwargs) (Ok context)) new
           /\ _mdac_screens page = None
       end.
Proof.
  unfold open_context. intros H.
  apply bind_ok_inv in H as (pw & w1 & E1 & H).
  apply await_ok_inv in E1 as (l1 & H1 & _).
  apply (bind_steps_inv (adds_only (fun _ => True))) in H
    as (? & w2 & (l2 & H2 & _) & H); [|frame].
  apply bind_ok_inv in H as (browser & w3 & E3 & H).
  apply await_ok_inv in E3 as (l3 & H3 & _).
  apply bind_ok_inv in H as ([kw sd] & w4 & E4 & H).
  apply bind_ok_inv in H as (ctx & w5 & E5 & H).
  apply await_ok_inv in E5 as (l5 & H5 & _).
  apply (bind_steps_inv (adds_only (fun _ => True))) in H
    as (? & w6 & (l6 & H6 & _) & H); [|frame].
  apply bind_ok_inv in H as ([] & w7 & E7 & H).
  apply bind_ok_inv in H as (pg' & w8 & E8 & H).
  apply await_ok_inv in E8 as (l8 & H8 & _).
  pose proof H as Hrest.
  eapply (steps_run (adds_only (fun _ => True))) in Hrest as (l9 & H9 & _).
  2: { pose proof (steps_new_artifacts_adds_only (fun _ => True)) as Hnew.
       frame. }
  apply (bind_steps_inv same_artifacts) in H as (? & w9 & _ & H); [|frame].
  apply (bind_steps_inv same_artifacts) in H as (? & w10 & _ & H); [|frame].
  apply (bind_steps_inv same_artifacts) in H as (? & w11 & _ & H); [|frame].
  apply (bind_steps_inv same_artifacts) in H as (? & w12 & _ & H); [|frame].
  apply bind_ok_inv in H as (a' & w13 & _ & H).
  injection H as <- <- <- <-. simpl.
  assert (exists l7, adds w6 w7 l7
          /\ (RECORD_TRACE cfg && bool_decide (is_Some record_video_dir) = true ->
              exists rt, In (Called (TracingStart ctx) rt) l7))
    as (l7 & H7 & Htr).
  { destruct (RECORD_TRACE cfg && bool_decide (is_Some record_video_dir)).
    - destruct (try_await_run (TracingStart ctx) "Tracing started"
                  "Tracing start failed" w6) as (w7' & rt & l & R7 & A7 & _).
      rewrite E7 in R7. injection R7 as <-.
      eexists. split; [exact A7|]. intros _. exists rt. in_search.
    - injection E7 as <-. exists []. split; [reflexivity | discriminate]. }
  assert (forall l4, adds w3 w4 l4 ->
            adds w w13
              (l9 ++ Called (NewPage ctx) (Ok pg') :: l8 ++ l7 ++ l6
                  ++ Called (NewContext browser kw) (Ok ctx) :: l5 ++ l4
                  ++ Called (ChromiumLaunch pw
                               (default (HEADLESS_DEFAULT cfg) headless)
                               launch_args) (Ok browser) :: l3 ++ l2
                  ++ Called PlaywrightStart (Ok pw) :: l1)) as Hall.
  { intros l4 H4. unfold adds in *.
    rewrite H9, H8, H7, H6, H5, H4, H3, H2, H1. list_norm. reflexivity. }
  set (launch := Called (ChromiumLaunch pw
                          (default (HEADLESS_DEFAULT cfg) headless)
                          launch_args) (Ok browser)) in *.
  set (tail := (launch :: l3 ++ l2 ++ Called PlaywrightStart (Ok pw) :: l1)%list).
  destruct record_video_dir as [dir|].
  - destruct (record_dir_run dir w3) as (w4' & rm & R4 & A4).
    rewrite E4 in R4.
    assert (w4' = w4 /\ (kw, sd) = match rm with
                                   | Ok _ => (video_kwargs dir,
                                              Some (PathDiv dir "screens"))
                                   | Raise _ => (base_kwargs, None)
                                   end) as [-> Hkw]
      by (injection R4 as <- <-; auto).
    set (line := match rm with
                 | Ok _ => Log Okay ("Video+Screens dir ready: "
                                     ++ path_str dir) None
                 | Raise e =>
                     Log Err "Failed to prepare record_video_dir" (Some e)
                 end) in *.
    eexists _, pw, browser. split; [apply (Hall _ A4)|].
    split.
    { exists (l3 ++ l2 ++ Called PlaywrightStart (Ok pw) :: l1)%list,
        (l8 ++ l7 ++ l6 ++ Called (NewContext browser kw) (Ok ctx)
            :: l5 ++ [line; Called (Mkdir dir) rm])%list, l9.
      list_norm. reflexivity. }
    exists rm. split; [|split].
    + assert (kw = match rm with
                   | Ok _ => video_kwargs dir
                   | Raise _ => base_kwargs
                   end) as <- by (destruct rm; congruence).
      exists tail, (l5 ++ [line])%list,
        (l9 ++ Called (NewPage ctx) (Ok pg') :: l8 ++ l7 ++ l6)%list.
      subst tail. list_norm. reflexivity.
    + destruct rm; congruence.
    + intros Htrace. rewrite Htrace in Htr. simpl in Htr.
      destruct (Htr eq_refl) as (rt & Hin). exists rt.
      apply in_split in Hin as (la & lb & ->).
      exists tail,
        (lb ++ l6 ++ Called (NewContext browser kw) (Ok ctx)
            :: l5 ++ [line])%list,
        (l9 ++ Called (NewPage ctx) (Ok pg') :: l8 ++ la)%list.
      subst tail. list_norm. reflexivity.
  - injection E4 as <- <- <-.
    eexists _, pw, browser. split; [apply (Hall [] (adds_refl w3))|].
    split.
    { exists (l3 ++ l2 ++ Called PlaywrightStart (Ok pw) :: l1)%list,
        (l8 ++ l7 ++ l6 ++ Called (NewContext browser base_kwargs) (Ok ctx)
            :: l5)%list, l9.
      list_norm. reflexivity. }
    split; [in_search | reflexivity].
Qed.

Lemma open_context_no_tracing cfg download_dir headless record_video_dir :
  RECORD_TRACE cfg = false \/ record_video_dir = None ->
  steps (adds_only not_tracing_start)
    (open_context cfg download_dir headless record_video_dir).
Proof.
  pose proof (steps_new_artifacts_adds_only not_tracing_start) as Hnew.
  intros Hoff. unfold open_context, _attach_listeners.
  assert (RECORD_TRACE cfg && bool_decide (is_Some record_video_dir) = false)
    as ->.
  { destruct Hoff as [-> | ->]; [reflexivity|]. apply andb_false_r. }
  frame.
Qed.

(** X24. A session that [open_context] hands out was brought up in
    this order: the browser is launched, headless or not as asked (by
    default as configured), the recording directory is prepared, the
    context is made, and the page is opened in that context.  The
    context records video, and the page has a screenshots directory,
    exactly when the recording directory could be prepared; tracing is
    started whenever it is configured and a recording directory was
    asked for, whether or not the directory could be prepared, and
    never otherwise. *)
Theorem open_context_recording (cfg : Config) (download_dir : option Path)
    (headless : option bool) (record_video_dir : option Path)
    (w w' : world) (context : value) (page : Page) (a : nat) :
  open_context cfg download_dir headless record_video_dir w
  = (Ok (context, page, a), w') ->
  exists new pw browser,
    adds w w' new
    /\ before
         (Called (ChromiumLaunch pw (default (HEADLESS_DEFAULT cfg) headless)
                    launch_args) (Ok browser))
         (Called (NewPage context) (Ok (page_obj page))) new
    /\ match record_video_dir with
       | Some dir =>
           exists rm,
             before (Called (Mkdir dir) rm)
               (Called (NewContext browser
                          (match rm with
                           | Ok _ => video_kwargs dir
                           | Raise _ => base_kwargs
                           end)) (Ok context)) new
             /\ _mdac_screens page
                = match rm with
                  | Ok _ => Some (PathDiv dir "screens")
                  | Raise _ => None
                  end
             /\ (RECORD_TRACE cfg = true ->
                 exists rt,
                   before (Called (Mkdir dir) rm)
                     (Called (TracingStart context) rt) new)
       | None =>
           In (Called (NewContext browser base_kwargs) (Ok context)) new
           /\ _mdac_screens page = None
       end
    /\ (RECORD_TRACE cfg = false \/ record_video_dir = None ->
        Forall not_tracing_start new).
Proof.
  intros H.
  destruct (open_context_recording_run _ _ _ _ _ _ _ _ _ H)
    as (new & pw & browser & Hadds & Hlaunch & Hrec).
  exists new, pw, browser. do 3 (split; [assumption|]).
  intros Hoff.
  destruct (open_context_no_tracing cfg download_dir headless
              record_video_dir Hoff w) as (new' & Hadds' & Hall).
  rewrite H in Hadds'. simpl in Hadds'.
  rewrite (adds_inj _ _ _ _ Hadds Hadds'). exact Hall.
Qed.

Lemma open_context_recording_witness :
  let dir := PathOf "videos/P123" in
  let page := {| page_obj := VNone;
                 _mdac_screens := Some (PathDiv dir "screens") |} in
  exists new pw browser,
    adds (boot quiet)
      (snd (open_context default_config None None (Some dir) (boot quiet))) new
    /\ before
         (Called (ChromiumLaunch pw true launch_args) (Ok browser))
         (Called (NewPage VNone) (Ok VNone)) new
    /\ (exists rm,
          before (Called (Mkdir dir) rm)
            (Called (NewContext browser
                       (match rm with
                        | Ok _ => video_kwargs dir
                        | Raise _ => base_kwargs
                        end)) (Ok VNone)) new
          /\ _mdac_screens page
             = match rm with
               | Ok _ => Some (PathDiv dir "screens")
               | Raise _ => None
               end
          /\ (true = true ->
              exists rt,
                before (Called (Mkdir dir) rm)
                  (Called (TracingStart VNone) rt) new))
    /\ (true = false \/ Some dir = None -> Forall not_tracing_start new).
Proof.
  intros dir page.
  apply (open_context_recording default_config None None (Some dir)
           (boot quiet) _ VNone page 0).
  vm_compute. reflexivity.
Defined.

(** ** Rows that are not paused *)

#[export] Instance adds_only_no_gate_wait_atomic :
  Atomic (adds_only not_gate_wait) not_gate_wait :=
  adds_only_atomic not_gate_wait (fun _ _ => I).

Lemma steps_read_artifacts_adds_only (Q : event -> Prop) a :
  steps (adds_only Q) (Main.read_artifacts a).
Proof. intros w. exists []. split; [reflexivity | constructor]. Qed.

Lemma open_context_no_wait cfg download_dir headless record_video_dir :
  steps (adds_only not_gate_wait)
    (open_context cfg download_dir headless record_video_dir).
Proof.
  pose proof (steps_new_artifacts_adds_only not_gate_wait) as Hnew.
  unfold open_context, _attach_listeners. frame.
Qed.

Lemma _finalize_artifacts_no_wait cfg context page a record_dir :
  steps (adds_only not_gate_wait)
    (_finalize_artifacts cfg context page a record_dir).
Proof.
  pose proof (fun a f p =>
    steps_assign_adds_only not_gate_wait a f p I) as Hassign.
  unfold _finalize_artifacts, finalize_trace, finalize_close, finalize_video.
  frame.
Qed.

Lemma register_one_no_wait cfg page row gate_token :
  steps (adds_only not_gate_wait)
    (register_one cfg page row gate_token false).
Proof.
  unfold register_one, register_gate. cbn [andb].
  unfold register_fill, register_submit, navigate_safe, _screenshot,
    _fill_if_value, _select_if_value, set_date_by_id, _extract_region_code.
  frame.
Qed.

Lemma download_one_no_wait page row dir :
  steps (adds_only not_gate_wait) (download_one page row dir).
Proof.
  unfold download_one, download_lookup, download_direct, download_popup,
    navigate_safe, _screenshot, click_if_exists.
  frame.
Qed.

Lemma register_loop_no_wait cfg uuid4_hex record headless total todo :
  forall idx results,
    steps (adds_only not_gate_wait)
      (Main.register_loop cfg uuid4_hex record headless false idx total todo
         results).
Proof.
  pose proof (open_context_no_wait cfg) as Hopen.
  pose proof (_finalize_artifacts_no_wait cfg) as Hfin.
  pose proof (register_one_no_wait cfg) as Hreg.
  pose proof (steps_read_artifacts_adds_only not_gate_wait) as Hread.
  induction todo as [|row todo IH]; intros idx results; simpl; [frame|].
  apply steps_bind; [|intros r; apply IH].
  unfold Main.register_row, Main.log. frame.
Qed.

Lemma download_loop_no_wait cfg record headless total todo :
  forall idx results,
    steps (adds_only not_gate_wait)
      (Main.download_loop cfg record headless idx total todo results).
Proof.
  pose proof (open_context_no_wait cfg) as Hopen.
  pose proof (_finalize_artifacts_no_wait cfg) as Hfin.
  pose proof download_one_no_wait as Hdl.
  pose proof (steps_read_artifacts_adds_only not_gate_wait) as Hread.
  induction todo as [|row todo IH]; intros idx results; simpl; [frame|].
  apply steps_bind; [|intros r; apply IH].
  unfold Main.download_row, Main.log. frame.
Qed.

(** X25. A batch never waits for a human unless it is asked to or the
    browser is shown: [/download] never waits at the gate, and
    [/register] does not when pausing is switched off, or left open
    for a headless browser. *)
Theorem unpaused_batch_never_waits (cfg : Config) (uuid4_hex : nat -> string)
    (record : bool) (headless pause : option bool) :
  default (negb (default (HEADLESS_DEFAULT cfg) headless)) pause = false ->
  (forall rows,
     steps (adds_only not_gate_wait)
       (Main.register_rows cfg uuid4_hex rows record headless pause))
  /\ (forall rows,
        steps (adds_only not_gate_wait)
          (Main.download_rows cfg rows record headless)).
Proof.
  intros Hoff. split; intros rows.
  - unfold Main.register_rows, Main.default_pause. rewrite Hoff.
    apply steps_bind; [apply register_loop_no_wait | intros; frame].
  - unfold Main.download_rows.
    apply steps_bind; [apply download_loop_no_wait | intros; frame].
Qed.

Lemma unpaused_batch_never_waits_witness :
  (forall rows,
     steps (adds_only not_gate_wait)
       (Main.register_rows default_config (fun _ => "0123456789abcdef") rows
          true None None))
  /\ (forall rows,
        steps (adds_only not_gate_wait)
          (Main.download_rows default_config rows true None)).
Proof.
  apply (unpaused_batch_never_waits default_config
           (fun _ => "0123456789abcdef") true None None).
  reflexivity.
Defined.
